(** * offline-transcriber: the transcription pipeline of [transcriber.py]

    A shallow embedding of the batch pipeline of [transcriber.py]:
    the localized text table ([TEXTS], [_get_text], [_asr_language]), the
    enrichment invokers ([_ollama_summary], [_ollama_bullets]), the
    transcription invoker ([_transcribe_file]), the format converter
    ([_needs_wav_conversion], [_convert_to_temp_wav]), the renderer
    ([_render_results]), the queueing entry point ([_extract_recording_path],
    [_normalize_files], [add_recording_to_queue]) and the orchestrator
    ([transcribe_many]).

    Conventions.
    - A Python [str] is a [string] whose characters are code points below 256.
      Every text of [TEXTS] that the pipeline uses is ASCII.
    - A Python [float] is a primitive [float]; [0.0] is [0%float].
    - Code that can raise runs in a state-and-exception monad [M S]; the
      exceptions are records of a Python class and the text of [str(exc)].
    - The operating system and the two capabilities (speech recognition, text
      generation) are an environment [Env] of oracles.  Every external call is
      answered by the oracle at the current [tick], which the call then
      advances; [time.perf_counter()] reads the oracle [clock] at the current
      tick. *)

From Stdlib Require Import Floats ZArith Ascii String.
From stdpp Require Import base option list gmap strings.

Local Open Scope Z_scope.
Set Warnings "-register-all,-clear-no-such-hyp".

(** ** Python strings *)

Module PyStr.

(** [str.isspace] on one character, for code points below 256. *)
Definition isspace (c : ascii) : bool :=
  let n := N_of_ascii c in
  ((9 <=? n) && (n <=? 13) || (28 <=? n) && (n <=? 32)
   || (n =? 133) || (n =? 160))%N.

Fixpoint lstrip (s : string) : string :=
  match s with
  | EmptyString => EmptyString
  | String c r => if isspace c then lstrip r else s
  end.

Definition rstrip (s : string) : string := String.rev (lstrip (String.rev s)).

(** [s.strip()] *)
Definition strip (s : string) : string := rstrip (lstrip s).

(** [str.lower] on one character, for code points below 256: [A-Z] and the
    capital letters of [0xC0 .. 0xDE] (the multiplication sign apart). *)
Definition lower_char (c : ascii) : ascii :=
  let n := N_of_ascii c in
  if ((65 <=? n) && (n <=? 90)
      || (192 <=? n) && (n <=? 222) && negb (n =? 215))%N
  then ascii_of_N (n + 32) else c.

Fixpoint lower (s : string) : string :=
  match s with
  | EmptyString => EmptyString
  | String c r => String (lower_char c) (lower r)
  end.

(** Truthiness of a string: [bool(s)]. *)
Definition truthy (s : string) : bool :=
  match s with EmptyString => false | String _ _ => true end.

(** [a or b] on strings. *)
Definition or_else (a b : string) : string := if truthy a then a else b.

(** [s.rfind(c)] for a one-character needle: the highest index, or [-1]. *)
Fixpoint rfind_from (c : ascii) (s : string) (i : Z) (found : Z) : Z :=
  match s with
  | EmptyString => found
  | String d r => rfind_from c r (i + 1) (if Ascii.eqb d c then i else found)
  end.

Definition rfind (c : ascii) (s : string) : Z := rfind_from c s 0 (-1).

(** The slices [s[i:]] and [s[:i]] for [0 <= i]. *)
Fixpoint drop (n : nat) (s : string) : string :=
  match n, s with
  | O, _ => s
  | S n', String _ r => drop n' r
  | S _, EmptyString => EmptyString
  end.

Fixpoint take (n : nat) (s : string) : string :=
  match n, s with
  | S n', String c r => String c (take n' r)
  | _, _ => EmptyString
  end.

Definition slice_from (i : Z) (s : string) : string := drop (Z.to_nat i) s.
Definition slice_to (i : Z) (s : string) : string := take (Z.to_nat i) s.

(** [s.startswith(p)], returning the rest of [s] after [p]. *)
Fixpoint strip_prefix (p s : string) : option string :=
  match p, s with
  | EmptyString, _ => Some s
  | String a p', String b s' => if Ascii.eqb a b then strip_prefix p' s' else None
  | String _ _, EmptyString => None
  end.

(** [template.format(key=value)] for a template whose replacement fields are
    all [{key}] (written here with its braces, for instance ["{error}"]) and
    which has no other brace: each field is replaced by [value], and the
    inserted text is not scanned again.  The templates of [TEXTS] are such. *)
Fixpoint format_go (field value : string) (skip : nat) (t : string) : string :=
  match t with
  | EmptyString => EmptyString
  | String c r =>
      match skip with
      | S k => format_go field value k r
      | O =>
          match strip_prefix field t with
          | Some _ => value +:+ format_go field value (String.length field - 1)%nat r
          | None => String c (format_go field value O r)
          end
      end
  end.

Definition format (field value template : string) : string :=
  format_go field value O template.

(** [html.escape(s, quote)]: [&], [<], [>] and, with [quote], both quotes. *)
Definition escape_char (quote : bool) (c : ascii) : string :=
  if Ascii.eqb c "&" then "&amp;"
  else if Ascii.eqb c "<" then "&lt;"
  else if Ascii.eqb c ">" then "&gt;"
  else if quote && Ascii.eqb c (ascii_of_N 34) then "&quot;"
  else if quote && Ascii.eqb c "'" then "&#x27;"
  else String c EmptyString.

Fixpoint html_escape (quote : bool) (s : string) : string :=
  match s with
  | EmptyString => EmptyString
  | String c r => escape_char quote c +:+ html_escape quote r
  end.

(** [''.join(parts)] *)
Definition join (parts : list string) : string :=
  foldr String.append EmptyString parts.

End PyStr.

(** ** [os.path] (POSIX flavour) *)

Module PosixPath.

(** [posixpath.basename]: [i = p.rfind('/') + 1; return p[i:]]. *)
Definition basename (p : string) : string :=
  let i := PyStr.rfind "/" p + 1 in
  PyStr.slice_from i p.

(** The loop of [genericpath._splitext] that skips the leading dots of the
    file name; it runs at most [length p] times. *)
Fixpoint splitext_scan (fuel : nat) (p : string) (filenameIndex dotIndex : Z)
  : string * string :=
  match fuel with
  | O => (p, EmptyString)
  | S fuel' =>
      if filenameIndex <? dotIndex then
        if negb (String.eqb
                   (PyStr.take 1 (PyStr.slice_from filenameIndex p)) ".")
        then (PyStr.slice_to dotIndex p, PyStr.slice_from dotIndex p)
        else splitext_scan fuel' p (filenameIndex + 1) dotIndex
      else (p, EmptyString)
  end.

(** [posixpath.splitext] *)
Definition splitext (p : string) : string * string :=
  let sepIndex := PyStr.rfind "/" p in
  let dotIndex := PyStr.rfind "." p in
  if sepIndex <? dotIndex
  then splitext_scan (String.length p) p (sepIndex + 1) dotIndex
  else (p, EmptyString).

End PosixPath.

(** ** The localized texts *)

Definition OLLAMA_MODEL : string := "qwen3:30b-a3b-instruct-2507-q4_K_M".

Definition LANG_DEFAULT : string := "it".

Definition LANG_CHOICES : list (string * string) :=
  [("Italiano", "it"); ("English", "en")].

Record Prompts := {
  prompt_summary : string;
  prompt_bullets : string
}.

Record Errors := {
  ffmpeg_not_found : string;
  wav_conversion_failed : string;
  file_not_found : string;
  transcription_error : string
}.

(** The entries of ["ui"] that the pipeline reads.  The remaining entries
    (header, alert, labels of the widgets) are read by the interface wiring
    only. *)
Record Ui := {
  empty_results : string;
  result_time : string;
  pane_transcription_title : string;
  pane_summary_title : string;
  pane_bullets_title : string;
  copy_label : string;
  copy_done : string;
  copy_transcription_aria : string;
  copy_summary_aria : string;
  copy_bullets_aria : string;
  transcription_empty : string;
  summary_placeholder : string;
  bullets_placeholder : string;
  default_audio_name : string;
  record_added : string;
  record_missing : string
}.

Record Texts := {
  prompts : Prompts;
  errors : Errors;
  ui : Ui
}.

(** A line feed, for the two-line breaks of the prompts. *)
Definition LF : string := String (ascii_of_N 10) EmptyString.

Definition TEXTS_it : Texts := {|
  prompts := {|
    prompt_summary :=
      "Fai un riassunto schematico del testo seguente. "
      +:+ "Includi solo gli elementi chiave in un testo sintetico. "
      +:+ "Non usare elenchi puntati e non aggiungere testo extra." +:+ LF +:+ LF
      +:+ "Testo da riassumere:" +:+ LF +:+ "{content}";
    prompt_bullets :=
      "Crea una lista puntata con gli elementi essenziali del testo seguente. "
      +:+ "Frasi brevi, senza testo extra." +:+ LF +:+ LF
      +:+ "Testo:" +:+ LF +:+ "{content}"
  |};
  errors := {|
    ffmpeg_not_found := "ffmpeg non trovato per la conversione in WAV.";
    wav_conversion_failed := "Conversione in WAV non riuscita.";
    file_not_found := "File non trovato.";
    transcription_error := "Errore durante conversione/trascrizione: {error}"
  |};
  ui := {|
    empty_results := "Nessun risultato da mostrare.";
    result_time := "Tempo: {seconds:.2f}s";
    pane_transcription_title := "Trascrizione";
    pane_summary_title := "Riassunto";
    pane_bullets_title := "Lista puntata";
    copy_label := "Copia";
    copy_done := "Copiato";
    copy_transcription_aria := "Copia trascrizione";
    copy_summary_aria := "Copia riassunto";
    copy_bullets_aria := "Copia lista puntata";
    transcription_empty := "Trascrizione vuota.";
    summary_placeholder := "Riassunto non disponibile.";
    bullets_placeholder := "Lista puntata non disponibile.";
    default_audio_name := "audio";
    record_added := "Registrazione aggiunta alla coda: {name}";
    record_missing := "Nessuna registrazione da aggiungere."
  |}
|}.

Definition TEXTS_en : Texts := {|
  prompts := {|
    prompt_summary :=
      "Provide a structured summary of the following text. "
      +:+ "Include only the key elements in a concise text. "
      +:+ "Do not use bullet points and do not add extra text." +:+ LF +:+ LF
      +:+ "Text to summarize:" +:+ LF +:+ "{content}";
    prompt_bullets :=
      "Create a bullet list with the essential elements of the following text. "
      +:+ "Short sentences, without extra text." +:+ LF +:+ LF
      +:+ "Text:" +:+ LF +:+ "{content}"
  |};
  errors := {|
    ffmpeg_not_found := "ffmpeg not found for WAV conversion.";
    wav_conversion_failed := "WAV conversion failed.";
    file_not_found := "File not found.";
    transcription_error := "Error during conversion/transcription: {error}"
  |};
  ui := {|
    empty_results := "No results to display.";
    result_time := "Time: {seconds:.2f}s";
    pane_transcription_title := "Transcription";
    pane_summary_title := "Summary";
    pane_bullets_title := "Bullet list";
    copy_label := "Copy";
    copy_done := "Copied";
    copy_transcription_aria := "Copy transcription";
    copy_summary_aria := "Copy summary";
    copy_bullets_aria := "Copy bullet list";
    transcription_empty := "Empty transcription.";
    summary_placeholder := "Summary not available.";
    bullets_placeholder := "Bullet list not available.";
    default_audio_name := "audio";
    record_added := "Recording added to the queue: {name}";
    record_missing := "No recording to add."
  |}
|}.

(** [TEXTS]: the table, keyed by language code. *)
Definition TEXTS : gmap string Texts :=
  <["it" := TEXTS_it]> (<["en" := TEXTS_en]> ∅).

#[global] Instance Texts_inhabited : Inhabited Texts := populate TEXTS_it.

(** [TEXTS.get(lang, TEXTS[LANG_DEFAULT])] *)
Definition _get_text (lang : string) : Texts :=
  default (TEXTS !!! LANG_DEFAULT) (TEXTS !! lang).

Definition _asr_language (lang : string) : string :=
  if String.eqb lang "it" then "italian" else "english".

(** ** Exceptions *)

(** The exception classes the pipeline meets, all below [Exception]. *)
Inductive exn_class :=
  | Exception
  | RuntimeError
  | OSError
  | FileNotFoundError
  | FileExistsError
  | PermissionError
  | TimeoutError
  | ConnectionError
  | ConnectionResetError
  | URLError
  | HTTPError
  | CalledProcessError
  | ValueError
  | JSONDecodeError
  | UnicodeDecodeError
  | AttributeError.

#[global] Instance exn_class_eq_dec : EqDecision exn_class.
Proof. solve_decision. Defined.

(** The base class, as Python declares it ([SubprocessError] and
    [UnicodeError], which no handler names, are skipped). *)
Definition base_class (c : exn_class) : option exn_class :=
  match c with
  | Exception => None
  | RuntimeError | OSError | CalledProcessError | ValueError | AttributeError =>
      Some Exception
  | FileNotFoundError | FileExistsError | PermissionError | TimeoutError
  | ConnectionError | URLError => Some OSError
  | ConnectionResetError => Some ConnectionError
  | HTTPError => Some URLError
  | JSONDecodeError | UnicodeDecodeError => Some ValueError
  end.

Fixpoint issubclass_fuel (fuel : nat) (c d : exn_class) : bool :=
  bool_decide (c = d) ||
  match fuel, base_class c with
  | S fuel', Some b => issubclass_fuel fuel' b d
  | _, _ => false
  end.

(** No class is more than three steps below [Exception]. *)
Definition issubclass (c d : exn_class) : bool := issubclass_fuel 3 c d.

(** A raised exception: its class and the text of [str(exc)]. *)
Record exn := Exn {
  exn_cls : exn_class;
  exn_str : string
}.

Definition isinstance (e : exn) (c : exn_class) : bool :=
  issubclass (exn_cls e) c.

(** ** The state-and-exception monad *)

Inductive result (A : Type) :=
  | Return (a : A)
  | Raise (e : exn).
Arguments Return {A} a.
Arguments Raise {A} e.

Definition M (S A : Type) : Type := S -> result A * S.

Definition ret {S A} (a : A) : M S A := fun s => (Return a, s).

Definition raise {S A} (e : exn) : M S A := fun s => (Raise e, s).

Definition bind {S A B} (m : M S A) (k : A -> M S B) : M S B :=
  fun s =>
    match m s with
    | (Return a, s') => k a s'
    | (Raise e, s') => (Raise e, s')
    end.

Notation "'let*' x ':=' m 'in' k" := (bind m (fun x => k))
  (at level 10, x name, m at level 100, k at level 200, only parsing).
Notation "m >> k" := (bind m (fun _ => k))
  (at level 100, k at level 200, only parsing, right associativity).

Definition gets {S A} (f : S -> A) : M S A := fun s => (Return (f s), s).

Definition modify {S} (f : S -> S) : M S unit := fun s => (Return tt, f s).

(** An [except] clause: the classes it names and its body. *)
Definition handler (S A : Type) : Type := list exn_class * (exn -> M S A).

(** The first clause that matches [e], as Python picks it. *)
Fixpoint find_handler {S A} (e : exn) (hs : list (handler S A))
  : option (exn -> M S A) :=
  match hs with
  | [] => None
  | (classes, h) :: hs' =>
      if existsb (isinstance e) classes then Some h else find_handler e hs'
  end.

(** [try: m  except ...: ...] *)
Definition try_except {S A} (m : M S A) (hs : list (handler S A)) : M S A :=
  fun s =>
    match m s with
    | (Return a, s') => (Return a, s')
    | (Raise e, s') =>
        match find_handler e hs with
        | Some h => h e s'
        | None => (Raise e, s')
        end
    end.

(** [try: m  finally: fin]: [fin] runs on both exits, and an exception of
    [fin] replaces the outcome of [m]. *)
Definition try_finally {S A} (m : M S A) (fin : M S unit) : M S A :=
  fun s =>
    let '(r, s') := m s in
    match fin s' with
    | (Return _, s'') => (r, s'')
    | (Raise e, s'') => (Raise e, s'')
    end.

(** [for x in xs: body x] *)
Fixpoint for_each {S A} (xs : list A) (body : A -> M S unit) : M S unit :=
  match xs with
  | [] => ret tt
  | x :: xs' => body x >> for_each xs' body
  end.

(** ** The environment: operating system and capabilities *)

(** A JSON value, as [json.loads] returns it; an object keeps its members in
    the order of the text. *)
Inductive json :=
  | JNull
  | JBool (b : bool)
  | JInt (n : Z)
  | JFloat (x : float)
  | JString (s : string)
  | JArray (items : list json)
  | JObject (members : list (string * json)).

(** The body of an HTTP response, by what [decode("utf-8")] and [json.loads]
    make of it. *)
Inductive Body :=
  | BodyUndecodable (msg : string)   (* not UTF-8: UnicodeDecodeError *)
  | BodyMalformed (msg : string)     (* not JSON: JSONDecodeError *)
  | BodyJson (j : json).

(** [urllib.request.urlopen(req, timeout)] followed by [resp.read()]. *)
Inductive UrlOutcome :=
  | UrlRaise (e : exn)
  | UrlResponse (body : Body).

(** [subprocess.run(cmd, check=True, ...)]: the process could not be started
    ([FileNotFoundError] when the binary is absent), or it ran and exited with
    [returncode], leaving or not a file at its output path. *)
Inductive RunOutcome :=
  | RunNotStarted (e : exn)
  | RunCompleted (returncode : Z) (output_exists : bool).

(** The speech-recognition pipeline [_ASR]: it raises, or returns a dict
    whose ["text"] entry may be absent. *)
Inductive AsrOutcome :=
  | AsrRaise (e : exn)
  | AsrReturn (text : option string).

(** The request of the enrichment invokers. *)
Record Request := {
  req_url : string;
  req_method : string;
  req_content_type : string;
  req_model : string;
  req_prompt : string;
  req_stream : bool;
  req_timeout : Z
}.

Record Env := {
  (** [tempfile]: the directory, the number of names tried, and the random
      part of the n-th candidate name *)
  tmp_dir : string;
  TMP_MAX : nat;
  tmp_random : nat -> string;
  (** the answers to the external calls, by command or argument and tick *)
  run : list string -> nat -> RunOutcome;
  asr : string -> string -> nat -> AsrOutcome;
  urlopen : Request -> nat -> UrlOutcome;
  (** [os.remove]: the error it fails with, if it fails *)
  remove_error : string -> nat -> option string;
  (** [time.perf_counter()] at each tick *)
  clock : nat -> float;
  (** Python's [format(x, ".2f")] *)
  format_2f : float -> string
}.

(** What the pipeline asked of the outside world. *)
Inductive event :=
  | EvRun (cmd : list string)
  | EvAsr (path language task : string) (return_timestamps : bool)
  | EvUrlopen (req : Request)
  | EvRemove (path : string).

(** The world: the paths that exist, the number of external calls made so
    far, the number of temporary names drawn, and the calls made. *)
Record World := {
  fs : gset string;
  tick : nat;
  tmp_seq : nat;
  trace : list event
}.

Definition with_fs (f : gset string) (w : World) : World :=
  {| fs := f; tick := tick w; tmp_seq := tmp_seq w; trace := trace w |}.

(** One external call: the tick advances and the call is recorded. *)
Definition called (ev : event) (w : World) : World :=
  {| fs := fs w; tick := S (tick w); tmp_seq := tmp_seq w;
     trace := trace w ++ [ev] |}.

Definition drew_name (w : World) : World :=
  {| fs := fs w; tick := tick w; tmp_seq := S (tmp_seq w); trace := trace w |}.

Section Primitives.

Context (E : Env).

(** [os.path.exists(p)] *)
Definition os_path_exists (p : string) : M World bool :=
  gets (fun w => bool_decide (p ∈ fs w)).

(** [os.remove(p)] *)
Definition os_remove (p : string) : M World unit :=
  fun w =>
    let w' := called (EvRemove p) w in
    match remove_error E p (tick w) with
    | Some msg => (Raise (Exn OSError msg), w')
    | None =>
        if bool_decide (p ∈ fs w)
        then (Return tt, with_fs (fs w ∖ {[p]}) w')
        else (Raise (Exn FileNotFoundError
                       ("[Errno 2] No such file or directory: '" +:+ p +:+ "'")),
              w')
    end.

(** [time.perf_counter()] *)
Definition perf_counter : M World float :=
  gets (fun w => clock E (tick w)).

(** The candidate path [dir/prefix + random + suffix]. *)
Definition tmp_path (prefix suffix : string) (n : nat) : string :=
  tmp_dir E +:+ "/" +:+ prefix +:+ tmp_random E n +:+ suffix.

(** The loop of [tempfile._mkstemp_inner]: a candidate that exists is
    skipped; the first free one is created. *)
Fixpoint mkstemp_inner (fuel : nat) (prefix suffix : string) : M World string :=
  match fuel with
  | O => raise (Exn FileExistsError
                  "[Errno 17] No usable temporary file name found")
  | S fuel' =>
      fun w =>
        let file := tmp_path prefix suffix (tmp_seq w) in
        if bool_decide (file ∈ fs w)
        then mkstemp_inner fuel' prefix suffix (drew_name w)
        else (Return file, with_fs ({[file]} ∪ fs w) (drew_name w))
  end.

(** [tempfile.NamedTemporaryFile(prefix, suffix, delete=False)], closed at
    once: the name of the file created. *)
Definition NamedTemporaryFile (prefix suffix : string) : M World string :=
  mkstemp_inner (TMP_MAX E) prefix suffix.

(** [subprocess.run(cmd, check=True, stdout=PIPE, stderr=PIPE)]; the output
    path of the command is its last word.  The text of the
    [CalledProcessError] is never read: the converter replaces the error. *)
Definition subprocess_run (cmd : list string) : M World unit :=
  fun w =>
    let w' := called (EvRun cmd) w in
    match run E cmd (tick w) with
    | RunNotStarted e => (Raise e, w')
    | RunCompleted returncode output_exists =>
        let out := List.last cmd EmptyString in
        let w'' := with_fs (if output_exists then {[out]} ∪ fs w
                            else fs w ∖ {[out]}) w' in
        if returncode =? 0 then (Return tt, w'')
        else (Raise (Exn CalledProcessError
                       "Command returned non-zero exit status."), w'')
    end.

(** [_ASR(path, return_timestamps=True,
          generate_kwargs={"language": language, "task": task})] *)
Definition _ASR (path language task : string) (return_timestamps : bool)
  : M World (option string) :=
  fun w =>
    let w' := called (EvAsr path language task return_timestamps) w in
    match asr E path language (tick w) with
    | AsrRaise e => (Raise e, w')
    | AsrReturn text => (Return text, w')
    end.

(** [with urlopen(req, timeout) as resp: resp.read()] *)
Definition urlopen_read (req : Request) : M World Body :=
  fun w =>
    let w' := called (EvUrlopen req) w in
    match urlopen E req (tick w) with
    | UrlRaise e => (Raise e, w')
    | UrlResponse body => (Return body, w')
    end.

End Primitives.

(** [body.decode("utf-8")] then [json.loads]. *)
Definition json_loads {S} (body : Body) : M S json :=
  match body with
  | BodyUndecodable msg => raise (Exn UnicodeDecodeError msg)
  | BodyMalformed msg => raise (Exn JSONDecodeError msg)
  | BodyJson j => ret j
  end.

(** The name of the Python type of a JSON value. *)
Definition py_type_name (j : json) : string :=
  match j with
  | JNull => "NoneType"
  | JBool _ => "bool"
  | JInt _ => "int"
  | JFloat _ => "float"
  | JString _ => "str"
  | JArray _ => "list"
  | JObject _ => "dict"
  end.

Definition no_attribute {S A} (j : json) (attr : string) : M S A :=
  raise (Exn AttributeError
           ("'" +:+ py_type_name j +:+ "' object has no attribute '"
            +:+ attr +:+ "'")).

(** A later member of an object replaces an earlier one of the same key. *)
Fixpoint members_get (key : string) (members : list (string * json))
  : option json :=
  match members with
  | [] => None
  | (k, v) :: rest =>
      match members_get key rest with
      | Some v' => Some v'
      | None => if String.eqb k key then Some v else None
      end
  end.

(** [parsed.get(key, default)] *)
Definition json_get {S} (parsed : json) (key : string) (dflt : json) : M S json :=
  match parsed with
  | JObject members => ret (default dflt (members_get key members))
  | _ => no_attribute parsed "get"
  end.

(** [value.strip()] *)
Definition json_strip {S} (value : json) : M S string :=
  match value with
  | JString s => ret (PyStr.strip s)
  | _ => no_attribute value "strip"
  end.

(** ** The result records *)

(** One entry of the results list: a dict with the keys ["file"], ["text"],
    ["summary"], ["bullets"], ["seconds"].  A key that the dict does not hold
    is [None]. *)
Record Item := {
  item_file : option string;
  item_text : option string;
  item_summary : option string;
  item_bullets : option string;
  item_seconds : option float
}.

(** ** The enrichment and transcription invokers *)

Section Invokers.

Context (E : Env).

(** The [urllib.request.Request] both enrichment invokers build: a POST of
    [{"model": OLLAMA_MODEL, "prompt": prompt, "stream": False}]. *)
Definition ollama_request (prompt : string) : Request := {|
  req_url := "http://localhost:11434/api/generate";
  req_method := "POST";
  req_content_type := "application/json";
  req_model := OLLAMA_MODEL;
  req_prompt := prompt;
  req_stream := false;
  req_timeout := 180
|}.

Definition _ollama_summary (text lang : string) : M World string :=
  let prompt :=
    PyStr.format "{content}" text (prompt_summary (prompts (_get_text lang))) in
  let req := ollama_request prompt in
  try_except
    (let* body := urlopen_read E req in
     let* parsed := json_loads body in
     let* value := json_get parsed "response" (JString EmptyString) in
     json_strip value)
    [([URLError; HTTPError; JSONDecodeError], fun _ => ret EmptyString)].

Definition _ollama_bullets (text lang : string) : M World string :=
  let prompt :=
    PyStr.format "{content}" text (prompt_bullets (prompts (_get_text lang))) in
  let req := ollama_request prompt in
  try_except
    (let* body := urlopen_read E req in
     let* parsed := json_loads body in
     let* value := json_get parsed "response" (JString EmptyString) in
     json_strip value)
    [([URLError; HTTPError; JSONDecodeError], fun _ => ret EmptyString)].

(** [display_name or os.path.basename(filepath)] *)
Definition display_or_basename (display_name : option string) (filepath : string)
  : string :=
  match display_name with
  | Some d => PyStr.or_else d (PosixPath.basename filepath)
  | None => PosixPath.basename filepath
  end.

Definition _transcribe_file (filepath : string) (summarize bullet_list : bool)
    (lang : string) (display_name : option string) : M World Item :=
  let* start := perf_counter E in
  let* result := _ASR E filepath (_asr_language lang) "transcribe" true in
  let text := PyStr.strip (default EmptyString result) in
  let* summary := (if summarize && PyStr.truthy text
              then _ollama_summary text lang else ret EmptyString) in
  let* bullets := (if bullet_list && PyStr.truthy text
              then _ollama_bullets text lang else ret EmptyString) in
  let* stop := perf_counter E in
  let elapsed := (stop - start)%float in
  ret {| item_file := Some (display_or_basename display_name filepath);
         item_text := Some text;
         item_summary := Some summary;
         item_bullets := Some bullets;
         item_seconds := Some elapsed |}.

(** ** The format converter *)

Definition _needs_wav_conversion (filepath : string) : bool :=
  let '(_, ext) := PosixPath.splitext filepath in
  negb (String.eqb (PyStr.lower ext) ".wav").

(** [if os.path.exists(p): os.remove(p)] *)
Definition remove_if_exists (p : string) : M World unit :=
  let* there := os_path_exists p in
  if there then os_remove E p else ret tt.

Definition _convert_to_temp_wav (filepath lang : string) : M World string :=
  let errors := errors (_get_text lang) in
  let* temp_file := NamedTemporaryFile E "whisper_tmp_" ".wav" in
  let cmd := ["ffmpeg"; "-y"; "-i"; filepath; "-ac"; "1"; "-ar"; "16000";
              temp_file] in
  try_except
    (subprocess_run E cmd)
    [([FileNotFoundError],
      fun _ => remove_if_exists temp_file >>
               raise (Exn RuntimeError (ffmpeg_not_found errors)));
     ([CalledProcessError],
      fun _ => remove_if_exists temp_file >>
               raise (Exn RuntimeError (wav_conversion_failed errors)))] >>
  ret temp_file.

(** ** The renderer *)

(** One pane of a card: title, copy button and body. *)
Definition result_pane (title attr copy_done aria disabled_attr copy_label body
  : string) : string :=
  "<div class='result-pane'>"
  +:+ "<div class='pane-header'>"
  +:+ "<div class='pane-title'>" +:+ title +:+ "</div>"
  +:+ "<button class='copy-btn' type='button' data-copy='" +:+ attr +:+ "' "
  +:+ "data-copied-label='" +:+ copy_done +:+ "' "
  +:+ "aria-label='" +:+ aria +:+ "' " +:+ disabled_attr +:+ ">"
  +:+ copy_label +:+ "</button>"
  +:+ "</div>"
  +:+ "<div class='pane-body'>" +:+ body +:+ "</div>"
  +:+ "</div>".

(** ["disabled" if not raw else ""] *)
Definition disabled_unless (raw : string) : string :=
  if PyStr.truthy raw then EmptyString else "disabled".

(** The body of the loop of [_render_results]: the card of one item. *)
Definition render_card (u : Ui) (summarize_enabled bullets_enabled : bool)
    (item : Item) : string :=
  let escape := PyStr.html_escape true in
  let filename := escape (default (default_audio_name u) (item_file item)) in
  let text_raw := default EmptyString (item_text item) in
  let summary_raw := default EmptyString (item_summary item) in
  let bullets_raw := default EmptyString (item_bullets item) in
  let text := escape text_raw in
  let text_attr := escape text_raw in
  let summary := escape summary_raw in
  let summary_attr := escape summary_raw in
  let bullets := escape bullets_raw in
  let bullets_attr := escape bullets_raw in
  let seconds := default 0%float (item_seconds item) in
  let result_time :=
    escape (PyStr.format "{seconds:.2f}" (format_2f E seconds) (result_time u)) in
  let panes :=
    [result_pane (escape (pane_transcription_title u)) text_attr
       (escape (copy_done u)) (escape (copy_transcription_aria u))
       (disabled_unless text_raw) (escape (copy_label u))
       (PyStr.or_else text (escape (transcription_empty u)))]
    ++ (if summarize_enabled
        then [result_pane (escape (pane_summary_title u)) summary_attr
                (escape (copy_done u)) (escape (copy_summary_aria u))
                (disabled_unless summary_raw) (escape (copy_label u))
                (PyStr.or_else summary (escape (summary_placeholder u)))]
        else [])
    ++ (if bullets_enabled
        then [result_pane (escape (pane_bullets_title u)) bullets_attr
                (escape (copy_done u)) (escape (copy_bullets_aria u))
                (disabled_unless bullets_raw) (escape (copy_label u))
                (PyStr.or_else bullets (escape (bullets_placeholder u)))]
        else []) in
  "<div class='result-card'>"
  +:+ "<div class='result-header'>"
  +:+ "<div class='result-title'>" +:+ filename +:+ "</div>"
  +:+ "</div>"
  +:+ "<div class='result-meta'>" +:+ result_time +:+ "</div>"
  +:+ "<div class='result-body'>"
  +:+ PyStr.join panes
  +:+ "</div>"
  +:+ "</div>".

Definition _render_results (items : list Item)
    (summarize_enabled bullets_enabled : bool) (lang : string) : string :=
  let u := ui (_get_text lang) in
  match items with
  | [] => EmptyString
  | _ =>
      let cards := map (render_card u summarize_enabled bullets_enabled) items in
      "<div class='results-grid'>" +:+ PyStr.join cards +:+ "</div>"
  end.

End Invokers.

(** ** The audio normalizer and the queueing entry point *)

(** A value under a key of an upload record: a string or [None]. *)
Inductive pyval :=
  | PyNone
  | PyStr (s : string).

(** What the interface hands over as a recording or as an entry of the file
    list: [None], a path, an upload record, or anything else. *)
Inductive pyobj :=
  | ObjNone
  | ObjStr (s : string)
  | ObjDict (d : gmap string pyval)
  | ObjOther.

(** [bool(v)] *)
Definition pyval_truthy (v : pyval) : bool :=
  match v with
  | PyNone => false
  | PyStr s => PyStr.truthy s
  end.

(** [d.get(key)] *)
Definition dict_get (d : gmap string pyval) (key : string) : pyval :=
  default PyNone (d !! key).

(** [a or b] *)
Definition pyval_or (a b : pyval) : pyval := if pyval_truthy a then a else b.

(** The loop [for key in keys: value = recording.get(key); if value: return value]. *)
Fixpoint first_truthy (d : gmap string pyval) (keys : list string) : option string :=
  match keys with
  | [] => None
  | key :: keys' =>
      match dict_get d key with
      | PyStr s => if PyStr.truthy s then Some s else first_truthy d keys'
      | PyNone => first_truthy d keys'
      end
  end.

Definition _extract_recording_path (recording : pyobj) : option string :=
  match recording with
  | ObjNone => None
  | ObjStr s => Some s
  | ObjDict d => first_truthy d ["path"; "name"; "file"]
  | ObjOther => None
  end.

(** The body of the loop of [_normalize_files]. *)
Definition normalize_entry (normalized : list string) (entry : pyobj) : list string :=
  match entry with
  | ObjStr s => normalized ++ [s]
  | ObjDict d =>
      let path :=
        pyval_or (pyval_or (dict_get d "path") (dict_get d "name"))
          (dict_get d "file") in
      match path with
      | PyStr s => if PyStr.truthy s then normalized ++ [s] else normalized
      | PyNone => normalized
      end
  | _ => normalized
  end.

Definition _normalize_files (files : option (list pyobj)) : list string :=
  match files with
  | None | Some [] => []
  | Some entries => foldl normalize_entry [] entries
  end.

(** [not recording_path] *)
Definition no_path (recording_path : option string) : bool :=
  match recording_path with
  | None => true
  | Some p => negb (PyStr.truthy p)
  end.

Definition add_recording_to_queue (recording : pyobj) (files : option (list pyobj))
    (lang : string) : list string * string * pyobj :=
  let u := ui (_get_text lang) in
  let recording_path := _extract_recording_path recording in
  if no_path recording_path
  then (_normalize_files files, record_missing u, ObjNone)
  else
    let recording_path := default EmptyString recording_path in
    let updated_files := _normalize_files files in
    let updated_files := updated_files ++ [recording_path] in
    let display_name := PosixPath.basename recording_path in
    (updated_files, PyStr.format "{name}" display_name (record_added u), ObjNone).

(** ** The batch orchestrator *)

(** The local variables of [transcribe_many] that are assigned inside its
    loop and read by its handlers. *)
Record Frame := {
  results : list Item;
  temp_wav : option string
}.

Definition Job : Type := World * Frame.

(** A call of a function that has no access to the locals. *)
Definition call {A} (m : M World A) : M Job A :=
  fun '(w, f) => let '(r, w') := m w in (r, (w', f)).

(** [results.append(item)] *)
Definition results_append (item : Item) : M Job unit :=
  modify (fun '(w, f) =>
            (w, {| results := results f ++ [item]; temp_wav := temp_wav f |})).

(** [results = items] *)
Definition set_results (items : list Item) : M Job unit :=
  modify (fun '(w, f) => (w, {| results := items; temp_wav := temp_wav f |})).

(** [temp_wav = value] *)
Definition set_temp_wav (value : option string) : M Job unit :=
  modify (fun '(w, f) => (w, {| results := results f; temp_wav := value |})).

Section Orchestrator.

Context (E : Env).

(** [not filepath or not os.path.exists(filepath)] *)
Definition missing (filepath : string) : M Job bool :=
  if negb (PyStr.truthy filepath) then ret true
  else let* there := call (os_path_exists filepath) in ret (negb there).

(** The [finally] block of the loop of [transcribe_many]. *)
Definition cleanup : M Job unit :=
  let* tw := gets (fun j : Job => temp_wav (snd j)) in
  match tw with
  | None => ret tt
  | Some t =>
      if PyStr.truthy t then
        let* there := call (os_path_exists t) in
        if there
        then try_except (call (os_remove E t)) [([OSError], fun _ => ret tt)]
        else ret tt
      else ret tt
  end.

(** The body of the loop of [transcribe_many]. *)
Definition process_file (summarize bullet_list : bool) (lang : string)
    (filepath : string) : M Job unit :=
  let u := ui (_get_text lang) in
  let errors := errors (_get_text lang) in
  let* gone := missing filepath in
  if gone then
    results_append
      {| item_file :=
           Some (PosixPath.basename
                   (PyStr.or_else filepath (default_audio_name u)));
         item_text := Some (file_not_found errors);
         item_summary := None;
         item_bullets := None;
         item_seconds := Some 0%float |}
  else
    let original_name := PosixPath.basename filepath in
    set_temp_wav None >>
    try_finally
      (try_except
         (let* source_path :=
            (if _needs_wav_conversion filepath
             then let* t := call (_convert_to_temp_wav E filepath lang) in
                  set_temp_wav (Some t) >> ret t
             else ret filepath) in
          let* item :=
            call (_transcribe_file E source_path summarize bullet_list lang
                    (Some original_name)) in
          results_append item)
         [([Exception],
           fun exc =>
             results_append
               {| item_file := Some original_name;
                  item_text :=
                    Some (PyStr.format "{error}" (exn_str exc)
                            (transcription_error errors));
                  item_summary := Some EmptyString;
                  item_bullets := Some EmptyString;
                  item_seconds := Some 0%float |})])
      cleanup.

Definition transcribe_many (files : option (list string))
    (summarize bullet_list : bool) (lang : string)
  : M Job (string * list Item) :=
  match files with
  | None | Some [] => ret (_render_results E [] summarize bullet_list lang, [])
  | Some paths =>
      set_results [] >>
      for_each paths (process_file summarize bullet_list lang) >>
      let* rs := gets (fun j : Job => results (snd j)) in
      ret (_render_results E rs summarize bullet_list lang, rs)
  end.

End Orchestrator.


(** * Notions used by the properties *)

(** The requests the two enrichment invokers send for a transcript. *)
Definition summary_request (text lang : string) : Request :=
  ollama_request
    (PyStr.format "{content}" text (prompt_summary (prompts (_get_text lang)))).

Definition bullets_request (text lang : string) : Request :=
  ollama_request
    (PyStr.format "{content}" text (prompt_bullets (prompts (_get_text lang)))).

(** The failures of the endpoint that the enrichment invokers catch: an
    exception of class [URLError] (a connection error) or [HTTPError], or a
    body that is not JSON. *)
Definition caught_failure (o : UrlOutcome) : Prop :=
  match o with
  | UrlRaise e => exn_cls e = URLError \/ exn_cls e = HTTPError
  | UrlResponse (BodyMalformed _) => True
  | UrlResponse _ => False
  end.

(** The endpoint fails, in one of these ways, whenever it is called. *)
Definition endpoint_down (E : Env) : Prop :=
  forall req n, caught_failure (urlopen E req n).

(** [os.remove] never fails. *)
Definition removals_succeed (E : Env) : Prop :=
  forall p n, remove_error E p n = None.

(** The converter fails in the two ways [_convert_to_temp_wav] names: the
    binary is absent ([FileNotFoundError]) or it exits with a status other
    than zero. *)
Definition converter_fails_as_named (E : Env) : Prop :=
  forall cmd n e, run E cmd n = RunNotStarted e -> exn_cls e = FileNotFoundError.

(** The converter binary is absent: every attempt to start it raises
    [FileNotFoundError]. *)
Definition converter_absent (E : Env) : Prop :=
  forall cmd n, exists msg, run E cmd n = RunNotStarted (Exn FileNotFoundError msg).

(** The command line of the conversion. *)
Definition ffmpeg_cmd (filepath temp_file : string) : list string :=
  ["ffmpeg"; "-y"; "-i"; filepath; "-ac"; "1"; "-ar"; "16000"; temp_file].

(** The ["file"] entry of the result [item] names the input [p]: the default
    audio name for the empty path, else the base name of [p] when it has
    one. *)
Definition names_input (lang p : string) (item : Item) : Prop :=
  (p = EmptyString ->
   item_file item
   = Some (PosixPath.basename (default_audio_name (ui (_get_text lang)))))
  /\ (PosixPath.basename p <> EmptyString ->
      item_file item = Some (PosixPath.basename p)).

(** The record of the file-not-found branch. *)
Definition not_found_item (lang p : string) : Item := {|
  item_file :=
    Some (PosixPath.basename
            (PyStr.or_else p (default_audio_name (ui (_get_text lang)))));
  item_text := Some (file_not_found (errors (_get_text lang)));
  item_summary := None;
  item_bullets := None;
  item_seconds := Some 0%float
|}.

(** The record of the per-file error branch. *)
Definition error_item (lang p : string) (exc : exn) : Item := {|
  item_file := Some (PosixPath.basename p);
  item_text :=
    Some (PyStr.format "{error}" (exn_str exc)
            (transcription_error (errors (_get_text lang))));
  item_summary := Some EmptyString;
  item_bullets := Some EmptyString;
  item_seconds := Some 0%float
|}.

(** The five keys of a result record are all present. *)
Definition has_all_fields (item : Item) : Prop :=
  is_Some (item_file item) /\ is_Some (item_text item)
  /\ is_Some (item_summary item) /\ is_Some (item_bullets item)
  /\ is_Some (item_seconds item).

(** [item] is a result of the path [p]: it names [p], and it is either the
    file-not-found record or a record with the five keys. *)
Definition result_of (lang p : string) (item : Item) : Prop :=
  names_input lang p item
  /\ (has_all_fields item \/ item = not_found_item lang p).

(** The state of the loop of [transcribe_many] when it has processed the
    files [done]. *)
Definition loop_state (E : Env) (summarize bullet_list : bool) (lang : string)
    (done : list string) (j : Job) : Job :=
  snd ((set_results [] >>
        for_each done (process_file E summarize bullet_list lang)) j).

(** The number of enrichment calls [_transcribe_file] makes for a transcript. *)
Definition enrichment_calls (summarize bullet_list : bool) (text : string) : nat :=
  (if summarize && PyStr.truthy text then 1 else 0)%nat
  + (if bullet_list && PyStr.truthy text then 1 else 0)%nat.

(** The results of a batch, or none if it raised. *)
Definition batch_results (out : result (string * list Item) * Job) : list Item :=
  match fst out with
  | Return (_, rs) => rs
  | Raise _ => []
  end.

(** ** Sample environments *)

(** A clock that shows the number of the tick, in seconds. *)
Definition tick_clock (n : nat) : float :=
  PrimFloat.of_uint63 (Uint63.of_Z (Z.of_nat n)).

(** An environment with no converter binary; recognition returns a greeting
    and the endpoint answers with a one-word summary. *)
Definition env_no_ffmpeg : Env := {|
  tmp_dir := "/tmp";
  TMP_MAX := 100;
  tmp_random := fun _ => "k3x9a7qz";
  run := fun _ _ =>
    RunNotStarted
      (Exn FileNotFoundError "[Errno 2] No such file or directory: 'ffmpeg'");
  asr := fun _ _ _ => AsrReturn (Some " ciao ");
  urlopen := fun _ _ =>
    UrlResponse (BodyJson (JObject [("response", JString "saluto")]));
  remove_error := fun _ _ => None;
  clock := tick_clock;
  format_2f := fun _ => "0.00"
|}.

(** The same with a converter that succeeds. *)
Definition env_ok : Env := {|
  tmp_dir := "/tmp";
  TMP_MAX := 100;
  tmp_random := fun _ => "k3x9a7qz";
  run := fun _ _ => RunCompleted 0 true;
  asr := fun _ _ _ => AsrReturn (Some " ciao ");
  urlopen := fun _ _ =>
    UrlResponse (BodyJson (JObject [("response", JString "saluto")]));
  remove_error := fun _ _ => None;
  clock := tick_clock;
  format_2f := fun _ => "0.00"
|}.

(** The same with an endpoint that refuses the connection. *)
Definition env_endpoint_down : Env := {|
  tmp_dir := "/tmp";
  TMP_MAX := 100;
  tmp_random := fun _ => "k3x9a7qz";
  run := fun _ _ => RunCompleted 0 true;
  asr := fun _ _ _ => AsrReturn (Some " ciao ");
  urlopen := fun _ _ =>
    UrlRaise (Exn URLError "<urlopen error [Errno 111] Connection refused>");
  remove_error := fun _ _ => None;
  clock := tick_clock;
  format_2f := fun _ => "0.00"
|}.

(** A world with two audio files, and the locals before the first call. *)
Definition sample_world : World := {|
  fs := {[ "/data/a.mp3"; "/data/b.wav" ]};
  tick := 0;
  tmp_seq := 0;
  trace := []
|}.

Definition sample_job : Job := (sample_world, {| results := []; temp_wav := None |}).

(** ** Notions used by the further properties *)

(** A record with every key present: an absent key gets the value
    [_render_results] reads in its place. *)
Definition with_defaults (u : Ui) (item : Item) : Item := {|
  item_file := Some (default (default_audio_name u) (item_file item));
  item_text := Some (default EmptyString (item_text item));
  item_summary := Some (default EmptyString (item_summary item));
  item_bullets := Some (default EmptyString (item_bullets item));
  item_seconds := Some (default 0%float (item_seconds item))
|}.

(** A record with another summary, and with other bullets. *)
Definition with_summary (summary : option string) (item : Item) : Item := {|
  item_file := item_file item;
  item_text := item_text item;
  item_summary := summary;
  item_bullets := item_bullets item;
  item_seconds := item_seconds item
|}.

Definition with_bullets (bullets : option string) (item : Item) : Item := {|
  item_file := item_file item;
  item_text := item_text item;
  item_summary := item_summary item;
  item_bullets := bullets;
  item_seconds := item_seconds item
|}.


(** The template without its last [n] characters. *)
Definition template_head (n : nat) (template : string) : string :=
  PyStr.take (String.length template - n) template.

(** The index of the last [c] in [s], if [c] occurs in it. *)
Fixpoint last_index (c : ascii) (s : string) : option nat :=
  match s with
  | EmptyString => None
  | String d r =>
      match last_index c r with
      | Some k => Some (S k)
      | None => if Ascii.eqb d c then Some O else None
      end
  end.

(** [c] does not occur in [s]. *)
Definition lacks (c : ascii) (s : string) : Prop := last_index c s = None.

(** The record the loop appends for an outcome of [_transcribe_file] or of
    the conversion: the record returned, or the error record of the
    exception. *)
Definition item_of_outcome (lang p : string) (r : result Item) : Item :=
  match r with
  | Return item => item
  | Raise e => error_item lang p e
  end.

(** The four ways the loop of [transcribe_many] deals with a path, from the
    world [w] to the world [w'], appending [item] and leaving [tw] in
    [temp_wav]. *)
Inductive job_case (E : Env) (summarize bullet_list : bool) (lang p : string)
    (w : World) (f : Frame) (w' : World) (item : Item) (tw : option string)
  : Prop :=
  | JobMissing :
      p = EmptyString \/ p ∉ fs w ->
      w' = w -> item = not_found_item lang p -> tw = temp_wav f ->
      job_case E summarize bullet_list lang p w f w' item tw
  | JobDirect (r : result Item) :
      p <> EmptyString -> p ∈ fs w ->
      _needs_wav_conversion p = false ->
      _transcribe_file E p summarize bullet_list lang
        (Some (PosixPath.basename p)) w = (r, w') ->
      item = item_of_outcome lang p r -> tw = None ->
      job_case E summarize bullet_list lang p w f w' item tw
  | JobNotConverted (e : exn) :
      p <> EmptyString -> p ∈ fs w ->
      _needs_wav_conversion p = true ->
      _convert_to_temp_wav E p lang w = (Raise e, w') ->
      item = error_item lang p e -> tw = None ->
      job_case E summarize bullet_list lang p w f w' item tw
  | JobConverted (t : string) (w1 w2 : World) (r : result Item) :
      p <> EmptyString -> p ∈ fs w ->
      _needs_wav_conversion p = true ->
      _convert_to_temp_wav E p lang w = (Return t, w1) ->
      _transcribe_file E t summarize bullet_list lang
        (Some (PosixPath.basename p)) w1 = (r, w2) ->
      item = item_of_outcome lang p r ->
      cleanup E (w2, {| results := results f ++ [item]; temp_wav := Some t |})
      = (Return tt, (w', {| results := results f ++ [item];
                            temp_wav := Some t |})) ->
      tw = Some t ->
      job_case E summarize bullet_list lang p w f w' item tw.

(** What a computation added to the trace: the events [l], one tick each. *)
Definition added (w w' : World) (l : list event) : Prop :=
  trace w' = trace w ++ l /\ tick w' = (tick w + length l)%nat.

Definition is_asr_call (ev : event) : bool :=
  match ev with EvAsr _ _ _ _ => true | _ => false end.

Definition is_endpoint_call (ev : event) : bool :=
  match ev with EvUrlopen _ => true | _ => false end.

(** The name of a temporary file of the converter. *)
Definition temp_name (E : Env) (t : string) : Prop :=
  exists n, t = tmp_path E "whisper_tmp_" ".wav" n.

(** The calls a batch may make: the converter, from an input to a temporary
    file; the speech recognition, as a transcription with timestamps and the
    hint of the language; the endpoint, for a mode that was requested and a
    transcript that is not empty; the removal of a temporary file. *)
Definition batch_event (E : Env) (summarize bullet_list : bool) (lang : string)
    (ev : event) : Prop :=
  match ev with
  | EvRun cmd => exists p t, cmd = ffmpeg_cmd p t /\ temp_name E t
  | EvAsr _ language task return_timestamps =>
      language = _asr_language lang /\ task = "transcribe"
      /\ return_timestamps = true
  | EvUrlopen req =>
      (summarize = true
       /\ exists text, text <> EmptyString /\ req = summary_request text lang)
      \/ (bullet_list = true
          /\ exists text, text <> EmptyString /\ req = bullets_request text lang)
  | EvRemove path => temp_name E path
  end.

(** The number of calls of a kind among the events [l]. *)
Definition count_calls (kind : event -> bool) (l : list event) : nat :=
  length (List.filter kind l).

(** The calls of one job: each is a call a batch may make, they are at most
    five, and at most one of them is a speech recognition. *)
Definition job_calls (E : Env) (summarize bullet_list : bool) (lang : string)
    (l : list event) : Prop :=
  Forall (batch_event E summarize bullet_list lang) l
  /\ (length l <= 5)%nat
  /\ (count_calls is_asr_call l <= 1)%nat.

(** The exception that escapes an enrichment invoker for an outcome of the
    endpoint: one that the [except] clause does not name, raised by the call,
    by the decoding of the body, by [parsed.get] on a reply that is not an
    object or by [.strip()] on a ["response"] that is not a string. *)
Inductive escapes : UrlOutcome -> exn -> Prop :=
  | EscapesCall (e : exn) :
      existsb (isinstance e) [URLError; HTTPError; JSONDecodeError] = false ->
      escapes (UrlRaise e) e
  | EscapesDecode (msg : string) :
      escapes (UrlResponse (BodyUndecodable msg)) (Exn UnicodeDecodeError msg)
  | EscapesGet (j : json) :
      (forall members, j <> JObject members) ->
      escapes (UrlResponse (BodyJson j))
        (Exn AttributeError
           ("'" +:+ py_type_name j +:+ "' object has no attribute 'get'"))
  | EscapesStrip (members : list (string * json)) (v : json) :
      members_get "response" members = Some v ->
      (forall s, v <> JString s) ->
      escapes (UrlResponse (BodyJson (JObject members)))
        (Exn AttributeError
           ("'" +:+ py_type_name v +:+ "' object has no attribute 'strip'")).

(** An environment whose speech recognition fails. *)
Definition env_asr_fails : Env := {|
  tmp_dir := "/tmp";
  TMP_MAX := 100;
  tmp_random := fun _ => "k3x9a7qz";
  run := fun _ _ => RunCompleted 0 true;
  asr := fun _ _ _ => AsrRaise (Exn RuntimeError "CUDA out of memory");
  urlopen := fun _ _ =>
    UrlResponse (BodyJson (JObject [("response", JString "saluto")]));
  remove_error := fun _ _ => None;
  clock := tick_clock;
  format_2f := fun _ => "0.00"
|}.

(** An environment whose converter exits with status 1, leaving its output
    file behind. *)
Definition env_ffmpeg_fails : Env := {|
  tmp_dir := "/tmp";
  TMP_MAX := 100;
  tmp_random := fun _ => "k3x9a7qz";
  run := fun _ _ => RunCompleted 1 true;
  asr := fun _ _ _ => AsrReturn (Some " ciao ");
  urlopen := fun _ _ =>
    UrlResponse (BodyJson (JObject [("response", JString "saluto")]));
  remove_error := fun _ _ => None;
  clock := tick_clock;
  format_2f := fun _ => "0.00"
|}.

(** An environment whose endpoint answers with a JSON list. *)
Definition env_reply_is_a_list : Env := {|
  tmp_dir := "/tmp";
  TMP_MAX := 100;
  tmp_random := fun _ => "k3x9a7qz";
  run := fun _ _ => RunCompleted 0 true;
  asr := fun _ _ _ => AsrReturn (Some " ciao ");
  urlopen := fun _ _ => UrlResponse (BodyJson (JArray []));
  remove_error := fun _ _ => None;
  clock := tick_clock;
  format_2f := fun _ => "0.00"
|}.

(** A string with no white space at its ends. *)
Definition begins_with_space (s : string) : bool :=
  match s with
  | EmptyString => false
  | String c _ => PyStr.isspace c
  end.

Fixpoint ends_with_space (s : string) : bool :=
  match s with
  | EmptyString => false
  | String c EmptyString => PyStr.isspace c
  | String _ r => ends_with_space r
  end.

Definition trimmed (s : string) : Prop :=
  begins_with_space s = false /\ ends_with_space s = false.

(** From the world [w] to the world [w'] no file was lost, and every file
    gained has a temporary name of the converter. *)
Definition keeps_files (E : Env) (w w' : World) : Prop :=
  fs w ⊆ fs w' /\ forall q, q ∈ fs w' -> q ∈ fs w \/ temp_name E q.

(** Where the recognition of the path [p] starts: at [p] itself in the world
    [w] when it needs no conversion, else at the temporary file [source] in
    the world [w0] the conversion returned. *)
Definition recognised_from (E : Env) (lang p : string) (w : World)
    (source : string) (w0 : World) : Prop :=
  (_needs_wav_conversion p = false /\ source = p /\ w0 = w)
  \/ (_needs_wav_conversion p = true
      /\ _convert_to_temp_wav E p lang w = (Return source, w0)).

(** An environment whose converter is there but may not be executed. *)
Definition env_ffmpeg_not_executable : Env := {|
  tmp_dir := "/tmp";
  TMP_MAX := 100;
  tmp_random := fun _ => "k3x9a7qz";
  run := fun _ _ =>
    RunNotStarted (Exn PermissionError "[Errno 13] Permission denied: 'ffmpeg'");
  asr := fun _ _ _ => AsrReturn (Some " ciao ");
  urlopen := fun _ _ =>
    UrlResponse (BodyJson (JObject [("response", JString "saluto")]));
  remove_error := fun _ _ => None;
  clock := tick_clock;
  format_2f := fun _ => "0.00"
|}.

(** An environment with no converter binary and a temporary directory in
    which nothing may be removed. *)
Definition env_no_ffmpeg_no_removal : Env := {|
  tmp_dir := "/tmp";
  TMP_MAX := 100;
  tmp_random := fun _ => "k3x9a7qz";
  run := fun _ _ =>
    RunNotStarted
      (Exn FileNotFoundError "[Errno 2] No such file or directory: 'ffmpeg'");
  asr := fun _ _ _ => AsrReturn (Some " ciao ");
  urlopen := fun _ _ =>
    UrlResponse (BodyJson (JObject [("response", JString "saluto")]));
  remove_error := fun p _ => Some ("[Errno 13] Permission denied: '" +:+ p +:+ "'");
  clock := tick_clock;
  format_2f := fun _ => "0.00"
|}.

(** An environment whose endpoint resets the connection while the reply is
    awaited. *)
Definition env_connection_reset : Env := {|
  tmp_dir := "/tmp";
  TMP_MAX := 100;
  tmp_random := fun _ => "k3x9a7qz";
  run := fun _ _ => RunCompleted 0 true;
  asr := fun _ _ _ => AsrReturn (Some " ciao ");
  urlopen := fun _ _ =>
    UrlRaise (Exn ConnectionResetError "[Errno 104] Connection reset by peer");
  remove_error := fun _ _ => None;
  clock := tick_clock;
  format_2f := fun _ => "0.00"
|}.

(** An environment whose endpoint answers with a body that is not UTF-8. *)
Definition env_body_not_utf8 : Env := {|
  tmp_dir := "/tmp";
  TMP_MAX := 100;
  tmp_random := fun _ => "k3x9a7qz";
  run := fun _ _ => RunCompleted 0 true;
  asr := fun _ _ _ => AsrReturn (Some " ciao ");
  urlopen := fun _ _ =>
    UrlResponse
      (BodyUndecodable
         "'utf-8' codec can't decode byte 0xff in position 0: invalid start byte");
  remove_error := fun _ _ => None;
  clock := tick_clock;
  format_2f := fun _ => "0.00"
|}.
(** * Properties *)

(** ** The helpers on concrete inputs *)

(** The values are those Python gives for the same calls. *)
Example strip_spaces : PyStr.strip "  a b  " = "a b".
Proof. reflexivity. Qed.

Example format_error :
  PyStr.format "{error}" "boom" "Errore: {error}" = "Errore: boom".
Proof. reflexivity. Qed.

Example format_keeps_inserted_braces :
  PyStr.format "{name}" "{name}.wav" "added: {name}" = "added: {name}.wav".
Proof. reflexivity. Qed.

Example escape_markup :
  PyStr.html_escape true "<a href='x'>&" = "&lt;a href=&#x27;x&#x27;&gt;&amp;".
Proof. reflexivity. Qed.

Example basename_of_directory : PosixPath.basename "/a/b/" = EmptyString.
Proof. reflexivity. Qed.

Example splitext_double : PosixPath.splitext "x.tar.GZ" = ("x.tar", ".GZ").
Proof. reflexivity. Qed.

Example splitext_hidden :
  PosixPath.splitext "/a/b.c/.bashrc" = ("/a/b.c/.bashrc", EmptyString).
Proof. reflexivity. Qed.

Example wav_needs_no_conversion : _needs_wav_conversion "/in/Take.WAV" = false.
Proof. reflexivity. Qed.

Example mp3_needs_conversion : _needs_wav_conversion "/in/take.mp3" = true.
Proof. reflexivity. Qed.

Example http_error_is_url_error : issubclass HTTPError URLError = true.
Proof. reflexivity. Qed.

Example timeout_is_not_url_error : issubclass TimeoutError URLError = false.
Proof. reflexivity. Qed.

Example normalize_mixed_entries :
  _normalize_files
    (Some [ObjStr "/in/a.wav"; ObjDict {[ "name" := PyStr "/in/b.mp3" ]};
           ObjDict {[ "size" := PyStr "12" ]}; ObjOther])
  = ["/in/a.wav"; "/in/b.mp3"].
Proof. reflexivity. Qed.


(** ** The text table *)

Lemma TEXTS_default : TEXTS !!! LANG_DEFAULT = TEXTS_it.
Proof. unfold TEXTS, LANG_DEFAULT. apply lookup_total_insert_eq. Qed.

Lemma get_text_it : _get_text "it" = TEXTS_it.
Proof. unfold _get_text, TEXTS. by rewrite lookup_insert_eq. Qed.

Lemma get_text_en : _get_text "en" = TEXTS_en.
Proof.
  unfold _get_text, TEXTS.
  rewrite lookup_insert_ne by done. by rewrite lookup_insert_eq.
Qed.

Lemma get_text_unknown (lang : string) :
  lang <> "it" -> lang <> "en" -> _get_text lang = TEXTS_it.
Proof.
  intros Hit Hen. unfold _get_text.
  assert (TEXTS !! lang = None) as ->.
  { unfold TEXTS. rewrite !lookup_insert_ne by done. apply lookup_empty. }
  apply TEXTS_default.
Qed.

Lemma asr_language_not_it (lang : string) :
  lang <> "it" -> _asr_language lang = "english".
Proof.
  intros Hit. unfold _asr_language.
  destruct (String.eqb_spec lang "it"); [contradiction | reflexivity].
Qed.

(** The default name of an audio is the same in the two tables, hence in each
    table [_get_text] can return. *)
Lemma get_text_cases (lang : string) :
  _get_text lang = TEXTS_it \/ _get_text lang = TEXTS_en.
Proof.
  destruct (decide (lang = "it")) as [->|Hit]; [left; apply get_text_it|].
  destruct (decide (lang = "en")) as [->|Hen]; [right; apply get_text_en|].
  left. by apply get_text_unknown.
Qed.

Lemma default_audio_name_audio (lang : string) :
  default_audio_name (ui (_get_text lang)) = "audio".
Proof. by destruct (get_text_cases lang) as [-> | ->]. Qed.

(** C10. For a language code other than "it" and "en", [_get_text] returns
    the default, Italian, table: its error messages, prompts and interface
    texts are the Italian ones.  The language hint given to the speech
    recognition is "english" for every code other than "it", so also for
    such an unknown code. *)
Theorem unknown_language_italian_texts_english_hint (lang : string) :
  lang <> "it" ->
  _asr_language lang = "english"
  /\ (lang <> "en" ->
      _get_text lang = TEXTS_it
      /\ _get_text lang = _get_text LANG_DEFAULT
      /\ file_not_found (errors (_get_text lang)) = "File non trovato."
      /\ ffmpeg_not_found (errors (_get_text lang))
         = "ffmpeg non trovato per la conversione in WAV."
      /\ record_missing (ui (_get_text lang))
         = "Nessuna registrazione da aggiungere.").
Proof.
  intros Hit. split; [by apply asr_language_not_it|].
  intros Hen. rewrite (get_text_unknown lang Hit Hen).
  unfold LANG_DEFAULT. by rewrite get_text_it.
Qed.

Lemma unknown_language_witness :
  "fr" <> "it"
  /\ _asr_language "fr" = "english"
  /\ _get_text "fr" = TEXTS_it.
Proof.
  split; [done|].
  destruct (unknown_language_italian_texts_english_hint "fr") as [Hasr Htxt];
    [done|].
  split; [exact Hasr|]. by destruct Htxt as [-> _].
Defined.

(** ** The queueing entry point *)

Lemma foldl_normalize_paths (paths acc : list string) :
  foldl normalize_entry acc (map ObjStr paths) = acc ++ paths.
Proof.
  revert acc. induction paths as [|p paths IH]; intros acc; simpl.
  - by rewrite app_nil_r.
  - rewrite IH. by rewrite <- app_assoc.
Qed.

(** A list of plain paths is its own normal form. *)
Lemma normalize_files_paths (paths : list string) :
  _normalize_files (Some (map ObjStr paths)) = paths.
Proof.
  destruct paths as [|p paths]; [reflexivity|].
  unfold _normalize_files. change (map ObjStr (p :: paths)) with (ObjStr p :: map ObjStr paths).
  cbn [foldl normalize_entry]. by rewrite foldl_normalize_paths.
Qed.

Lemma no_path_false (p : string) :
  p <> EmptyString -> no_path (Some p) = false.
Proof. intros Hp. by destruct p. Qed.



(** A list that holds upload records is returned in its normal form: a
    record becomes its path, a record with no path is dropped. *)
Lemma add_recording_to_queue_normalizes (recording : pyobj)
    (files : option (list pyobj)) (lang : string) :
  no_path (_extract_recording_path recording) = true ->
  fst (fst (add_recording_to_queue recording files lang)) = _normalize_files files.
Proof. intros Hno. unfold add_recording_to_queue. by rewrite Hno. Qed.

(** ** The renderer *)

(** For the empty list the renderer returns the empty string, not the
    localized "no results" text. *)
Lemma empty_results_render_as_nothing :
  _render_results env_ok [] false false "it" = EmptyString
  /\ empty_results (ui (_get_text "it")) = "Nessun risultato da mostrare."
  /\ _render_results env_ok [] true true "en" = EmptyString
  /\ empty_results (ui (_get_text "en")) = "No results to display.".
Proof. repeat split. Qed.

(** C5 (as amended). For the empty list of results, [_render_results]
    returns the empty string, whatever the flags and the language: the
    ["empty_results"] text of the table is not shown. *)
Theorem render_results_empty (E : Env) (summarize_enabled bullets_enabled : bool)
    (lang : string) :
  _render_results E [] summarize_enabled bullets_enabled lang = EmptyString
  /\ _render_results E [] summarize_enabled bullets_enabled lang
     <> empty_results (ui (_get_text lang)).
Proof.
  split; [reflexivity|].
  cbn. by destruct (get_text_cases lang) as [-> | ->].
Qed.

(** ** Exceptions and calls *)

Lemma isinstance_Exception (e : exn) : isinstance e Exception = true.
Proof. by destruct e as [[] msg]. Qed.

Lemma call_eq {A} (m : M World A) (w : World) (f : Frame) :
  call m (w, f) = (fst (m w), (snd (m w), f)).
Proof. unfold call. by destruct (m w). Qed.

(** ** The enrichment invokers *)

Section EnrichmentFacts.

Context (E : Env).

(** Whatever the endpoint answers, an invoker makes one call and touches
    nothing else. *)
Lemma ollama_summary_world (text lang : string) (w : World) :
  snd (_ollama_summary E text lang w)
  = called (EvUrlopen (summary_request text lang)) w.
Proof.
  unfold _ollama_summary, try_except, bind, urlopen_read.
  fold (summary_request text lang).
  destruct (urlopen E _ (tick w)) as [e|[msg|msg|j]]; simpl; try reflexivity.
  - by destruct (_ || _).
  - destruct j; simpl; try reflexivity.
    by destruct (default _ _).
Qed.

Lemma ollama_bullets_world (text lang : string) (w : World) :
  snd (_ollama_bullets E text lang w)
  = called (EvUrlopen (bullets_request text lang)) w.
Proof.
  unfold _ollama_bullets, try_except, bind, urlopen_read.
  fold (bullets_request text lang).
  destruct (urlopen E _ (tick w)) as [e|[msg|msg|j]]; simpl; try reflexivity.
  - by destruct (_ || _).
  - destruct j; simpl; try reflexivity.
    by destruct (default _ _).
Qed.

Lemma ollama_summary_caught (text lang : string) (w : World) :
  caught_failure (urlopen E (summary_request text lang) (tick w)) ->
  fst (_ollama_summary E text lang w) = Return EmptyString.
Proof.
  unfold _ollama_summary, try_except, bind, urlopen_read.
  fold (summary_request text lang).
  destruct (urlopen E _ (tick w)) as [[c msg]|[msg|msg|j]]; simpl; try done.
  intros [-> | ->]; reflexivity.
Qed.

Lemma ollama_bullets_caught (text lang : string) (w : World) :
  caught_failure (urlopen E (bullets_request text lang) (tick w)) ->
  fst (_ollama_bullets E text lang w) = Return EmptyString.
Proof.
  unfold _ollama_bullets, try_except, bind, urlopen_read.
  fold (bullets_request text lang).
  destruct (urlopen E _ (tick w)) as [[c msg]|[msg|msg|j]]; simpl; try done.
  intros [-> | ->]; reflexivity.
Qed.

End EnrichmentFacts.

(** ** The transcription invoker *)

Section TranscribeFacts.
Context (E : Env).

(** The outcome of an optional enrichment call: the world moves by one call
    if the call is made, and not at all otherwise. *)
Lemma optional_summary_world (go : bool) (text lang : string) (w : World) :
  snd ((if go then _ollama_summary E text lang else ret EmptyString) w)
  = if go then called (EvUrlopen (summary_request text lang)) w else w.
Proof. destruct go; [apply ollama_summary_world | reflexivity]. Qed.

Lemma optional_bullets_world (go : bool) (text lang : string) (w : World) :
  snd ((if go then _ollama_bullets E text lang else ret EmptyString) w)
  = if go then called (EvUrlopen (bullets_request text lang)) w else w.
Proof. destruct go; [apply ollama_bullets_world | reflexivity]. Qed.

(** [_transcribe_file], step by step: the speech recognition, then the two
    optional enrichment calls, then the record. *)
Lemma transcribe_file_unfold (filepath : string) (summarize bullet_list : bool)
    (lang : string) (display_name : option string) (w : World) :
  _transcribe_file E filepath summarize bullet_list lang display_name w
  = let w1 := called (EvAsr filepath (_asr_language lang) "transcribe" true) w in
    match asr E filepath (_asr_language lang) (tick w) with
    | AsrRaise e => (Raise e, w1)
    | AsrReturn result =>
        let text := PyStr.strip (default EmptyString result) in
        match (if summarize && PyStr.truthy text
               then _ollama_summary E text lang else ret EmptyString) w1 with
        | (Raise e, w2) => (Raise e, w2)
        | (Return summary, w2) =>
            match (if bullet_list && PyStr.truthy text
                   then _ollama_bullets E text lang else ret EmptyString) w2 with
            | (Raise e, w3) => (Raise e, w3)
            | (Return bullets, w3) =>
                (Return
                   {| item_file := Some (display_or_basename display_name filepath);
                      item_text := Some text;
                      item_summary := Some summary;
                      item_bullets := Some bullets;
                      item_seconds :=
                        Some (clock E (tick w3) - clock E (tick w))%float |},
                 w3)
            end
        end
    end.
Proof.
  unfold _transcribe_file, bind, perf_counter, gets, _ASR.
  destruct (asr E filepath (_asr_language lang) (tick w)) as [e|result];
    [reflexivity|].
  cbn zeta.
  set (text := PyStr.strip (default EmptyString result)).
  set (w1 := called _ w).
  destruct ((if summarize && PyStr.truthy text
             then _ollama_summary E text lang else ret EmptyString) w1)
    as [[summary|e] w2]; [|reflexivity].
  destruct ((if bullet_list && PyStr.truthy text
             then _ollama_bullets E text lang else ret EmptyString) w2)
    as [[bullets|e] w3]; reflexivity.
Qed.

Lemma transcribe_file_fs (filepath : string) (summarize bullet_list : bool)
    (lang : string) (display_name : option string) (w : World) :
  fs (snd (_transcribe_file E filepath summarize bullet_list lang display_name w))
  = fs w.
Proof.
  rewrite transcribe_file_unfold. cbn zeta.
  destruct (asr E filepath (_asr_language lang) (tick w)) as [e|result];
    [reflexivity|].
  set (text := PyStr.strip _).
  set (w1 := called _ w).
  pose proof (optional_summary_world (summarize && PyStr.truthy text) text lang w1) as Hs.
  destruct ((if summarize && PyStr.truthy text
             then _ollama_summary E text lang else ret EmptyString) w1)
    as [[summary|e] w2]; simpl in Hs; subst w2.
  - pose proof (optional_bullets_world (bullet_list && PyStr.truthy text) text lang
                  (if summarize && PyStr.truthy text
                   then called (EvUrlopen (summary_request text lang)) w1 else w1)) as Hb.
    destruct ((if bullet_list && PyStr.truthy text
               then _ollama_bullets E text lang else ret EmptyString) _)
      as [[bullets|e] w3]; simpl in Hb; subst w3; simpl;
      by destruct (summarize && PyStr.truthy text),
                  (bullet_list && PyStr.truthy text).
  - simpl. by destruct (summarize && PyStr.truthy text).
Qed.

(** On success the record holds the five keys; its seconds are the clock at
    the return minus the clock at the entry, and between the two lie the
    recognition call and the enrichment calls made. *)
Lemma transcribe_file_return (filepath : string) (summarize bullet_list : bool)
    (lang : string) (display_name : option string) (w w' : World) (item : Item) :
  _transcribe_file E filepath summarize bullet_list lang display_name w
  = (Return item, w') ->
  exists result summary bullets,
    asr E filepath (_asr_language lang) (tick w) = AsrReturn result
    /\ item = {| item_file := Some (display_or_basename display_name filepath);
                 item_text := Some (PyStr.strip (default EmptyString result));
                 item_summary := Some summary;
                 item_bullets := Some bullets;
                 item_seconds :=
                   Some (clock E (tick w') - clock E (tick w))%float |}
    /\ tick w'
       = (S (tick w)
          + enrichment_calls summarize bullet_list
              (PyStr.strip (default EmptyString result)))%nat.
Proof.
  rewrite transcribe_file_unfold. cbn zeta.
  destruct (asr E filepath (_asr_language lang) (tick w)) as [e|result];
    [discriminate|].
  set (text := PyStr.strip _).
  set (w1 := called _ w).
  pose proof (optional_summary_world (summarize && PyStr.truthy text) text lang w1) as Hs.
  destruct ((if summarize && PyStr.truthy text
             then _ollama_summary E text lang else ret EmptyString) w1)
    as [[summary|e] w2]; simpl in Hs; subst w2; [|discriminate].
  pose proof (optional_bullets_world (bullet_list && PyStr.truthy text) text lang
                (if summarize && PyStr.truthy text
                 then called (EvUrlopen (summary_request text lang)) w1 else w1)) as Hb.
  destruct ((if bullet_list && PyStr.truthy text
             then _ollama_bullets E text lang else ret EmptyString) _)
    as [[bullets|e] w3]; simpl in Hb; subst w3; [|discriminate].
  intros [= <- <-]. exists result, summary, bullets.
  split; [reflexivity|]. split; [reflexivity|].
  unfold enrichment_calls. fold text.
  destruct (summarize && PyStr.truthy text), (bullet_list && PyStr.truthy text);
    simpl; lia.
Qed.

End TranscribeFacts.

(** ** The format converter *)

Lemma truthy_app_r (a b : string) :
  PyStr.truthy b = true -> PyStr.truthy (a +:+ b) = true.
Proof. intros Hb. destruct a; [exact Hb | reflexivity]. Qed.

Section ConverterFacts.

Context (E : Env).

Lemma tmp_path_truthy (prefix suffix : string) (n : nat) :
  PyStr.truthy (tmp_path E prefix suffix n) = true.
Proof. unfold tmp_path. by apply truthy_app_r. Qed.

(** A temporary file is new: its name did not exist, and creating it adds
    that name and nothing else.  When no name is free nothing is created. *)
Lemma mkstemp_inner_spec (fuel : nat) (prefix suffix : string) (w : World) :
  match mkstemp_inner E fuel prefix suffix w with
  | (Return t, w') =>
      (t ∉ fs w) /\ fs w' = {[t]} ∪ fs w /\ PyStr.truthy t = true
      /\ tick w' = tick w /\ trace w' = trace w
  | (Raise _, w') => fs w' = fs w /\ tick w' = tick w /\ trace w' = trace w
  end.
Proof.
  revert w. induction fuel as [|fuel IH]; intros w; simpl; [done|].
  case_bool_decide as Hin.
  - specialize (IH (drew_name w)).
    by destruct (mkstemp_inner E fuel prefix suffix (drew_name w)) as [[t|e] w'].
  - simpl. split_and!; try done. apply tmp_path_truthy.
Qed.

(** With a removal that succeeds, [remove_if_exists] removes the path if it
    is there and does nothing otherwise. *)
Lemma remove_if_exists_ok (p : string) (w : World) :
  removals_succeed E ->
  remove_if_exists E p w
  = (Return tt,
     if bool_decide (p ∈ fs w)
     then with_fs (fs w ∖ {[p]}) (called (EvRemove p) w) else w).
Proof.
  intros Hrm. unfold remove_if_exists, bind, os_path_exists, gets, os_remove.
  case_bool_decide as Hin; [|reflexivity].
  rewrite Hrm. by rewrite bool_decide_eq_true_2.
Qed.

Lemma last_cmd (a b c d e f g h t : string) :
  List.last [a; b; c; d; e; f; g; h; t] EmptyString = t.
Proof. reflexivity. Qed.

(** On success the converter leaves at most its temporary file behind, under
    a name that is not empty and was free.  On failure it leaves nothing
    behind, provided the removal succeeds and the failure is one of the two
    it names. *)
Lemma convert_to_temp_wav_spec (filepath lang : string) (w : World) :
  match _convert_to_temp_wav E filepath lang w with
  | (Return t, w') =>
      (t ∉ fs w) /\ PyStr.truthy t = true /\ fs w' ∖ {[t]} = fs w
  | (Raise _, w') =>
      removals_succeed E -> converter_fails_as_named E -> fs w' = fs w
  end.
Proof.
  unfold _convert_to_temp_wav, NamedTemporaryFile, bind.
  pose proof (mkstemp_inner_spec (TMP_MAX E) "whisper_tmp_" ".wav" w) as Htmp.
  destruct (mkstemp_inner E (TMP_MAX E) "whisper_tmp_" ".wav" w) as [[t|e] w1];
    [|by destruct Htmp].
  destruct Htmp as (Hfresh & Hfs & Htruthy & Htick & Htrace).
  unfold try_except, subprocess_run. rewrite last_cmd.
  destruct (run E _ (tick w1)) as [e|returncode output_exists] eqn:Hrun.
  - (* the process did not start *)
    destruct e as [c msg].
    destruct c; simpl;
      try (intros Hrm Hnamed; apply Hnamed in Hrun; discriminate Hrun).
    + destruct (remove_if_exists E t _) as [[[]|e] w2] eqn:Hremove;
        intros Hrm _; rewrite (remove_if_exists_ok _ _ Hrm) in Hremove;
        simplify_eq/=.
      case_bool_decide; simpl; set_solver.
    + destruct (remove_if_exists E t _) as [[[]|e] w2] eqn:Hremove;
        intros Hrm _; rewrite (remove_if_exists_ok _ _ Hrm) in Hremove;
        simplify_eq/=.
      case_bool_decide; simpl; set_solver.
  - destruct (returncode =? 0) eqn:Hrc; simpl.
    + split; [done|]. split; [done|].
      destruct output_exists; set_solver.
    + destruct (remove_if_exists E t _) as [[[]|e] w2] eqn:Hremove;
        intros Hrm _; rewrite (remove_if_exists_ok _ _ Hrm) in Hremove;
        simplify_eq/=.
      case_bool_decide; destruct output_exists; simpl; set_solver.
Qed.

End ConverterFacts.

(** ** The monad *)

Section MonadFacts.

Context {S A B : Type}.

Lemma bind_return (m : M S A) (k : A -> M S B) (s s' : S) (a : A) :
  m s = (Return a, s') -> bind m k s = k a s'.
Proof. intros H. unfold bind. by rewrite H. Qed.

Lemma bind_raise (m : M S A) (k : A -> M S B) (s s' : S) (e : exn) :
  m s = (Raise e, s') -> bind m k s = (Raise e, s').
Proof. intros H. unfold bind. by rewrite H. Qed.

Lemma try_except_return (m : M S A) (hs : list (handler S A)) (s s' : S) (a : A) :
  m s = (Return a, s') -> try_except m hs s = (Return a, s').
Proof. intros H. unfold try_except. by rewrite H. Qed.

(** [except Exception] catches every exception. *)
Lemma try_except_Exception (m : M S A) (h : exn -> M S A) (s s' : S) (e : exn) :
  m s = (Raise e, s') -> try_except m [([Exception], h)] s = h e s'.
Proof.
  intros H. unfold try_except. rewrite H. simpl.
  by rewrite isinstance_Exception.
Qed.

Lemma try_finally_return (m : M S A) (fin : M S unit) (s s' s'' : S)
    (r : result A) :
  m s = (r, s') -> fin s' = (Return tt, s'') -> try_finally m fin s = (r, s'').
Proof. intros Hm Hfin. unfold try_finally. by rewrite Hm, Hfin. Qed.

End MonadFacts.

(** ** The orchestrator *)

Section OrchestratorFacts.

Context (E : Env).

Lemma cleanup_no_temp (w : World) (f : Frame) :
  temp_wav f = None -> cleanup E (w, f) = (Return tt, (w, f)).
Proof. intros H. unfold cleanup, bind, gets. simpl. by rewrite H. Qed.

(** The [finally] block never raises: an error of the removal is swallowed.
    When the removal succeeds the temporary file is gone. *)
Lemma cleanup_temp (w : World) (f : Frame) (t : string) :
  temp_wav f = Some t ->
  PyStr.truthy t = true ->
  exists w',
    cleanup E (w, f) = (Return tt, (w', f))
    /\ (removals_succeed E -> fs w' = fs w ∖ {[t]}).
Proof.
  intros Ht Htruthy. unfold cleanup, bind, gets. simpl. rewrite Ht, Htruthy.
  rewrite call_eq. simpl.
  case_bool_decide as Hin.
  - unfold try_except. rewrite call_eq. unfold os_remove.
    destruct (remove_error E t (tick w)) as [msg|] eqn:Herr; simpl.
    + eexists. split; [reflexivity|]. intros Hrm. by rewrite Hrm in Herr.
    + rewrite bool_decide_eq_true_2 by done. simpl.
      eexists. split; [reflexivity|]. done.
  - eexists. split; [reflexivity|]. intros _. set_solver.
Qed.

Lemma or_else_truthy (a b : string) :
  a <> EmptyString -> PyStr.or_else a b = a.
Proof. intros Ha. by destruct a. Qed.

Lemma truthy_false (a : string) : PyStr.truthy a = false -> a = EmptyString.
Proof. by destruct a. Qed.

Lemma truthy_true (a : string) : PyStr.truthy a = true -> a <> EmptyString.
Proof. by destruct a. Qed.

Local Opaque _transcribe_file _convert_to_temp_wav cleanup.

Lemma error_item_fields (lang p : string) (e : exn) :
  has_all_fields (error_item lang p e).
Proof. repeat split; by eexists. Qed.

Lemma process_file_spec (summarize bullet_list : bool) (lang p : string)
    (w : World) (f : Frame) :
  exists w' item tw,
    process_file E summarize bullet_list lang p (w, f)
    = (Return tt, (w', {| results := results f ++ [item]; temp_wav := tw |}))
    /\ result_of lang p item
    /\ (removals_succeed E -> converter_fails_as_named E -> fs w' = fs w).
Proof.
  destruct (decide (p = EmptyString \/ p ∉ fs w)) as [Hmissing|Hthere].
  { (* the path is empty or does not exist *)
    exists w, (not_found_item lang p), (temp_wav f).
    split; [|split; [|done]].
    - unfold process_file, missing, bind.
      destruct (PyStr.truthy p) eqn:Hp; simpl; [|reflexivity].
      destruct Hmissing as [-> | Hnot]; [discriminate|].
      by rewrite bool_decide_eq_false_2.
    - split; [|by right]. split; [by intros ->|].
      intros Hb. simpl. rewrite or_else_truthy; [done|].
      by intros ->. }
  assert (p <> EmptyString /\ p ∈ fs w) as [Hp Hin].
  { split; [naive_solver|]. destruct (decide (p ∈ fs w)); naive_solver. }
  assert (Hitem : forall source r sm bl x,
             result_of lang p
               {| item_file :=
                    Some (display_or_basename (Some (PosixPath.basename p)) source);
                  item_text := Some r;
                  item_summary := Some sm;
                  item_bullets := Some bl;
                  item_seconds := Some x |}).
  { intros source r sm bl x. split; [|left; repeat split; by eexists].
    split; [done|]. intros Hb. simpl. by rewrite or_else_truthy. }
  assert (Herror : forall e, result_of lang p (error_item lang p e)).
  { intros e. split; [by split|]. left. apply error_item_fields. }
  unfold process_file, missing.
  destruct (PyStr.truthy p) eqn:Htruthy; [|by destruct p]. cbn [negb].
  unfold bind at 1. unfold bind at 1. rewrite call_eq. simpl.
  rewrite bool_decide_eq_true_2 by done. cbn [negb].
  unfold bind at 1. unfold set_temp_wav at 1, modify. cbn [fst snd].
  unfold try_finally, try_except.
  destruct (_needs_wav_conversion p).
  - (* the file is converted first *)
    unfold bind at 1. unfold bind at 1. rewrite call_eq.
    pose proof (convert_to_temp_wav_spec E p lang w) as Hconv.
    destruct (_convert_to_temp_wav E p lang w) as [[t|e] w1]; simpl.
    + destruct Hconv as (Hfresh & Htruthy' & Hfs).
      unfold bind at 1. rewrite call_eq.
      pose proof (transcribe_file_fs E t summarize bullet_list lang
                    (Some (PosixPath.basename p)) w1) as Htfs.
      destruct (_transcribe_file E t summarize bullet_list lang
                  (Some (PosixPath.basename p)) w1) as [[item|e] w2] eqn:Htf;
        simpl in *.
      * destruct (cleanup_temp w2
                    {| results := results f ++ [item]; temp_wav := Some t |}
                    t eq_refl Htruthy') as (w3 & -> & Hgone).
        eexists _, _, _. split; [reflexivity|]. split.
        { apply transcribe_file_return in Htf as (r & sm & bl & _ & -> & _).
          apply Hitem. }
        intros Hrm _. rewrite (Hgone Hrm), Htfs. done.
      * rewrite isinstance_Exception. simpl.
        destruct (cleanup_temp w2
                    {| results := results f ++ [error_item lang p e];
                       temp_wav := Some t |}
                    t eq_refl Htruthy') as (w3 & Hclean & Hgone).
        unfold error_item in Hclean. rewrite Hclean.
        eexists _, _, _. split; [reflexivity|]. split; [apply Herror|].
        intros Hrm _. rewrite (Hgone Hrm), Htfs. done.
    + rewrite isinstance_Exception. simpl.
      rewrite cleanup_no_temp by done.
      eexists _, _, _. split; [reflexivity|]. split; [apply Herror|].
      intros Hrm Hnamed. by apply Hconv.
  - (* a WAV file is transcribed as it is *)
    unfold bind at 1. unfold bind at 1. simpl.
    pose proof (transcribe_file_fs E p summarize bullet_list lang
                  (Some (PosixPath.basename p)) w) as Htfs.
    destruct (_transcribe_file E p summarize bullet_list lang
                (Some (PosixPath.basename p)) w) as [[item|e] w2] eqn:Htf;
      simpl in *.
    + rewrite cleanup_no_temp by done.
      eexists _, _, _. split; [reflexivity|]. split; [|done].
      apply transcribe_file_return in Htf as (r & sm & bl & _ & -> & _).
      apply Hitem.
    + rewrite isinstance_Exception. simpl.
      rewrite cleanup_no_temp by done.
      eexists _, _, _. split; [reflexivity|]. split; [apply Herror|]. done.
Qed.

End OrchestratorFacts.

(** ** The loop and the batch *)

Lemma for_each_app {S A} (xs ys : list A) (body : A -> M S unit) (s : S) :
  for_each (xs ++ ys) body s = (for_each xs body >> for_each ys body) s.
Proof.
  revert s. induction xs as [|x xs IH]; intros s; simpl; [reflexivity|].
  unfold bind. destruct (body x s) as [[[]|e] s']; [|reflexivity].
  rewrite IH. reflexivity.
Qed.

Section BatchFacts.

Context (E : Env).

(** The loop appends one result for each path, in the order of the paths,
    and never raises. *)
Lemma for_each_process_spec (summarize bullet_list : bool) (lang : string)
    (paths : list string) (w : World) (f : Frame) :
  exists w' items tw,
    for_each paths (process_file E summarize bullet_list lang) (w, f)
    = (Return tt, (w', {| results := results f ++ items; temp_wav := tw |}))
    /\ Forall2 (result_of lang) paths items
    /\ (removals_succeed E -> converter_fails_as_named E -> fs w' = fs w).
Proof.
  revert w f. induction paths as [|p paths IH]; intros w f.
  - exists w, [], (temp_wav f). rewrite app_nil_r. by destruct f.
  - destruct (process_file_spec E summarize bullet_list lang p w f)
      as (w1 & item & tw1 & Hp & Hname & Hfs1).
    destruct (IH w1 {| results := results f ++ [item]; temp_wav := tw1 |})
      as (w2 & items & tw2 & Hrest & Hnames & Hfs2).
    exists w2, (item :: items), tw2. split.
    + simpl. unfold bind. rewrite Hp, Hrest. simpl.
      by rewrite <- app_assoc.
    + split; [by constructor|].
      intros Hrm Hnamed. by rewrite Hfs2, Hfs1.
Qed.

(** The batch returns its results, one for each path and in their order,
    whatever the environment does; with removals that succeed and a
    converter that fails only in the two named ways, it leaves the files as
    it found them. *)
Lemma transcribe_many_spec (files : option (list string))
    (summarize bullet_list : bool) (lang : string) (j : Job) :
  exists rs j',
    transcribe_many E files summarize bullet_list lang j
    = (Return (_render_results E rs summarize bullet_list lang, rs), j')
    /\ Forall2 (result_of lang) (default [] files) rs
    /\ (removals_succeed E -> converter_fails_as_named E ->
        fs (fst j') = fs (fst j)).
Proof.
  destruct j as [w f].
  destruct files as [[|p paths]|]; try by (exists [], (w, f)).
  destruct (for_each_process_spec summarize bullet_list lang (p :: paths) w
              {| results := []; temp_wav := temp_wav f |})
    as (w' & items & tw & Hloop & Hnames & Hfs).
  exists items, (w', {| results := items; temp_wav := tw |}).
  split; [|by split].
  unfold transcribe_many. unfold bind at 1. unfold set_results at 1, modify.
  cbn [fst snd]. unfold bind at 1. rewrite Hloop. reflexivity.
Qed.

End BatchFacts.

(** C1. For every list of paths, flags and language, and in every
    environment, [transcribe_many] returns a list of results with one entry
    for each input path, in the order of the paths: the lists have the same
    length, and the entry at each position names the path at that position. *)
Theorem transcribe_many_one_result_per_path (E : Env)
    (files : option (list string)) (summarize bullet_list : bool)
    (lang : string) (j : Job) :
  exists html rs j',
    transcribe_many E files summarize bullet_list lang j
    = (Return (html, rs), j')
    /\ length rs = length (default [] files)
    /\ Forall2 (names_input lang) (default [] files) rs.
Proof.
  destruct (transcribe_many_spec E files summarize bullet_list lang j)
    as (rs & j' & Hrun & Hnames & _).
  eexists _, rs, j'. split; [exact Hrun|]. split.
  - symmetry. by eapply Forall2_length.
  - eapply Forall2_impl; [exact Hnames|]. by intros p item [Hname _].
Qed.

Section MissingPathFacts.

Context (E : Env).

(** The branch of a path that is empty or does not exist: the world is left
    as it is, so nothing was called, and the file-not-found record is
    appended. *)
Lemma process_file_missing (summarize bullet_list : bool) (lang p : string)
    (w : World) (f : Frame) :
  p = EmptyString \/ p ∉ fs w ->
  process_file E summarize bullet_list lang p (w, f)
  = (Return tt,
     (w, {| results := results f ++ [not_found_item lang p];
            temp_wav := temp_wav f |})).
Proof.
  intros Hmissing. unfold process_file, missing, bind.
  destruct (PyStr.truthy p) eqn:Hp; simpl; [|reflexivity].
  destruct Hmissing as [-> | Hnot]; [discriminate|].
  by rewrite bool_decide_eq_false_2.
Qed.

Lemma loop_state_spec (summarize bullet_list : bool) (lang : string)
    (done : list string) (j : Job) :
  exists w' items tw,
    (set_results [] >>
     for_each done (process_file E summarize bullet_list lang)) j
    = (Return tt, (w', {| results := items; temp_wav := tw |}))
    /\ length items = length done.
Proof.
  destruct j as [w f].
  destruct (for_each_process_spec E summarize bullet_list lang done w
              {| results := []; temp_wav := temp_wav f |})
    as (w' & items & tw & Hloop & Hnames & _).
  exists w', items, tw. split.
  - unfold bind at 1. unfold set_results at 1, modify. cbn [fst snd].
    exact Hloop.
  - symmetry. by eapply Forall2_length.
Qed.

End MissingPathFacts.

(** C2. When the loop of [transcribe_many] reaches a path that is empty or
    does not exist, the result at the position of that path has the
    localized file-not-found message as its text and [0.0] as its seconds;
    the iteration leaves the world as it is, so neither the converter nor
    the speech recognition nor the endpoint is called for that path. *)
Theorem missing_path_gets_not_found (E : Env) (summarize bullet_list : bool)
    (lang : string) (before : list string) (p : string) (after : list string)
    (j : Job) :
  let reached := loop_state E summarize bullet_list lang before j in
  p = EmptyString \/ p ∉ fs (fst reached) ->
  exists html rs j' item,
    transcribe_many E (Some (before ++ p :: after)) summarize bullet_list lang j
    = (Return (html, rs), j')
    /\ rs !! length before = Some item
    /\ item_text item = Some (file_not_found (errors (_get_text lang)))
    /\ item_seconds item = Some 0%float
    /\ fst (snd (process_file E summarize bullet_list lang p reached))
       = fst reached.
Proof.
  intros reached Hmissing.
  destruct (loop_state_spec E summarize bullet_list lang before j)
    as (w1 & items & tw1 & Hbefore & Hlen).
  assert (reached = (w1, {| results := items; temp_wav := tw1 |})) as Hreached.
  { unfold reached, loop_state. by rewrite Hbefore. }
  rewrite Hreached in *. cbn [fst] in Hmissing.
  pose proof (process_file_missing E summarize bullet_list lang p w1
                {| results := items; temp_wav := tw1 |} Hmissing) as Hp.
  cbn [results temp_wav] in Hp.
  destruct (for_each_process_spec E summarize bullet_list lang after w1
              {| results := items ++ [not_found_item lang p]; temp_wav := tw1 |})
    as (w2 & rest & tw2 & Hafter & _ & _).
  cbn [results] in Hafter.
  eexists _, _, _, (not_found_item lang p). split.
  - unfold transcribe_many.
    assert (exists q qs, before ++ p :: after = q :: qs) as (q & qs & Heq).
    { destruct before; simpl; eauto. }
    rewrite Heq, <- Heq.
    unfold bind at 1. unfold set_results at 1, modify.
    unfold bind at 1.
    rewrite for_each_app.
    unfold bind at 1 in Hbefore. unfold set_results at 1, modify in Hbefore.
    unfold bind at 1. rewrite Hbefore.
    simpl for_each. unfold bind at 1. rewrite Hp, Hafter.
    reflexivity.
  - split.
    { cbn [snd results].
      rewrite <- app_assoc, lookup_app_r by lia.
      rewrite Hlen, Nat.sub_diag. reflexivity. }
    split; [reflexivity|]. split; [reflexivity|].
    by rewrite Hp.
Qed.

Lemma missing_path_witness :
  exists html rs j',
    transcribe_many env_ok (Some (["/data/b.wav"] ++ "/data/gone.wav" :: []))
      false false "it" sample_job
    = (Return (html, rs), j')
    /\ (item_text <$> rs !! 1%nat) = Some (Some "File non trovato.").
Proof.
  destruct (missing_path_gets_not_found env_ok false false "it"
              ["/data/b.wav"] "/data/gone.wav" [] sample_job)
    as (html & rs & j' & item & Hrun & Hat & Htext & _).
  - right. compute_done.
  - exists html, rs, j'. split; [exact Hrun|].
    cbn [length] in Hat. rewrite Hat. simpl. by rewrite Htext.
Defined.

(** ** Temporary files *)

Section TemporaryFiles.

Context (E : Env).

(** The [finally] block returns normally in every environment: a removal
    that fails is swallowed, and the results are left as they are. *)
Lemma cleanup_never_raises (w : World) (f : Frame) :
  exists w', cleanup E (w, f) = (Return tt, (w', f)).
Proof.
  destruct (temp_wav f) as [t|] eqn:Ht.
  - destruct (PyStr.truthy t) eqn:Htruthy.
    + destruct (cleanup_temp E w f t Ht Htruthy) as (w' & Hclean & _). eauto.
    + exists w. unfold cleanup, bind, gets. simpl. by rewrite Ht, Htruthy.
  - exists w. by apply cleanup_no_temp.
Qed.

(** One job leaves the files as it found them. *)
Lemma process_file_restores_files (summarize bullet_list : bool)
    (lang p : string) (w : World) (f : Frame) :
  removals_succeed E -> converter_fails_as_named E ->
  fs (fst (snd (process_file E summarize bullet_list lang p (w, f)))) = fs w.
Proof.
  intros Hrm Hnamed.
  destruct (process_file_spec E summarize bullet_list lang p w f)
    as (w' & item & tw & -> & _ & Hfs).
  by apply Hfs.
Qed.

End TemporaryFiles.

(** The exits on which the temporary file is removed.  In every environment
    the batch returns normally, and so does the [finally] block of each job:
    a removal that fails there is swallowed.  When the removals succeed and
    the converter fails only in the two ways the code names (binary absent,
    exit status other than zero), no temporary file outlives its use: a
    conversion that fails has removed its file when its error propagates,
    each job leaves the files as it found them whether the transcription
    returned or raised, and so does the batch.  The other exits of the
    converter are treated with the exits that leave the file behind. *)
Theorem temporary_files_removed_on_the_named_exits (E : Env)
    (files : option (list string)) (summarize bullet_list : bool)
    (lang : string) (j : Job) :
  (exists out j',
     transcribe_many E files summarize bullet_list lang j = (Return out, j'))
  /\ (forall w f, exists w', cleanup E (w, f) = (Return tt, (w', f)))
  /\ (removals_succeed E -> converter_fails_as_named E ->
      (forall p w e w',
         _convert_to_temp_wav E p lang w = (Raise e, w') -> fs w' = fs w)
      /\ (forall p w f,
            fs (fst (snd (process_file E summarize bullet_list lang p (w, f))))
            = fs w)
      /\ fs (fst (snd (transcribe_many E files summarize bullet_list lang j)))
         = fs (fst j)).
Proof.
  destruct (transcribe_many_spec E files summarize bullet_list lang j)
    as (rs & j' & Hrun & _ & Hfs).
  split; [eauto|]. split; [apply cleanup_never_raises|].
  intros Hrm Hnamed. split; [|split].
  - intros p w e w' Hconv.
    pose proof (convert_to_temp_wav_spec E p lang w) as Hspec.
    rewrite Hconv in Hspec. by apply Hspec.
  - intros p w f. by apply process_file_restores_files.
  - rewrite Hrun. by apply Hfs.
Qed.

Lemma env_ok_removals_succeed : removals_succeed env_ok.
Proof. intros p n. reflexivity. Defined.

Lemma env_ok_converter_fails_as_named : converter_fails_as_named env_ok.
Proof. intros cmd n e H. discriminate H. Defined.

Lemma temporary_files_removed_witness :
  fs (fst (snd (transcribe_many env_ok (Some ["/data/a.mp3"; "/data/b.wav"])
                  true true "it" sample_job)))
  = fs sample_world
  /\ trace (fst (snd (transcribe_many env_ok
                        (Some ["/data/a.mp3"; "/data/b.wav"])
                        true true "it" sample_job))) !! 4%nat
     = Some (EvRemove "/tmp/whisper_tmp_k3x9a7qz.wav").
Proof.
  split.
  - exact (proj2 (proj2 (proj2 (proj2
             (temporary_files_removed_on_the_named_exits env_ok
                (Some ["/data/a.mp3"; "/data/b.wav"]) true true "it" sample_job))
             env_ok_removals_succeed env_ok_converter_fails_as_named))).
  - vm_compute. reflexivity.
Defined.

(** ** Elapsed seconds *)

(** In [env_ok], with the summary requested, the seconds of the record are
    2.0: the recognition call took 1.0 and the summary call the rest.  So the
    seconds are not the time of the recognition call alone. *)
Lemma seconds_span_the_enrichment_calls :
  exists item w',
    _transcribe_file env_ok "/data/b.wav" true false "it" None sample_world
    = (Return item, w')
    /\ item_seconds item = Some 2%float
    /\ (clock env_ok (S (tick sample_world)) - clock env_ok (tick sample_world))%float
       = 1%float
    /\ item_seconds item
       <> Some (clock env_ok (S (tick sample_world))
                - clock env_ok (tick sample_world))%float.
Proof.
  eexists _, _. split; [vm_compute; reflexivity|].
  split; [reflexivity|]. split; [reflexivity|].
  cbn [item_seconds]. intros H.
  apply (f_equal (fun o => match o with
                           | Some x => PrimFloat.ltb x 1.5%float
                           | None => false
                           end)) in H.
  vm_compute in H. discriminate H.
Qed.

(** C4 (as amended). When [_transcribe_file] returns a record, its seconds
    are the clock at the return minus the clock just before the speech
    recognition call; between the two readings lie the recognition call and
    every enrichment call made for the transcript.  When no enrichment call
    is made (neither mode requested, or an empty transcript), the seconds are
    those of the recognition call alone. *)
Theorem transcribe_file_seconds (E : Env) (filepath : string)
    (summarize bullet_list : bool) (lang : string)
    (display_name : option string) (w w' : World) (item : Item) :
  _transcribe_file E filepath summarize bullet_list lang display_name w
  = (Return item, w') ->
  exists text,
    item_text item = Some text
    /\ item_seconds item = Some (clock E (tick w') - clock E (tick w))%float
    /\ tick w' = (S (tick w) + enrichment_calls summarize bullet_list text)%nat
    /\ (enrichment_calls summarize bullet_list text = 0%nat ->
        item_seconds item
        = Some (clock E (S (tick w)) - clock E (tick w))%float).
Proof.
  intros Hrun.
  apply transcribe_file_return in Hrun
    as (result & summary & bullets & _ & -> & Htick).
  eexists. split; [reflexivity|]. split; [reflexivity|].
  split; [exact Htick|].
  intros Hnone. cbn [item_seconds]. rewrite Htick, Hnone.
  by rewrite Nat.add_0_r.
Qed.

Lemma transcribe_file_seconds_witness :
  exists item w',
    _transcribe_file env_ok "/data/b.wav" true true "it" None sample_world
    = (Return item, w')
    /\ item_seconds item = Some 3%float
    /\ tick w' = 3%nat.
Proof.
  assert (_transcribe_file env_ok "/data/b.wav" true true "it" None sample_world
          = (Return {| item_file := Some "b.wav";
                       item_text := Some "ciao";
                       item_summary := Some "saluto";
                       item_bullets := Some "saluto";
                       item_seconds := Some 3%float |},
             snd (_transcribe_file env_ok "/data/b.wav" true true "it" None
                    sample_world))) as Hrun.
  { vm_compute. reflexivity. }
  destruct (transcribe_file_seconds env_ok "/data/b.wav" true true "it" None
              sample_world _ _ Hrun) as (text & Htext & Hsec & Htick & _).
  eexists _, _. split; [exact Hrun|]. split; [reflexivity|].
  injection Htext as <-. exact Htick.
Defined.

(** ** A converter that is absent *)

(** With no converter binary, the text of the result of a file that needs a
    conversion is the transcription-error message around the
    ffmpeg-not-found message, not that message itself. *)
Lemma ffmpeg_missing_text_is_wrapped :
  exists html item j',
    transcribe_many env_no_ffmpeg (Some ["/data/a.mp3"]) false false "it"
      sample_job
    = (Return (html, [item]), j')
    /\ item_text item
       = Some ("Errore durante conversione/trascrizione: "
               +:+ "ffmpeg non trovato per la conversione in WAV.")
    /\ item_text item <> Some (ffmpeg_not_found (errors (_get_text "it"))).
Proof.
  eexists _, _, _. split; [vm_compute; reflexivity|].
  split; [reflexivity|]. discriminate.
Qed.

Section ConverterAbsent.

Context (E : Env).

(** With no converter binary and a removal that succeeds, the conversion
    raises the localized ffmpeg-not-found error, having started nothing but
    the converter and having removed its temporary file. *)
Lemma convert_to_temp_wav_absent (filepath lang t : string) (w w1 : World) :
  converter_absent E -> removals_succeed E ->
  NamedTemporaryFile E "whisper_tmp_" ".wav" w = (Return t, w1) ->
  exists w',
    _convert_to_temp_wav E filepath lang w
    = (Raise (Exn RuntimeError (ffmpeg_not_found (errors (_get_text lang)))), w')
    /\ fs w' = fs w
    /\ trace w' = trace w ++ [EvRun (ffmpeg_cmd filepath t); EvRemove t].
Proof.
  intros Habsent Hrm Htmp.
  pose proof (mkstemp_inner_spec E (TMP_MAX E) "whisper_tmp_" ".wav" w) as Hspec.
  unfold NamedTemporaryFile in Htmp. rewrite Htmp in Hspec.
  destruct Hspec as (Hfresh & Hfs & _ & _ & Htrace).
  unfold _convert_to_temp_wav, bind, NamedTemporaryFile. rewrite Htmp.
  fold (ffmpeg_cmd filepath t).
  unfold try_except, subprocess_run.
  destruct (Habsent (ffmpeg_cmd filepath t) (tick w1)) as [msg ->].
  simpl. rewrite (remove_if_exists_ok E _ _ Hrm). simpl.
  rewrite bool_decide_eq_true_2 by set_solver. simpl.
  eexists. split; [reflexivity|]. simpl. split; [set_solver|].
  rewrite Htrace. by rewrite <- app_assoc.
Qed.

End ConverterAbsent.

(** C7 (as amended). With the converter binary absent, a batch of a single
    existing file that needs a conversion returns one result: its text is
    the localized transcription-error message with the localized
    ffmpeg-not-found message as its detail, its summary and bullets are
    empty and its seconds are [0.0].  The batch started the converter and
    removed the temporary file, and called nothing else: the speech
    recognition is not invoked.  The temporary file is taken to be created
    and removed without error. *)
Theorem absent_converter_yields_wrapped_error (E : Env)
    (summarize bullet_list : bool) (lang p : string) (w : World) (f : Frame)
    (t : string) (w1 : World) :
  p <> EmptyString ->
  p ∈ fs w ->
  _needs_wav_conversion p = true ->
  converter_absent E ->
  removals_succeed E ->
  NamedTemporaryFile E "whisper_tmp_" ".wav" w = (Return t, w1) ->
  exists html item j',
    transcribe_many E (Some [p]) summarize bullet_list lang (w, f)
    = (Return (html, [item]), j')
    /\ item_file item = Some (PosixPath.basename p)
    /\ item_text item
       = Some (PyStr.format "{error}"
                 (ffmpeg_not_found (errors (_get_text lang)))
                 (transcription_error (errors (_get_text lang))))
    /\ item_summary item = Some EmptyString
    /\ item_bullets item = Some EmptyString
    /\ item_seconds item = Some 0%float
    /\ trace (fst j') = trace w ++ [EvRun (ffmpeg_cmd p t); EvRemove t]
    /\ fs (fst j') = fs w.
Proof.
  intros Hp Hin Hneeds Habsent Hrm Htmp.
  destruct (convert_to_temp_wav_absent E p lang t w w1 Habsent Hrm Htmp)
    as (w' & Hconv & Hfs & Htrace).
  exists (_render_results E
            [error_item lang p
               (Exn RuntimeError (ffmpeg_not_found (errors (_get_text lang))))]
            summarize bullet_list lang),
    (error_item lang p
       (Exn RuntimeError (ffmpeg_not_found (errors (_get_text lang))))),
    (w', {| results :=
              [error_item lang p
                 (Exn RuntimeError (ffmpeg_not_found (errors (_get_text lang))))];
            temp_wav := None |}).
  split; [|by repeat split].
  unfold transcribe_many. unfold bind at 1. unfold set_results at 1, modify.
  cbn [fst snd]. unfold bind at 1. simpl for_each. unfold bind at 1.
  assert (process_file E summarize bullet_list lang p
            (w, {| results := []; temp_wav := temp_wav f |})
          = (Return tt,
             (w', {| results :=
                       [error_item lang p
                          (Exn RuntimeError
                             (ffmpeg_not_found (errors (_get_text lang))))];
                     temp_wav := None |}))) as ->; [|reflexivity].
  unfold process_file, missing.
  destruct p as [|c p']; [done|]. cbn [PyStr.truthy negb].
  unfold bind at 1. unfold bind at 1. rewrite call_eq. simpl fst. simpl snd.
  unfold os_path_exists, gets. cbn [fst snd].
  rewrite bool_decide_eq_true_2 by done. cbn [negb].
  unfold ret at 1. cbn iota beta.
  unfold bind at 1. unfold set_temp_wav at 1, modify. cbn [fst snd results].
  rewrite Hneeds.
  unfold try_finally, try_except.
  unfold bind at 1. unfold bind at 1. rewrite call_eq, Hconv. cbn [fst snd].
  cbn [find_handler existsb]. rewrite isinstance_Exception. cbn [orb].
  unfold results_append, modify. cbn [results temp_wav app].
  rewrite cleanup_no_temp by done. reflexivity.
Qed.

Lemma env_no_ffmpeg_converter_absent : converter_absent env_no_ffmpeg.
Proof. intros cmd n. eexists. reflexivity. Defined.

Lemma env_no_ffmpeg_removals_succeed : removals_succeed env_no_ffmpeg.
Proof. intros p n. reflexivity. Defined.

Lemma absent_converter_witness :
  exists html item j',
    transcribe_many env_no_ffmpeg (Some ["/data/a.mp3"]) true true "en"
      sample_job
    = (Return (html, [item]), j')
    /\ item_text item
       = Some ("Error during conversion/transcription: "
               +:+ "ffmpeg not found for WAV conversion.")
    /\ trace (fst j')
       = [EvRun (ffmpeg_cmd "/data/a.mp3" "/tmp/whisper_tmp_k3x9a7qz.wav");
          EvRemove "/tmp/whisper_tmp_k3x9a7qz.wav"].
Proof.
  assert ("/data/a.mp3" ∈ fs sample_world) as Hin.
  { compute_done. }
  assert (NamedTemporaryFile env_no_ffmpeg "whisper_tmp_" ".wav" sample_world
          = (Return "/tmp/whisper_tmp_k3x9a7qz.wav",
             snd (NamedTemporaryFile env_no_ffmpeg "whisper_tmp_" ".wav"
                    sample_world))) as Htmp.
  { vm_compute. reflexivity. }
  destruct (absent_converter_yields_wrapped_error env_no_ffmpeg true true "en"
              "/data/a.mp3" sample_world {| results := []; temp_wav := None |}
              _ _ ltac:(discriminate) Hin eq_refl
              env_no_ffmpeg_converter_absent env_no_ffmpeg_removals_succeed Htmp)
    as (html & item & j' & Hrun & _ & Htext & _ & _ & _ & Htrace & _).
  exists html, item, j'. split; [exact Hrun|]. split; [exact Htext|].
  exact Htrace.
Defined.

(** ** The keys of the result records *)

Lemma not_found_item_lacks_fields (lang p : string) :
  ~ has_all_fields (not_found_item lang p).
Proof. intros (_ & _ & [sm Hsm] & _). discriminate Hsm. Qed.

(** C6. The record of a path that is empty or does not exist holds the keys
    ["file"], ["text"] and ["seconds"] only: ["summary"] and ["bullets"] are
    absent from it.  Every other record of the batch, the per-file error
    record included, holds the five keys. *)
Theorem not_found_record_lacks_summary_and_bullets (E : Env)
    (summarize bullet_list : bool) (lang : string) (j : Job) :
  (exists html item j',
     transcribe_many E (Some [EmptyString]) summarize bullet_list lang j
     = (Return (html, [item]), j')
     /\ item_text item = Some (file_not_found (errors (_get_text lang)))
     /\ item_summary item = None
     /\ item_bullets item = None
     /\ ~ has_all_fields item)
  /\ (forall files,
        Forall
          (fun item =>
             has_all_fields item
             \/ (item_text item = Some (file_not_found (errors (_get_text lang)))
                 /\ item_summary item = None /\ item_bullets item = None))
          (snd (match fst (transcribe_many E files summarize bullet_list lang j)
                with
                | Return out => out
                | Raise _ => (EmptyString, [])
                end))).
Proof.
  split.
  - destruct j as [w f].
    exists (_render_results E [not_found_item lang EmptyString]
              summarize bullet_list lang),
      (not_found_item lang EmptyString),
      (w, {| results := [not_found_item lang EmptyString];
             temp_wav := temp_wav f |}).
    split; [|repeat split; apply not_found_item_lacks_fields].
    unfold transcribe_many. unfold bind at 1. unfold set_results at 1, modify.
    cbn [fst snd]. unfold bind at 1. simpl for_each. unfold bind at 1.
    rewrite process_file_missing by (by left). reflexivity.
  - intros files.
    destruct (transcribe_many_spec E files summarize bullet_list lang j)
      as (rs & j' & -> & Hres & _).
    cbn [fst snd].
    eapply Forall2_Forall_r; [exact Hres|].
    apply Forall_forall. intros item _ p [_ [Hall | ->]]; [by left|].
    right. by repeat split.
Qed.

(** ** Enrichment failures *)

(** The failures the [except] clause names.  When the call to the endpoint
    raises [URLError] or [HTTPError], or the body is text that is not JSON,
    [_ollama_summary] and [_ollama_bullets] return the empty string.  With an
    endpoint that fails so at every call, [_transcribe_file] still returns
    its record, with the transcript as its text and empty summary and
    bullets; and the batch returns normally.  The failures the clause does
    not name are treated with the replies of the endpoint. *)
Theorem named_failures_degrade_to_empty (E : Env) (text lang : string)
    (w : World) :
  (caught_failure (urlopen E (summary_request text lang) (tick w)) ->
   _ollama_summary E text lang w
   = (Return EmptyString, called (EvUrlopen (summary_request text lang)) w))
  /\ (caught_failure (urlopen E (bullets_request text lang) (tick w)) ->
      _ollama_bullets E text lang w
      = (Return EmptyString, called (EvUrlopen (bullets_request text lang)) w))
  /\ (endpoint_down E ->
      forall filepath summarize bullet_list display_name result,
        asr E filepath (_asr_language lang) (tick w) = AsrReturn result ->
        exists w',
          _transcribe_file E filepath summarize bullet_list lang display_name w
          = (Return
               {| item_file := Some (display_or_basename display_name filepath);
                  item_text := Some (PyStr.strip (default EmptyString result));
                  item_summary := Some EmptyString;
                  item_bullets := Some EmptyString;
                  item_seconds :=
                    Some (clock E (tick w') - clock E (tick w))%float |},
             w'))
  /\ (forall files summarize bullet_list j,
        exists out j',
          transcribe_many E files summarize bullet_list lang j
          = (Return out, j')).
Proof.
  split; [|split; [|split]].
  - intros Hfail.
    rewrite (surjective_pairing (_ollama_summary E text lang w)).
    by rewrite ollama_summary_caught, ollama_summary_world.
  - intros Hfail.
    rewrite (surjective_pairing (_ollama_bullets E text lang w)).
    by rewrite ollama_bullets_caught, ollama_bullets_world.
  - intros Hdown filepath summarize bullet_list display_name result Hasr.
    rewrite transcribe_file_unfold, Hasr. cbn zeta.
    set (t := PyStr.strip (default EmptyString result)).
    set (w1 := called _ w).
    assert (exists w2,
              (if summarize && PyStr.truthy t
               then _ollama_summary E t lang else ret EmptyString) w1
              = (Return EmptyString, w2)) as [w2 ->].
    { destruct (summarize && PyStr.truthy t); [|by eexists].
      eexists. rewrite (surjective_pairing (_ollama_summary E t lang w1)).
      by rewrite ollama_summary_caught by apply Hdown. }
    assert (exists w3,
              (if bullet_list && PyStr.truthy t
               then _ollama_bullets E t lang else ret EmptyString) w2
              = (Return EmptyString, w3)) as [w3 ->].
    { destruct (bullet_list && PyStr.truthy t); [|by eexists].
      eexists. rewrite (surjective_pairing (_ollama_bullets E t lang w2)).
      by rewrite ollama_bullets_caught by apply Hdown. }
    by eexists.
  - intros files summarize bullet_list j.
    destruct (transcribe_many_spec E files summarize bullet_list lang j)
      as (rs & j' & Hrun & _). eauto.
Qed.

Lemma env_endpoint_down_is_down : endpoint_down env_endpoint_down.
Proof. intros req n. left. reflexivity. Defined.

Lemma named_failures_witness :
  exists w',
    _transcribe_file env_endpoint_down "/data/b.wav" true true "it" None
      sample_world
    = (Return {| item_file := Some "b.wav";
                 item_text := Some "ciao";
                 item_summary := Some EmptyString;
                 item_bullets := Some EmptyString;
                 item_seconds := Some 3%float |}, w').
Proof.
  destruct (proj1 (proj2 (proj2
              (named_failures_degrade_to_empty env_endpoint_down
                 EmptyString "it" sample_world)))
              env_endpoint_down_is_down "/data/b.wav" true true None
              (Some " ciao ") eq_refl) as [w' Hrun].
  exists w'. rewrite Hrun. f_equal. f_equal.
  apply (f_equal snd) in Hrun. simpl in Hrun. rewrite <- Hrun.
  vm_compute. reflexivity.
Defined.

(** ** A batch on concrete inputs *)

(** Two files and a path that does not exist, with no converter binary and
    no enrichment requested: an error record, a transcript and a
    file-not-found record, in this order. *)
Example batch_of_three :
  batch_results
    (transcribe_many env_no_ffmpeg
       (Some ["/data/a.mp3"; "/data/b.wav"; "/data/gone.wav"])
       false false "en" sample_job)
  = [ {| item_file := Some "a.mp3";
         item_text := Some ("Error during conversion/transcription: "
                            +:+ "ffmpeg not found for WAV conversion.");
         item_summary := Some EmptyString;
         item_bullets := Some EmptyString;
         item_seconds := Some 0%float |};
      {| item_file := Some "b.wav";
         item_text := Some "ciao";
         item_summary := Some EmptyString;
         item_bullets := Some EmptyString;
         item_seconds := Some 1%float |};
      {| item_file := Some "gone.wav";
         item_text := Some "File not found.";
         item_summary := None;
         item_bullets := None;
         item_seconds := Some 0%float |} ].
Proof. vm_compute. reflexivity. Qed.

(** * Further properties *)

(** ** The audio normalizer *)

Lemma foldl_normalize_acc (entries : list pyobj) (acc : list string) :
  foldl normalize_entry acc entries = acc ++ foldl normalize_entry [] entries.
Proof.
  revert acc. induction entries as [|entry entries IH]; intros acc; simpl.
  - by rewrite app_nil_r.
  - rewrite IH. rewrite (IH (normalize_entry [] entry)). rewrite app_assoc.
    f_equal. destruct entry as [|s|d|]; simpl.
    + by rewrite app_nil_r.
    + reflexivity.
    + destruct (pyval_or (pyval_or (dict_get d "path") (dict_get d "name"))
                  (dict_get d "file")) as [|s]; simpl; [by rewrite app_nil_r|].
      destruct (PyStr.truthy s); simpl; by rewrite ?app_nil_r.
    + by rewrite app_nil_r.
Qed.

Lemma normalize_files_foldl (entries : list pyobj) :
  _normalize_files (Some entries) = foldl normalize_entry [] entries.
Proof. by destruct entries. Qed.

Lemma normalize_entry_length (entry : pyobj) :
  (length (normalize_entry [] entry) <= 1)%nat.
Proof.
  destruct entry as [|s|d|]; simpl; [lia|lia| |lia].
  destruct (pyval_or (pyval_or (dict_get d "path") (dict_get d "name"))
              (dict_get d "file")) as [|s]; simpl; [lia|].
  destruct (PyStr.truthy s); simpl; lia.
Qed.

(** [_normalize_files] works entry by entry: the paths of a list made of two
    parts are the paths of the first part followed by those of the second.
    It returns no more paths than there are entries, and a list it has
    returned is its own normal form. *)
Theorem normalize_files_by_entry (xs ys : list pyobj) :
  _normalize_files (Some (xs ++ ys))
  = _normalize_files (Some xs) ++ _normalize_files (Some ys)
  /\ (length (_normalize_files (Some xs)) <= length xs)%nat
  /\ _normalize_files (Some (map ObjStr (_normalize_files (Some xs))))
     = _normalize_files (Some xs).
Proof.
  split; [|split].
  - rewrite !normalize_files_foldl, foldl_app. apply foldl_normalize_acc.
  - rewrite normalize_files_foldl.
    induction xs as [|x xs IH]; simpl; [lia|].
    rewrite foldl_normalize_acc, length_app.
    pose proof (normalize_entry_length x). lia.
  - apply normalize_files_paths.
Qed.

(** The two readers of an upload record agree: what [_normalize_files] keeps
    of a single entry is the path [_extract_recording_path] resolves it to.
    Both look under ["path"], then ["name"], then ["file"], and take the first
    value that is not empty. *)
Theorem normalize_agrees_with_extract (entry : pyobj) :
  _normalize_files (Some [entry])
  = option_list (_extract_recording_path entry).
Proof.
  destruct entry as [|s|d|]; try reflexivity.
  unfold _normalize_files, _extract_recording_path. simpl.
  destruct (dict_get d "path") as [|[|c1 s1]],
           (dict_get d "name") as [|[|c2 s2]],
           (dict_get d "file") as [|[|c3 s3]]; reflexivity.
Qed.

(** A record with a path under ["path"] resolves to it, whatever it holds
    under ["name"] and ["file"]; a record with none of the three keys
    resolves to nothing. *)
Theorem extract_recording_path_priority (d : gmap string pyval) :
  (forall s, d !! "path" = Some (PyStr s) -> s <> EmptyString ->
             _extract_recording_path (ObjDict d) = Some s)
  /\ (d !! "path" = None -> d !! "name" = None -> d !! "file" = None ->
      _extract_recording_path (ObjDict d) = None).
Proof.
  split.
  - intros s Hs Hne. simpl. unfold dict_get. rewrite Hs. simpl.
    by destruct s.
  - intros Hp Hn Hf. simpl. unfold dict_get. by rewrite Hp, Hn, Hf.
Qed.

Lemma extract_recording_path_witness :
  _extract_recording_path
    (ObjDict {[ "path" := PyStr "/up/a.wav"; "name" := PyStr "a.wav" ]})
  = Some "/up/a.wav"
  /\ _extract_recording_path (ObjDict {[ "size" := PyStr "12" ]}) = None.
Proof.
  split.
  - apply (proj1 (extract_recording_path_priority
                    {[ "path" := PyStr "/up/a.wav"; "name" := PyStr "a.wav" ]})).
    + reflexivity.
    + discriminate.
  - apply (proj2 (extract_recording_path_priority {[ "size" := PyStr "12" ]}));
      reflexivity.
Defined.

(** Queueing two recordings one after the other appends both, in the order
    they were queued, after the paths the list already held. *)
Theorem add_recording_twice (first second : pyobj) (files : option (list pyobj))
    (lang p1 p2 : string) :
  _extract_recording_path first = Some p1 -> p1 <> EmptyString ->
  _extract_recording_path second = Some p2 -> p2 <> EmptyString ->
  let queue1 := fst (fst (add_recording_to_queue first files lang)) in
  fst (fst (add_recording_to_queue second (Some (map ObjStr queue1)) lang))
  = _normalize_files files ++ [p1; p2].
Proof.
  intros H1 Hp1 H2 Hp2 queue1. subst queue1.
  unfold add_recording_to_queue.
  rewrite H1, H2, (no_path_false p1 Hp1), (no_path_false p2 Hp2).
  cbn [fst default]. rewrite normalize_files_paths. by rewrite <- app_assoc.
Qed.

Lemma add_recording_twice_witness :
  fst (fst (add_recording_to_queue (ObjStr "/rec/two.wav")
              (Some (map ObjStr
                       (fst (fst (add_recording_to_queue
                                    (ObjDict {[ "name" := PyStr "/rec/one.wav" ]})
                                    (Some [ObjStr "/in/a.wav"; ObjOther]) "it")))))
              "it"))
  = ["/in/a.wav"; "/rec/one.wav"; "/rec/two.wav"].
Proof.
  exact (add_recording_twice (ObjDict {[ "name" := PyStr "/rec/one.wav" ]})
           (ObjStr "/rec/two.wav") (Some [ObjStr "/in/a.wav"; ObjOther]) "it"
           "/rec/one.wav" "/rec/two.wav"
           eq_refl ltac:(discriminate) eq_refl ltac:(discriminate)).
Defined.

(** ** The renderer *)

Section RendererFacts.

Context (E : Env).

Lemma map_render_card_ext (u : Ui) (s b : bool) (change : Item -> Item)
    (items : list Item) :
  (forall item, render_card E u s b (change item) = render_card E u s b item) ->
  map (render_card E u s b) (map change items) = map (render_card E u s b) items.
Proof. intros H. rewrite map_map. by apply map_ext. Qed.

(** The markup of a list whose records were changed in a way no card shows
    is the markup of the list. *)
Lemma render_results_ext (s b : bool) (lang : string) (change : Item -> Item)
    (items : list Item) :
  (forall item,
     render_card E (ui (_get_text lang)) s b (change item)
     = render_card E (ui (_get_text lang)) s b item) ->
  _render_results E (map change items) s b lang
  = _render_results E items s b lang.
Proof.
  intros H. unfold _render_results.
  destruct items as [|item items]; [reflexivity|].
  change (map change (item :: items))
    with (change item :: map change items).
  cbv iota beta.
  change (change item :: map change items) with (map change (item :: items)).
  by rewrite map_render_card_ext.
Qed.

(** A record that lacks a key renders as the record that holds the default
    for it: the default audio name for ["file"], the empty string for
    ["text"], ["summary"] and ["bullets"], [0.0] for ["seconds"].  So the
    file-not-found record, which has no ["summary"] and no ["bullets"],
    renders as if it held two empty strings. *)
Theorem render_results_fills_absent_keys (items : list Item)
    (summarize_enabled bullets_enabled : bool) (lang : string) :
  _render_results E (map (with_defaults (ui (_get_text lang))) items)
    summarize_enabled bullets_enabled lang
  = _render_results E items summarize_enabled bullets_enabled lang.
Proof. apply render_results_ext. intros item. reflexivity. Qed.

(** A pane that is not enabled shows nothing of its text: with the summary
    pane off, the markup is the same whatever the summaries of the records
    are, and likewise for the bullets pane. *)
Theorem render_results_hides_disabled_panes (items : list Item)
    (other : Item -> option string) (enabled : bool) (lang : string) :
  _render_results E (map (fun item => with_summary (other item) item) items)
    false enabled lang
  = _render_results E items false enabled lang
  /\ _render_results E (map (fun item => with_bullets (other item) item) items)
       enabled false lang
     = _render_results E items enabled false lang.
Proof. split; apply render_results_ext; intros item; reflexivity. Qed.

End RendererFacts.

(** ** Escaping *)




(** ** Templates *)

Lemma string_app_nil_r (s : string) : s +:+ EmptyString = s.
Proof.
  induction s as [|c s IH]; [reflexivity|].
  change (String c s +:+ EmptyString) with (String c (s +:+ EmptyString)).
  by rewrite IH.
Qed.

Lemma format_go_skip_all (field value r : string) :
  PyStr.format_go field value (String.length r) r = EmptyString.
Proof. induction r as [|c r IH]; [reflexivity|]. exact IH. Qed.

(** A template that ends with its only field, and whose head holds no
    opening brace, formats to the head followed by the value as it is. *)
Lemma format_field_last (head key value : string) :
  forallb (fun c => negb (Ascii.eqb "{" c)) (list_ascii_of_string head) = true ->
  PyStr.format (String "{" key) value (head +:+ String "{" key) = head +:+ value.
Proof.
  intros Hhead. unfold PyStr.format.
  induction head as [|c head IH].
  - change (EmptyString +:+ String "{" key) with (String "{" key).
    change (EmptyString +:+ value) with value.
    cbn [PyStr.format_go PyStr.strip_prefix].
    rewrite Ascii.eqb_refl.
    assert (forall a b, PyStr.strip_prefix a (a +:+ b) = Some b) as Hrefl.
    { intros a b. induction a as [|x a IHa]; [reflexivity|].
      simpl. by rewrite Ascii.eqb_refl. }
    rewrite <- (string_app_nil_r key) at 2. rewrite Hrefl.
    cbn [String.length].
    replace (S (String.length key) - 1)%nat with (String.length key) by lia.
    rewrite format_go_skip_all. apply string_app_nil_r.
  - cbn [forallb list_ascii_of_string] in Hhead.
    apply andb_prop in Hhead as [Hc Hhead].
    change ((String c head) +:+ String "{" key)
      with (String c (head +:+ String "{" key)).
    cbn [PyStr.format_go PyStr.strip_prefix].
    apply negb_true_iff in Hc. rewrite Hc.
    change ((String c head) +:+ value) with (String c (head +:+ value)).
    f_equal. by apply IH.
Qed.

(** In every language the value comes last in the error message, in the two
    prompts and in the "added" message, and it is put there as it is: braces
    or field names inside a transcript, an error text or a file name are not
    read as fields. *)
Theorem templates_end_with_their_value (lang : string) :
  let t := _get_text lang in
  (forall detail,
     PyStr.format "{error}" detail (transcription_error (errors t))
     = template_head (String.length "{error}") (transcription_error (errors t)) +:+ detail)
  /\ (forall text,
        req_prompt (summary_request text lang)
        = template_head (String.length "{content}") (prompt_summary (prompts t)) +:+ text)
  /\ (forall text,
        req_prompt (bullets_request text lang)
        = template_head (String.length "{content}") (prompt_bullets (prompts t)) +:+ text)
  /\ (forall name,
        PyStr.format "{name}" name (record_added (ui t))
        = template_head (String.length "{name}") (record_added (ui t)) +:+ name).
Proof.
  intros t. subst t. unfold summary_request, bullets_request. cbn [req_prompt ollama_request].
  destruct (get_text_cases lang) as [-> | ->];
    (split; [|split; [|split]]); intros value;
    match goal with
    | |- PyStr.format ?field value ?template = ?head +:+ value =>
        let h := eval vm_compute in head in
        change head with h;
        change template with (h +:+ field);
        apply format_field_last; reflexivity
    end.
Qed.

(** ** Paths *)

Lemma rfind_from_last_index (c : ascii) (s : string) (i found : Z) :
  PyStr.rfind_from c s i found
  = match last_index c s with
    | Some k => i + Z.of_nat k
    | None => found
    end.
Proof.
  revert i found. induction s as [|d r IH]; intros i found; [reflexivity|].
  cbn [PyStr.rfind_from last_index]. rewrite IH.
  destruct (last_index c r) as [k|]; [lia|].
  destruct (Ascii.eqb d c); lia.
Qed.

Lemma rfind_last_index (c : ascii) (s : string) :
  PyStr.rfind c s
  = match last_index c s with Some k => Z.of_nat k | None => -1 end.
Proof.
  unfold PyStr.rfind. rewrite rfind_from_last_index.
  by destruct (last_index c s).
Qed.

(** The base name is what follows the last slash, or the whole path. *)
Lemma basename_last_index (p : string) :
  PosixPath.basename p
  = match last_index "/" p with
    | Some k => PyStr.drop (S k) p
    | None => p
    end.
Proof.
  unfold PosixPath.basename, PyStr.slice_from. rewrite rfind_last_index.
  destruct (last_index "/" p) as [k|]; [|reflexivity].
  f_equal. lia.
Qed.

Lemma drop_after_last_index (c : ascii) (s : string) :
  match last_index c s with
  | Some k => lacks c (PyStr.drop (S k) s)
  | None => lacks c s
  end.
Proof.
  unfold lacks. induction s as [|d r IH]; [reflexivity|].
  cbn [last_index]. destruct (last_index c r) as [k|] eqn:Hr.
  - exact IH.
  - destruct (Ascii.eqb d c) eqn:Hd; [exact Hr|].
    reflexivity.
Qed.

(** A base name holds no slash. *)
Lemma basename_lacks_slash (p : string) : lacks "/" (PosixPath.basename p).
Proof.
  rewrite basename_last_index.
  pose proof (drop_after_last_index "/" p) as H.
  by destruct (last_index "/" p).
Qed.

Lemma display_or_basename_lacks_slash (p source : string) :
  lacks "/" (display_or_basename (Some (PosixPath.basename p)) source).
Proof.
  simpl. unfold PyStr.or_else.
  destruct (PyStr.truthy _); apply basename_lacks_slash.
Qed.

(** ** The jobs of the loop, case by case *)

Section JobCases.

Context (E : Env).

Local Opaque _transcribe_file _convert_to_temp_wav cleanup.

(** Each turn of the loop returns normally, appends one record and is one of
    the four cases of [job_case]. *)
Lemma process_file_cases (summarize bullet_list : bool) (lang p : string)
    (w : World) (f : Frame) :
  exists w' item tw,
    process_file E summarize bullet_list lang p (w, f)
    = (Return tt, (w', {| results := results f ++ [item]; temp_wav := tw |}))
    /\ job_case E summarize bullet_list lang p w f w' item tw.
Proof.
  destruct (decide (p = EmptyString \/ p ∉ fs w)) as [Hmissing|Hthere].
  { exists w, (not_found_item lang p), (temp_wav f).
    split; [by apply process_file_missing | by apply JobMissing]. }
  assert (p <> EmptyString /\ p ∈ fs w) as [Hp Hin].
  { split; [naive_solver|]. destruct (decide (p ∈ fs w)); naive_solver. }
  unfold process_file, missing.
  destruct (PyStr.truthy p) eqn:Htruthy; [|by destruct p]. cbn [negb].
  unfold bind at 1. unfold bind at 1. rewrite call_eq. simpl.
  rewrite bool_decide_eq_true_2 by done. cbn [negb].
  unfold bind at 1. unfold set_temp_wav at 1, modify. cbn [fst snd].
  unfold try_finally, try_except.
  destruct (_needs_wav_conversion p) eqn:Hneeds.
  - unfold bind at 1. unfold bind at 1. rewrite call_eq.
    pose proof (convert_to_temp_wav_spec E p lang w) as Hspec.
    destruct (_convert_to_temp_wav E p lang w) as [[t|e] w1] eqn:Hconv; simpl.
    + destruct Hspec as (_ & Htruthy' & _).
      unfold bind at 1. rewrite call_eq.
      destruct (_transcribe_file E t summarize bullet_list lang
                  (Some (PosixPath.basename p)) w1) as [[item|e] w2] eqn:Htf;
        simpl.
      * destruct (cleanup_temp E w2
                    {| results := results f ++ [item]; temp_wav := Some t |}
                    t eq_refl Htruthy') as (w3 & Hclean & _).
        rewrite Hclean.
        eexists _, _, _. split; [reflexivity|].
        by eapply (JobConverted _ _ _ _ _ _ _ _ _ _ t w1 w2 (Return item)).
      * rewrite isinstance_Exception. simpl.
        destruct (cleanup_temp E w2
                    {| results := results f ++ [error_item lang p e];
                       temp_wav := Some t |}
                    t eq_refl Htruthy') as (w3 & Hclean & _).
        pose proof Hclean as Hclean'.
        unfold error_item in Hclean'. rewrite Hclean'.
        eexists _, _, _. split; [reflexivity|].
        by eapply (JobConverted _ _ _ _ _ _ _ _ _ _ t w1 w2 (Raise e)).
    + rewrite isinstance_Exception. simpl.
      rewrite cleanup_no_temp by done.
      eexists _, _, _. split; [reflexivity|].
      by eapply JobNotConverted.
  - unfold bind at 1. unfold bind at 1. simpl.
    destruct (_transcribe_file E p summarize bullet_list lang
                (Some (PosixPath.basename p)) w) as [[item|e] w2] eqn:Htf;
      simpl.
    + rewrite cleanup_no_temp by done.
      eexists _, _, _. split; [reflexivity|].
      by eapply (JobDirect _ _ _ _ _ _ _ _ _ _ (Return item)).
    + rewrite isinstance_Exception. simpl.
      rewrite cleanup_no_temp by done.
      eexists _, _, _. split; [reflexivity|].
      by eapply (JobDirect _ _ _ _ _ _ _ _ _ _ (Raise e)).
Qed.

End JobCases.

(** ** The calls a batch makes *)

Lemma added_refl (w : World) : added w w [].
Proof. split; [by rewrite app_nil_r | simpl; lia]. Qed.

Lemma added_app (w w1 w2 : World) (l1 l2 : list event) :
  added w w1 l1 -> added w1 w2 l2 -> added w w2 (l1 ++ l2).
Proof.
  intros [Ht1 Hk1] [Ht2 Hk2]. split.
  - by rewrite Ht2, Ht1, app_assoc.
  - rewrite Hk2, Hk1, length_app. lia.
Qed.

Lemma added_called (ev : event) (w : World) : added w (called ev w) [ev].
Proof. split; simpl; [done | lia]. Qed.

Lemma added_with_fs (w w' : World) (l : list event) (files : gset string) :
  added w w' l -> added w (with_fs files w') l.
Proof. by intros [Ht Hk]. Qed.

Section CallFacts.

Context (E : Env).

Lemma mkstemp_inner_name (fuel : nat) (w w' : World) (t : string) :
  mkstemp_inner E fuel "whisper_tmp_" ".wav" w = (Return t, w') ->
  temp_name E t.
Proof.
  revert w. induction fuel as [|fuel IH]; intros w; simpl; [done|].
  case_bool_decide as Hin; [apply IH|].
  intros [= <- _]. by eexists.
Qed.

Lemma remove_if_exists_added (t : string) (w : World) :
  exists l,
    added w (snd (remove_if_exists E t w)) l /\ (l = [] \/ l = [EvRemove t]).
Proof.
  unfold remove_if_exists, bind, os_path_exists, gets, os_remove.
  case_bool_decide as Hin; simpl.
  - exists [EvRemove t]. split; [|by right].
    destruct (remove_error E t (tick w)); simpl.
    + apply added_called.
    + rewrite bool_decide_eq_true_2 by done. simpl.
      apply added_with_fs, added_called.
  - exists []. split; [apply added_refl | by left].
Qed.

Lemma bind_then_raise {S A B} (m : M S A) (e : exn) (s : S) :
  snd (bind m (fun _ => raise (A:=B) e) s) = snd (m s)
  /\ exists e', fst (bind m (fun _ => raise (A:=B) e) s) = Raise e'.
Proof. unfold bind, raise. destruct (m s) as [[a|e'] s']; simpl; eauto. Qed.

Lemma bind_then_ret {S A B} (m : M S A) (b : B) (s : S) :
  snd (bind m (fun _ => ret b) s) = snd (m s)
  /\ fst (bind m (fun _ => ret b) s)
     = match fst (m s) with Return _ => Return b | Raise e => Raise e end.
Proof. unfold bind, ret. by destruct (m s) as [[a|e'] s']. Qed.

(** The [try] statement of the converter: the converter is started once;
    when it fails in a way that is handled, the temporary file is removed
    if it is there. *)
Lemma run_converter_added (filepath lang t : string) (w : World) :
  let errors := errors (_get_text lang) in
  let attempt :=
    try_except
      (subprocess_run E (ffmpeg_cmd filepath t))
      [([FileNotFoundError],
        fun _ => remove_if_exists E t >>
                 raise (Exn RuntimeError (ffmpeg_not_found errors)));
       ([CalledProcessError],
        fun _ => remove_if_exists E t >>
                 raise (Exn RuntimeError (wav_conversion_failed errors)))] in
  exists l,
    added w (snd (attempt w)) (EvRun (ffmpeg_cmd filepath t) :: l)
    /\ (l = [] \/ l = [EvRemove t])
    /\ (forall x, fst (attempt w) = Return x -> l = []).
Proof.
  intros errors attempt. subst attempt. unfold try_except, subprocess_run.
  change (List.last (ffmpeg_cmd filepath t) EmptyString) with t.
  set (w2 := called (EvRun (ffmpeg_cmd filepath t)) w).
  assert (Hhandled : forall (w3 : World) msg,
    added w w3 [EvRun (ffmpeg_cmd filepath t)] ->
    let out := bind (remove_if_exists E t)
                 (fun _ => raise (A:=unit) (Exn RuntimeError msg)) w3 in
    exists l,
      added w (snd out) (EvRun (ffmpeg_cmd filepath t) :: l)
      /\ (l = [] \/ l = [EvRemove t])
      /\ (forall x, fst out = Return x -> l = [])).
  { intros w3 msg Hw3 out. subst out.
    destruct (bind_then_raise (B:=unit) (remove_if_exists E t)
                (Exn RuntimeError msg) w3) as (-> & e' & ->).
    destruct (remove_if_exists_added t w3) as (l & Hl & Hcases).
    exists l. split; [exact (added_app w w3 _ [_] l Hw3 Hl)|].
    split; [exact Hcases | discriminate]. }
  destruct (run E (ffmpeg_cmd filepath t) (tick w))
    as [[c msg]|returncode output_exists].
  - cbn [find_handler existsb].
    destruct (isinstance (Exn c msg) FileNotFoundError || false).
    { apply Hhandled, added_called. }
    destruct (isinstance (Exn c msg) CalledProcessError || false).
    { apply Hhandled, added_called. }
    exists []. split; [apply added_called|]. split; [by left | done].
  - destruct (returncode =? 0).
    + exists []. split; [apply added_with_fs, added_called|].
      split; [by left | done].
    + cbn [find_handler existsb].
      match goal with
      | |- context [isinstance ?e FileNotFoundError || false] =>
          change (isinstance e FileNotFoundError || false) with false;
          change (isinstance e CalledProcessError || false) with true
      end.
      cbv iota. apply Hhandled, added_with_fs, added_called.
Qed.

(** The calls of a conversion: the converter, once, from the input to a
    temporary name, and at most one removal of that name after it; only the
    converter when the conversion returns. *)
Lemma convert_to_temp_wav_added (summarize bullet_list : bool)
    (filepath lang : string) (w : World) :
  exists l,
    added w (snd (_convert_to_temp_wav E filepath lang w)) l
    /\ Forall (batch_event E summarize bullet_list lang) l
    /\ (length l <= 2)%nat
    /\ count_calls is_asr_call l = 0%nat
    /\ match fst (_convert_to_temp_wav E filepath lang w) with
       | Return t => l = [EvRun (ffmpeg_cmd filepath t)] /\ temp_name E t
       | Raise _ => True
       end.
Proof.
  unfold _convert_to_temp_wav, NamedTemporaryFile.
  pose proof (mkstemp_inner_spec E (TMP_MAX E) "whisper_tmp_" ".wav" w) as Hspec.
  pose proof (mkstemp_inner_name (TMP_MAX E) w) as Hname.
  destruct (mkstemp_inner E (TMP_MAX E) "whisper_tmp_" ".wav" w)
    as [[t|e] w1] eqn:Hmk.
  2:{ rewrite (bind_raise _ _ _ _ _ Hmk).
      destruct Hspec as (_ & Htick & Htrace). exists []. cbn [fst snd].
      split; [split; [by rewrite app_nil_r | simpl; lia]|].
      split; [constructor|]. split; [simpl; lia|]. by split. }
  rewrite (bind_return _ _ _ _ _ Hmk).
  destruct Hspec as (_ & _ & _ & Htick & Htrace).
  specialize (Hname w1 t eq_refl).
  assert (added w w1 []) as Hw1.
  { split; [by rewrite app_nil_r | simpl; lia]. }
  fold (ffmpeg_cmd filepath t).
  match goal with
  | |- context [bind ?m (fun _ => ret t) w1] =>
      destruct (bind_then_ret m t w1) as [-> ->];
      destruct (run_converter_added filepath lang t w1) as (l & Hl & Hcases & Hret)
  end.
  cbn zeta in Hl, Hret.
  exists (EvRun (ffmpeg_cmd filepath t) :: l).
  split; [exact (added_app w w1 _ [] _ Hw1 Hl)|].
  assert (Hrun : batch_event E summarize bullet_list lang
                   (EvRun (ffmpeg_cmd filepath t))).
  { simpl. eauto. }
  split; [|split; [|split]].
  - destruct Hcases as [-> | ->]; repeat constructor; done.
  - destruct Hcases as [-> | ->]; simpl; lia.
  - by destruct Hcases as [-> | ->].
  - match goal with
    | |- match match ?r with _ => _ end with _ => _ end =>
        destruct r as [x|e] eqn:Hr; [|done]
    end.
    split; [|done]. by rewrite (Hret x eq_refl).
Qed.

End CallFacts.

Section JobCallFacts.

Context (E : Env).

Lemma optional_summary_added (summarize bullet_list : bool)
    (text lang : string) (w : World) :
  exists l,
    added w (snd ((if summarize && PyStr.truthy text
                   then _ollama_summary E text lang else ret EmptyString) w)) l
    /\ Forall (batch_event E summarize bullet_list lang) l
    /\ (length l <= 1)%nat /\ count_calls is_asr_call l = 0%nat.
Proof.
  rewrite optional_summary_world.
  destruct (summarize && PyStr.truthy text) eqn:Hgo.
  - apply andb_prop in Hgo as [-> Htruthy]. apply truthy_true in Htruthy.
    exists [EvUrlopen (summary_request text lang)].
    split; [apply added_called|].
    split; [|split; [simpl; lia | reflexivity]].
    constructor; [|constructor]. left. eauto.
  - exists []. split; [apply added_refl|]. split; [constructor|].
    split; [simpl; lia | reflexivity].
Qed.

Lemma optional_bullets_added (summarize bullet_list : bool)
    (text lang : string) (w : World) :
  exists l,
    added w (snd ((if bullet_list && PyStr.truthy text
                   then _ollama_bullets E text lang else ret EmptyString) w)) l
    /\ Forall (batch_event E summarize bullet_list lang) l
    /\ (length l <= 1)%nat /\ count_calls is_asr_call l = 0%nat.
Proof.
  rewrite optional_bullets_world.
  destruct (bullet_list && PyStr.truthy text) eqn:Hgo.
  - apply andb_prop in Hgo as [-> Htruthy]. apply truthy_true in Htruthy.
    exists [EvUrlopen (bullets_request text lang)].
    split; [apply added_called|].
    split; [|split; [simpl; lia | reflexivity]].
    constructor; [|constructor]. right. eauto.
  - exists []. split; [apply added_refl|]. split; [constructor|].
    split; [simpl; lia | reflexivity].
Qed.

(** The calls of [_transcribe_file]: one speech recognition, a transcription
    with timestamps and the hint of the language, then at most two calls of
    the endpoint, each for a requested mode and a transcript that is not
    empty. *)
Lemma transcribe_file_added (filepath : string) (summarize bullet_list : bool)
    (lang : string) (display_name : option string) (w : World) :
  exists l,
    added w
      (snd (_transcribe_file E filepath summarize bullet_list lang
              display_name w))
      (EvAsr filepath (_asr_language lang) "transcribe" true :: l)
    /\ Forall (batch_event E summarize bullet_list lang) l
    /\ (length l <= 2)%nat /\ count_calls is_asr_call l = 0%nat.
Proof.
  rewrite transcribe_file_unfold. cbn zeta.
  set (w1 := called (EvAsr filepath (_asr_language lang) "transcribe" true) w).
  assert (added w w1 [EvAsr filepath (_asr_language lang) "transcribe" true])
    as Hw1 by apply added_called.
  destruct (asr E filepath (_asr_language lang) (tick w)) as [e|result].
  { exists []. split; [exact Hw1|]. split; [constructor|].
    split; [simpl; lia | reflexivity]. }
  set (text := PyStr.strip (default EmptyString result)).
  destruct (optional_summary_added summarize bullet_list text lang w1)
    as (l1 & Hl1 & Hok1 & Hlen1 & Hasr1).
  destruct ((if summarize && PyStr.truthy text
             then _ollama_summary E text lang else ret EmptyString) w1)
    as [[summary|e] w2]; cbn [snd] in Hl1.
  2:{ exists l1. split; [exact (added_app w w1 w2 [_] l1 Hw1 Hl1)|].
      split; [done|]. split; [lia|done]. }
  destruct (optional_bullets_added summarize bullet_list text lang w2)
    as (l2 & Hl2 & Hok2 & Hlen2 & Hasr2).
  assert (added w w2 (EvAsr filepath (_asr_language lang) "transcribe" true :: l1))
    as Hw2 by exact (added_app w w1 w2 [_] l1 Hw1 Hl1).
  assert (count_calls is_asr_call (l1 ++ l2) = 0%nat) as Hasr.
  { unfold count_calls in *. rewrite List.filter_app, length_app. lia. }
  destruct ((if bullet_list && PyStr.truthy text
             then _ollama_bullets E text lang else ret EmptyString) w2)
    as [[bullets|e] w3]; cbn [snd] in Hl2;
    exists (l1 ++ l2);
    (split; [exact (added_app w w2 w3 (_ :: l1) l2 Hw2 Hl2)|]);
    (split; [by apply Forall_app|]);
    (split; [rewrite length_app; lia | exact Hasr]).
Qed.

(** The calls of the [finally] block: at most the removal of the temporary
    file. *)
Lemma cleanup_added (w : World) (f : Frame) (t : string) :
  temp_wav f = Some t ->
  exists l,
    added w (fst (snd (cleanup E (w, f)))) l /\ (l = [] \/ l = [EvRemove t]).
Proof.
  intros Ht. unfold cleanup, bind, gets. simpl. rewrite Ht.
  destruct (PyStr.truthy t).
  2:{ exists []. split; [apply added_refl | by left]. }
  rewrite call_eq. simpl. case_bool_decide as Hin.
  2:{ exists []. split; [apply added_refl | by left]. }
  exists [EvRemove t]. split; [|by right].
  unfold try_except. rewrite call_eq. unfold os_remove.
  destruct (remove_error E t (tick w)); simpl.
  - apply added_called.
  - rewrite bool_decide_eq_true_2 by done. simpl.
    apply added_with_fs, added_called.
Qed.

Lemma count_calls_app (kind : event -> bool) (l1 l2 : list event) :
  count_calls kind (l1 ++ l2) = (count_calls kind l1 + count_calls kind l2)%nat.
Proof. unfold count_calls. by rewrite List.filter_app, length_app. Qed.

(** The calls of one job. *)
Lemma job_case_calls (summarize bullet_list : bool) (lang p : string)
    (w : World) (f : Frame) (w' : World) (item : Item) (tw : option string) :
  job_case E summarize bullet_list lang p w f w' item tw ->
  exists l, added w w' l /\ job_calls E summarize bullet_list lang l.
Proof.
  assert (Hasr_ok : forall path,
            batch_event E summarize bullet_list lang
              (EvAsr path (_asr_language lang) "transcribe" true)).
  { intros path. by repeat split. }
  intros [Hmissing -> _ _
         | r Hp Hin Hneeds Htf _ _
         | e Hp Hin Hneeds Hconv _ _
         | t w1 w2 r Hp Hin Hneeds Hconv Htf _ Hclean _].
  - exists []. split; [apply added_refl|].
    split; [constructor|]. split; unfold count_calls; simpl; lia.
  - destruct (transcribe_file_added p summarize bullet_list lang
                (Some (PosixPath.basename p)) w) as (l & Hl & Hok & Hlen & Hasr).
    rewrite Htf in Hl. cbn [snd] in Hl.
    eexists. split; [exact Hl|]. split; [by constructor|].
    split; [simpl; lia|].
    change (EvAsr p (_asr_language lang) "transcribe" true :: l)
      with ([EvAsr p (_asr_language lang) "transcribe" true] ++ l).
    rewrite count_calls_app, Hasr. unfold count_calls. simpl. lia.
  - destruct (convert_to_temp_wav_added E summarize bullet_list p lang w)
      as (l & Hl & Hok & Hlen & Hasr & _).
    rewrite Hconv in Hl. cbn [snd] in Hl.
    exists l. split; [exact Hl|]. split; [done|]. split; lia.
  - destruct (convert_to_temp_wav_added E summarize bullet_list p lang w)
      as (l0 & Hl0 & _ & _ & _ & Hret).
    rewrite Hconv in Hl0, Hret. cbn [fst snd] in Hl0, Hret.
    destruct Hret as [-> Hname].
    destruct (transcribe_file_added t summarize bullet_list lang
                (Some (PosixPath.basename p)) w1) as (l & Hl & Hok & Hlen & Hasr).
    rewrite Htf in Hl. cbn [snd] in Hl.
    destruct (cleanup_added w2
                {| results := results f ++ [item]; temp_wav := Some t |}
                t eq_refl) as (l3 & Hl3 & Hcases).
    rewrite Hclean in Hl3. cbn [fst snd] in Hl3.
    exists ([EvRun (ffmpeg_cmd p t)]
            ++ (EvAsr t (_asr_language lang) "transcribe" true :: l) ++ l3).
    split.
    { eapply added_app; [exact Hl0|]. eapply added_app; [exact Hl | exact Hl3]. }
    split; [|split].
    + apply Forall_app. split.
      { constructor; [|constructor]. simpl. eauto. }
      apply Forall_app. split; [by constructor|].
      destruct Hcases as [-> | ->]; [constructor|].
      constructor; [exact Hname | constructor].
    + rewrite !length_app. cbn [length].
      destruct Hcases as [-> | ->]; simpl; lia.
    + rewrite !count_calls_app.
      change (EvAsr t (_asr_language lang) "transcribe" true :: l)
        with ([EvAsr t (_asr_language lang) "transcribe" true] ++ l).
      rewrite count_calls_app, Hasr.
      destruct Hcases as [-> | ->]; unfold count_calls; simpl; lia.
Qed.

(** The calls of the loop over the paths. *)
Lemma for_each_calls (summarize bullet_list : bool) (lang : string)
    (paths : list string) (w : World) (f : Frame) :
  exists l,
    added w
      (fst (snd (for_each paths (process_file E summarize bullet_list lang)
                   (w, f)))) l
    /\ Forall (batch_event E summarize bullet_list lang) l
    /\ (length l <= 5 * length paths)%nat
    /\ (count_calls is_asr_call l <= length paths)%nat.
Proof.
  revert w f. induction paths as [|p paths IH]; intros w f.
  - exists []. split; [apply added_refl|]. split; [constructor|].
    split; unfold count_calls; simpl; lia.
  - destruct (process_file_cases E summarize bullet_list lang p w f)
      as (w1 & item & tw & Hp & Hcase).
    destruct (job_case_calls _ _ _ _ _ _ _ _ _ Hcase)
      as (l1 & Hl1 & Hok1 & Hlen1 & Hasr1).
    destruct (IH w1 {| results := results f ++ [item]; temp_wav := tw |})
      as (l2 & Hl2 & Hok2 & Hlen2 & Hasr2).
    exists (l1 ++ l2). cbn [for_each]. unfold bind at 1. rewrite Hp.
    split; [by eapply added_app|]. split; [by apply Forall_app|].
    rewrite length_app, count_calls_app. cbn [length]. lia.
Qed.

End JobCallFacts.

Section BatchCallFacts.

Context (E : Env).

(** The world a batch ends in is the world its loop ends in. *)
Lemma transcribe_many_world (files : option (list string))
    (summarize bullet_list : bool) (lang : string) (w : World) (f : Frame) :
  fst (snd (transcribe_many E files summarize bullet_list lang (w, f)))
  = fst (snd (for_each (default [] files)
                (process_file E summarize bullet_list lang)
                (w, {| results := []; temp_wav := temp_wav f |}))).
Proof.
  destruct files as [[|p paths]|]; try reflexivity.
  destruct (for_each_process_spec E summarize bullet_list lang (p :: paths) w
              {| results := []; temp_wav := temp_wav f |})
    as (w' & items & tw & Hloop & _).
  change (default [] (Some (p :: paths))) with (p :: paths).
  unfold transcribe_many, bind, set_results, modify.
  cbn [fst snd results temp_wav].
  rewrite Hloop. reflexivity.
Qed.

Lemma transcribe_many_calls (files : option (list string))
    (summarize bullet_list : bool) (lang : string) (j : Job) :
  exists l,
    added (fst j)
      (fst (snd (transcribe_many E files summarize bullet_list lang j))) l
    /\ Forall (batch_event E summarize bullet_list lang) l
    /\ (length l <= 5 * length (default [] files))%nat
    /\ (count_calls is_asr_call l <= length (default [] files))%nat.
Proof.
  destruct j as [w f]. rewrite transcribe_many_world. apply for_each_calls.
Qed.

End BatchCallFacts.

(** Every call a batch makes is one of four kinds.  The converter is run as
    [ffmpeg -y -i <input> -ac 1 -ar 16000 <temporary file>]; the speech
    recognition is asked for a transcription (never a translation), with
    timestamps and the hint of the interface language; the endpoint is
    called only for a mode that was requested and with a transcript that is
    not empty; and the only paths removed are temporary names of the
    converter. *)
Theorem batch_makes_only_expected_calls (E : Env)
    (files : option (list string)) (summarize bullet_list : bool)
    (lang : string) (j : Job) :
  exists l,
    trace (fst (snd (transcribe_many E files summarize bullet_list lang j)))
    = trace (fst j) ++ l
    /\ Forall (batch_event E summarize bullet_list lang) l.
Proof.
  destruct (transcribe_many_calls E files summarize bullet_list lang j)
    as (l & [Htrace _] & Hok & _).
  by exists l.
Qed.

(** A batch makes at most five calls for each path (converter, speech
    recognition, two calls of the endpoint, removal) and at most one speech
    recognition for each path. *)
Theorem batch_calls_are_bounded (E : Env) (files : option (list string))
    (summarize bullet_list : bool) (lang : string) (j : Job) :
  exists l,
    trace (fst (snd (transcribe_many E files summarize bullet_list lang j)))
    = trace (fst j) ++ l
    /\ (length l <= 5 * length (default [] files))%nat
    /\ (count_calls is_asr_call l <= length (default [] files))%nat.
Proof.
  destruct (transcribe_many_calls E files summarize bullet_list lang j)
    as (l & [Htrace _] & _ & Hlen & Hasr).
  by exists l.
Qed.

(** With neither mode requested a batch does not call the endpoint,
    whatever the files and the transcripts are. *)
Theorem batch_without_modes_never_calls_endpoint (E : Env)
    (files : option (list string)) (lang : string) (j : Job) :
  exists l,
    trace (fst (snd (transcribe_many E files false false lang j)))
    = trace (fst j) ++ l
    /\ count_calls is_endpoint_call l = 0%nat.
Proof.
  destruct (transcribe_many_calls E files false false lang j)
    as (l & [Htrace _] & Hok & _).
  exists l. split; [exact Htrace|].
  clear Htrace. induction Hok as [|ev l Hev Hok IH]; [reflexivity|].
  change (ev :: l) with ([ev] ++ l). rewrite count_calls_app, IH.
  destruct ev as [cmd|path language task ts|req|path]; try reflexivity.
  destruct Hev as [[Hs _] | [Hb _]]; discriminate.
Qed.

(** ** What holds of every record of a batch *)

Section BatchRecords.

Context (E : Env) (summarize bullet_list : bool) (lang : string).
Context (Q : string -> Item -> Prop).
Hypothesis every_case :
  forall p w f w' item tw,
    job_case E summarize bullet_list lang p w f w' item tw -> Q p item.

(** A property of the record of each of the four cases holds of the records
    of the loop, path by path. *)
Lemma for_each_items (paths : list string) (w : World) (f : Frame) :
  exists w' items tw,
    for_each paths (process_file E summarize bullet_list lang) (w, f)
    = (Return tt, (w', {| results := results f ++ items; temp_wav := tw |}))
    /\ Forall2 Q paths items.
Proof.
  revert w f. induction paths as [|p paths IH]; intros w f.
  - exists w, [], (temp_wav f). rewrite app_nil_r. by destruct f.
  - destruct (process_file_cases E summarize bullet_list lang p w f)
      as (w1 & item & tw1 & Hp & Hcase).
    destruct (IH w1 {| results := results f ++ [item]; temp_wav := tw1 |})
      as (w2 & items & tw2 & Hrest & Hall).
    exists w2, (item :: items), tw2. split.
    + simpl. unfold bind. rewrite Hp, Hrest. simpl.
      by rewrite <- app_assoc.
    + constructor; [by eapply every_case|exact Hall].
Qed.

Lemma transcribe_many_items (files : option (list string)) (j : Job) :
  exists html rs j',
    transcribe_many E files summarize bullet_list lang j
    = (Return (html, rs), j')
    /\ Forall2 Q (default [] files) rs.
Proof.
  destruct j as [w f].
  destruct files as [[|p paths]|];
    try by (eexists _, [], (w, f); split; [reflexivity|constructor]).
  destruct (for_each_items (p :: paths) w
              {| results := []; temp_wav := temp_wav f |})
    as (w' & items & tw & Hloop & Hall).
  exists (_render_results E items summarize bullet_list lang), items,
    (w', {| results := items; temp_wav := tw |}).
  split; [|exact Hall].
  unfold transcribe_many. unfold bind at 1. unfold set_results at 1, modify.
  cbn [fst snd]. unfold bind at 1. rewrite Hloop. reflexivity.
Qed.

End BatchRecords.

Section RecordFacts.

Context (E : Env).

(** The record of a job names a file without a directory. *)
Lemma job_case_file (summarize bullet_list : bool) (lang p : string)
    (w : World) (f : Frame) (w' : World) (item : Item) (tw : option string) :
  job_case E summarize bullet_list lang p w f w' item tw ->
  exists name, item_file item = Some name /\ lacks "/" name.
Proof.
  intros [Hmissing -> -> _ | r _ _ _ Hrun -> _ | e _ _ _ _ -> _
         | t w1 w2 r _ _ _ _ Hrun -> _ _].
  - eexists. split; [reflexivity|apply basename_lacks_slash].
  - destruct r as [item|e].
    + apply transcribe_file_return in Hrun
        as (result & summary & bullets & _ & -> & _).
      eexists. split; [reflexivity|apply display_or_basename_lacks_slash].
    + eexists. split; [reflexivity|apply basename_lacks_slash].
  - eexists. split; [reflexivity|apply basename_lacks_slash].
  - destruct r as [item|e].
    + apply transcribe_file_return in Hrun
        as (result & summary & bullets & _ & -> & _).
      eexists. split; [reflexivity|apply display_or_basename_lacks_slash].
    + eexists. split; [reflexivity|apply basename_lacks_slash].
Qed.

(** A record that [_transcribe_file] returns has an empty summary unless the
    summary was requested and the transcript is not empty, and likewise for
    the bullets. *)
Lemma transcribe_file_fields (filepath : string) (summarize bullet_list : bool)
    (lang : string) (display_name : option string) (w w' : World) (item : Item) :
  _transcribe_file E filepath summarize bullet_list lang display_name w
  = (Return item, w') ->
  (summarize = false \/ item_text item = Some EmptyString ->
   item_summary item = Some EmptyString)
  /\ (bullet_list = false \/ item_text item = Some EmptyString ->
      item_bullets item = Some EmptyString).
Proof.
  rewrite transcribe_file_unfold. cbn zeta.
  destruct (asr E filepath (_asr_language lang) (tick w)) as [e|result];
    [discriminate|].
  set (text := PyStr.strip (default EmptyString result)).
  set (w1 := called _ w).
  destruct ((if summarize && PyStr.truthy text
             then _ollama_summary E text lang else ret EmptyString) w1)
    as [[summary|e] w2] eqn:Hs; [|discriminate].
  destruct ((if bullet_list && PyStr.truthy text
             then _ollama_bullets E text lang else ret EmptyString) w2)
    as [[bullets|e] w3] eqn:Hb; [|discriminate].
  intros [= <- <-]. cbn [item_text item_summary item_bullets].
  split; intros Hoff.
  - assert (summarize && PyStr.truthy text = false) as Hcond.
    { destruct Hoff as [-> | [= ->]]; [reflexivity|]. by rewrite andb_false_r. }
    rewrite Hcond in Hs. by injection Hs as <- _.
  - assert (bullet_list && PyStr.truthy text = false) as Hcond.
    { destruct Hoff as [-> | [= ->]]; [reflexivity|]. by rewrite andb_false_r. }
    rewrite Hcond in Hb. by injection Hb as <- _.
Qed.

Lemma job_case_fields (summarize bullet_list : bool) (lang p : string)
    (w : World) (f : Frame) (w' : World) (item : Item) (tw : option string) :
  job_case E summarize bullet_list lang p w f w' item tw ->
  (summarize = false \/ item_text item = Some EmptyString ->
   default EmptyString (item_summary item) = EmptyString)
  /\ (bullet_list = false \/ item_text item = Some EmptyString ->
      default EmptyString (item_bullets item) = EmptyString).
Proof.
  intros [Hmissing -> -> _ | r _ _ _ Hrun -> _ | e _ _ _ _ -> _
         | t w1 w2 r _ _ _ _ Hrun -> _ _]; try by split.
  - destruct r as [item|e]; [|by split].
    apply transcribe_file_fields in Hrun as [Hs Hb].
    cbn [item_of_outcome].
    split; intros Hoff; [by rewrite Hs | by rewrite Hb].
  - destruct r as [item|e]; [|by split].
    apply transcribe_file_fields in Hrun as [Hs Hb].
    cbn [item_of_outcome].
    split; intros Hoff; [by rewrite Hs | by rewrite Hb].
Qed.

End RecordFacts.

(** No record of a batch shows a directory: the [file] entry of every record
    is present and has no "/" in it, whatever the paths submitted and the
    temporary paths of the converter are. *)
Theorem batch_records_name_no_directory (E : Env)
    (files : option (list string)) (summarize bullet_list : bool)
    (lang : string) (j : Job) :
  exists html rs j',
    transcribe_many E files summarize bullet_list lang j
    = (Return (html, rs), j')
    /\ Forall (fun item =>
                 exists name, item_file item = Some name /\ lacks "/" name) rs.
Proof.
  destruct (transcribe_many_items E summarize bullet_list lang
              (fun _ item =>
                 exists name, item_file item = Some name /\ lacks "/" name)
              (job_case_file E summarize bullet_list lang) files j)
    as (html & rs & j' & Hrun & Hall).
  exists html, rs, j'. split; [exact Hrun|].
  clear Hrun. induction Hall; by constructor.
Qed.

(** In the records of a batch a summary that was not requested is empty or
    absent, and so are bullets that were not requested; and a record with an
    empty transcript has neither summary nor bullets, whatever was
    requested. *)
Theorem batch_fields_empty_unless_requested (E : Env)
    (files : option (list string)) (summarize bullet_list : bool)
    (lang : string) (j : Job) :
  exists html rs j',
    transcribe_many E files summarize bullet_list lang j
    = (Return (html, rs), j')
    /\ Forall (fun item =>
                 (summarize = false \/ item_text item = Some EmptyString ->
                  default EmptyString (item_summary item) = EmptyString)
                 /\ (bullet_list = false \/ item_text item = Some EmptyString ->
                     default EmptyString (item_bullets item) = EmptyString)) rs.
Proof.
  destruct (transcribe_many_items E summarize bullet_list lang
              (fun _ item =>
                 (summarize = false \/ item_text item = Some EmptyString ->
                  default EmptyString (item_summary item) = EmptyString)
                 /\ (bullet_list = false \/ item_text item = Some EmptyString ->
                     default EmptyString (item_bullets item) = EmptyString))
              (job_case_fields E summarize bullet_list lang) files j)
    as (html & rs & j' & Hrun & Hall).
  exists html, rs, j'. split; [exact Hrun|].
  clear Hrun. induction Hall; by constructor.
Qed.

(** The results of a batch do not depend on the files that follow: the
    results for the paths [xs ++ ys] begin with the results for [xs] alone,
    followed by one record for each path of [ys]. *)
Theorem batch_results_extend_those_of_a_prefix (E : Env)
    (xs ys : list string) (summarize bullet_list : bool) (lang : string)
    (j : Job) :
  exists rest,
    batch_results
      (transcribe_many E (Some (xs ++ ys)) summarize bullet_list lang j)
    = batch_results (transcribe_many E (Some xs) summarize bullet_list lang j)
      ++ rest
    /\ length rest = length ys.
Proof.
  destruct j as [w f].
  set (f0 := {| results := []; temp_wav := temp_wav f |}).
  destruct (for_each_process_spec E summarize bullet_list lang xs w f0)
    as (w1 & items1 & tw1 & Hxs & _ & _).
  destruct (for_each_process_spec E summarize bullet_list lang ys w1
              {| results := results f0 ++ items1; temp_wav := tw1 |})
    as (w2 & items2 & tw2 & Hys & Hlen & _).
  apply Forall2_length in Hlen.
  assert (for_each (xs ++ ys) (process_file E summarize bullet_list lang)
            (w, f0)
          = (Return tt, (w2, {| results := items1 ++ items2;
                                temp_wav := tw2 |}))) as Hall.
  { rewrite for_each_app. unfold bind. rewrite Hxs, Hys. reflexivity. }
  assert (forall paths items w' tw,
            for_each paths (process_file E summarize bullet_list lang) (w, f0)
            = (Return tt, (w', {| results := items; temp_wav := tw |})) ->
            batch_results
              (transcribe_many E (Some paths) summarize bullet_list lang (w, f))
            = items) as Hbatch.
  { intros [|p paths] items w' tw Hloop.
    - simpl in Hloop. by injection Hloop as _ <- _.
    - unfold transcribe_many, bind, set_results, modify.
      cbn [fst snd results temp_wav]. fold f0. by rewrite Hloop. }
  exists items2. split; [|by rewrite Hlen].
  rewrite (Hbatch _ _ _ _ Hall). simpl in Hxs.
  by rewrite (Hbatch _ _ _ _ Hxs).
Qed.

(** ** The replies of the endpoint *)

Section ReplyFacts.

Context (E : Env).

Lemma ollama_summary_reply (text lang : string) (w : World)
    (members : list (string * json)) (s : string) :
  urlopen E (summary_request text lang) (tick w)
  = UrlResponse (BodyJson (JObject members)) ->
  default (JString EmptyString) (members_get "response" members) = JString s ->
  _ollama_summary E text lang w
  = (Return (PyStr.strip s), called (EvUrlopen (summary_request text lang)) w).
Proof.
  intros Hreply Hvalue.
  unfold _ollama_summary, try_except, bind, urlopen_read.
  fold (summary_request text lang). rewrite Hreply. simpl.
  rewrite Hvalue. reflexivity.
Qed.

Lemma ollama_bullets_reply (text lang : string) (w : World)
    (members : list (string * json)) (s : string) :
  urlopen E (bullets_request text lang) (tick w)
  = UrlResponse (BodyJson (JObject members)) ->
  default (JString EmptyString) (members_get "response" members) = JString s ->
  _ollama_bullets E text lang w
  = (Return (PyStr.strip s), called (EvUrlopen (bullets_request text lang)) w).
Proof.
  intros Hreply Hvalue.
  unfold _ollama_bullets, try_except, bind, urlopen_read.
  fold (bullets_request text lang). rewrite Hreply. simpl.
  rewrite Hvalue. reflexivity.
Qed.

Lemma ollama_summary_escapes (text lang : string) (w : World) (e : exn) :
  escapes (urlopen E (summary_request text lang) (tick w)) e ->
  _ollama_summary E text lang w
  = (Raise e, called (EvUrlopen (summary_request text lang)) w).
Proof.
  unfold _ollama_summary, try_except, bind, urlopen_read.
  fold (summary_request text lang).
  intros Hesc. inversion Hesc as [e' Hclass Ho | msg Ho | j Hj Ho
                                 | members v Hget Hv Ho]; subst.
  - cbn [find_handler]. by rewrite Hclass.
  - reflexivity.
  - destruct j; try reflexivity. by destruct (Hj members).
  - simpl. rewrite Hget. simpl.
    destruct v; try reflexivity. by destruct (Hv s).
Qed.

Lemma ollama_bullets_escapes (text lang : string) (w : World) (e : exn) :
  escapes (urlopen E (bullets_request text lang) (tick w)) e ->
  _ollama_bullets E text lang w
  = (Raise e, called (EvUrlopen (bullets_request text lang)) w).
Proof.
  unfold _ollama_bullets, try_except, bind, urlopen_read.
  fold (bullets_request text lang).
  intros Hesc. inversion Hesc as [e' Hclass Ho | msg Ho | j Hj Ho
                                 | members v Hget Hv Ho]; subst.
  - cbn [find_handler]. by rewrite Hclass.
  - reflexivity.
  - destruct j; try reflexivity. by destruct (Hj members).
  - simpl. rewrite Hget. simpl.
    destruct v; try reflexivity. by destruct (Hv s).
Qed.

End ReplyFacts.

(** ** The jobs, by what the converter and the recognition do *)

Section JobOutcomes.

Context (E : Env).

(** A file that needs no conversion: the record is the one
    [_transcribe_file] returns, or the error record of what it raises. *)
Lemma process_file_direct (summarize bullet_list : bool) (lang p : string)
    (w w' : World) (f : Frame) (r : result Item) :
  p <> EmptyString -> p ∈ fs w ->
  _needs_wav_conversion p = false ->
  _transcribe_file E p summarize bullet_list lang
    (Some (PosixPath.basename p)) w = (r, w') ->
  process_file E summarize bullet_list lang p (w, f)
  = (Return tt, (w', {| results := results f ++ [item_of_outcome lang p r];
                        temp_wav := None |})).
Proof.
  intros Hp Hin Hneeds Hrun.
  destruct (process_file_cases E summarize bullet_list lang p w f)
    as (w2 & item & tw & -> & Hcase).
  destruct Hcase as [Hmissing _ _ _ | r0 _ _ _ Hrun0 -> -> | e _ _ Hneeds0 _ _ _
                    | t w1 w3 r0 _ _ Hneeds0 _ _ _ _ _].
  - naive_solver.
  - rewrite Hrun in Hrun0. by injection Hrun0 as <- <-.
  - congruence.
  - congruence.
Qed.

(** A file whose conversion fails: the record is the error record of the
    conversion, and the recognition is not called. *)
Lemma process_file_not_converted (summarize bullet_list : bool) (lang p : string)
    (w w' : World) (f : Frame) (e : exn) :
  p <> EmptyString -> p ∈ fs w ->
  _needs_wav_conversion p = true ->
  _convert_to_temp_wav E p lang w = (Raise e, w') ->
  process_file E summarize bullet_list lang p (w, f)
  = (Return tt, (w', {| results := results f ++ [error_item lang p e];
                        temp_wav := None |})).
Proof.
  intros Hp Hin Hneeds Hconv.
  destruct (process_file_cases E summarize bullet_list lang p w f)
    as (w2 & item & tw & -> & Hcase).
  destruct Hcase as [Hmissing _ _ _ | r0 _ _ Hneeds0 _ _ _ | e0 _ _ _ Hconv0 -> ->
                    | t w1 w3 r0 _ _ _ Hconv0 _ _ _ _].
  - naive_solver.
  - congruence.
  - rewrite Hconv in Hconv0. by injection Hconv0 as <- <-.
  - congruence.
Qed.

(** A file that is converted: the recognition reads the temporary file, and
    the [finally] block runs after it. *)
Lemma process_file_converted (summarize bullet_list : bool) (lang p : string)
    (w w1 w2 : World) (f : Frame) (t : string) (r : result Item) :
  p <> EmptyString -> p ∈ fs w ->
  _needs_wav_conversion p = true ->
  _convert_to_temp_wav E p lang w = (Return t, w1) ->
  _transcribe_file E t summarize bullet_list lang
    (Some (PosixPath.basename p)) w1 = (r, w2) ->
  exists w',
    process_file E summarize bullet_list lang p (w, f)
    = (Return tt, (w', {| results := results f ++ [item_of_outcome lang p r];
                          temp_wav := Some t |}))
    /\ cleanup E (w2, {| results := results f ++ [item_of_outcome lang p r];
                         temp_wav := Some t |})
       = (Return tt, (w', {| results := results f ++ [item_of_outcome lang p r];
                             temp_wav := Some t |})).
Proof.
  intros Hp Hin Hneeds Hconv Hrun.
  destruct (process_file_cases E summarize bullet_list lang p w f)
    as (w' & item & tw & -> & Hcase).
  destruct Hcase as [Hmissing _ _ _ | r0 _ _ Hneeds0 _ _ _ | e0 _ _ _ Hconv0 _ _
                    | t0 w10 w20 r0 _ _ _ Hconv0 Hrun0 -> Hclean ->].
  - naive_solver.
  - congruence.
  - congruence.
  - rewrite Hconv in Hconv0. injection Hconv0 as <- <-.
    rewrite Hrun in Hrun0. injection Hrun0 as <- <-.
    by exists w'.
Qed.

(** A conversion whose converter exits with a status other than zero raises
    the localized conversion error; its temporary file is removed if the
    converter left one. *)
Lemma convert_to_temp_wav_nonzero (filepath lang t : string) (w w1 : World)
    (returncode : Z) (output_exists : bool) :
  removals_succeed E ->
  NamedTemporaryFile E "whisper_tmp_" ".wav" w = (Return t, w1) ->
  run E (ffmpeg_cmd filepath t) (tick w1)
  = RunCompleted returncode output_exists ->
  returncode <> 0 ->
  exists w',
    _convert_to_temp_wav E filepath lang w
    = (Raise (Exn RuntimeError (wav_conversion_failed (errors (_get_text lang)))),
       w')
    /\ fs w' = fs w
    /\ trace w'
       = trace w ++ EvRun (ffmpeg_cmd filepath t)
                    :: (if output_exists then [EvRemove t] else []).
Proof.
  intros Hrm Htmp Hrun Hcode.
  pose proof (mkstemp_inner_spec E (TMP_MAX E) "whisper_tmp_" ".wav" w) as Hspec.
  unfold NamedTemporaryFile in Htmp. rewrite Htmp in Hspec.
  destruct Hspec as (Hfresh & Hfs & _ & _ & Htrace).
  unfold _convert_to_temp_wav, bind, NamedTemporaryFile. rewrite Htmp.
  fold (ffmpeg_cmd filepath t).
  unfold try_except, subprocess_run. rewrite Hrun.
  change (List.last (ffmpeg_cmd filepath t) EmptyString) with t.
  destruct (returncode =? 0) eqn:Hzero; [lia|].
  simpl. rewrite (remove_if_exists_ok E _ _ Hrm). simpl.
  destruct output_exists.
  - rewrite bool_decide_eq_true_2 by set_solver. simpl.
    eexists. split; [reflexivity|]. simpl. split; [set_solver|].
    rewrite Htrace. by rewrite <- app_assoc.
  - rewrite bool_decide_eq_false_2 by set_solver. simpl.
    eexists. split; [reflexivity|]. simpl. split; [set_solver|].
    by rewrite Htrace.
Qed.

(** A conversion whose converter exits with status zero returns the
    temporary path, having called the converter and nothing else. *)
Lemma convert_to_temp_wav_zero (filepath lang t : string) (w w1 : World)
    (output_exists : bool) :
  NamedTemporaryFile E "whisper_tmp_" ".wav" w = (Return t, w1) ->
  run E (ffmpeg_cmd filepath t) (tick w1) = RunCompleted 0 output_exists ->
  exists w',
    _convert_to_temp_wav E filepath lang w = (Return t, w')
    /\ trace w' = trace w ++ [EvRun (ffmpeg_cmd filepath t)]
    /\ (t ∉ fs w) /\ PyStr.truthy t = true.
Proof.
  intros Htmp Hrun.
  pose proof (mkstemp_inner_spec E (TMP_MAX E) "whisper_tmp_" ".wav" w) as Hspec.
  unfold NamedTemporaryFile in Htmp. rewrite Htmp in Hspec.
  destruct Hspec as (Hfresh & Hfs & Htruthy & _ & Htrace).
  unfold _convert_to_temp_wav, bind, NamedTemporaryFile. rewrite Htmp.
  fold (ffmpeg_cmd filepath t).
  unfold try_except, subprocess_run. rewrite Hrun. simpl.
  eexists. split; [reflexivity|]. simpl. by rewrite Htrace.
Qed.

End JobOutcomes.

(** When the endpoint answers with a JSON object, each enrichment invoker
    returns the ["response"] entry with the white space around it removed,
    and the empty string when the object has no such entry. *)
Theorem enrichment_reply_is_stripped (E : Env) (text lang : string) (w : World)
    (members : list (string * json)) (s : string) :
  default (JString EmptyString) (members_get "response" members) = JString s ->
  (urlopen E (summary_request text lang) (tick w)
   = UrlResponse (BodyJson (JObject members)) ->
   fst (_ollama_summary E text lang w) = Return (PyStr.strip s))
  /\ (urlopen E (bullets_request text lang) (tick w)
      = UrlResponse (BodyJson (JObject members)) ->
      fst (_ollama_bullets E text lang w) = Return (PyStr.strip s)).
Proof.
  intros Hvalue. split; intros Hreply.
  - by rewrite (ollama_summary_reply E text lang w members s Hreply Hvalue).
  - by rewrite (ollama_bullets_reply E text lang w members s Hreply Hvalue).
Qed.

Lemma enrichment_reply_witness :
  fst (_ollama_summary env_ok "ciao" "it" sample_world) = Return "saluto"
  /\ fst (_ollama_bullets env_ok "ciao" "it" sample_world) = Return "saluto".
Proof.
  destruct (enrichment_reply_is_stripped env_ok "ciao" "it" sample_world
              [("response", JString "saluto")] "saluto" eq_refl) as [Hs Hb].
  split; [exact (Hs eq_refl) | exact (Hb eq_refl)].
Defined.

(** The enrichment invokers catch [URLError], [HTTPError] and
    [JSONDecodeError] only.  Any other exception of the call, a body that
    is not UTF-8, a JSON reply that is not an object and a ["response"]
    that is not a string make the invoker raise, after its one call. *)
Theorem enrichment_lets_other_failures_escape (E : Env) (text lang : string)
    (w : World) (e : exn) :
  (escapes (urlopen E (summary_request text lang) (tick w)) e ->
   _ollama_summary E text lang w
   = (Raise e, called (EvUrlopen (summary_request text lang)) w))
  /\ (escapes (urlopen E (bullets_request text lang) (tick w)) e ->
      _ollama_bullets E text lang w
      = (Raise e, called (EvUrlopen (bullets_request text lang)) w)).
Proof.
  split; [apply ollama_summary_escapes | apply ollama_bullets_escapes].
Qed.

(** When the speech recognition raises for a file that needs no conversion,
    the job appends the error record of the exception (the localized
    transcription error with the text of the exception, empty summary and
    bullets, zero seconds) and returns: the recognition was its only call. *)
Theorem recognition_failure_becomes_error_record (E : Env)
    (summarize bullet_list : bool) (lang p : string) (w : World) (f : Frame)
    (e : exn) :
  p <> EmptyString ->
  p ∈ fs w ->
  _needs_wav_conversion p = false ->
  asr E p (_asr_language lang) (tick w) = AsrRaise e ->
  process_file E summarize bullet_list lang p (w, f)
  = (Return tt,
     (called (EvAsr p (_asr_language lang) "transcribe" true) w,
      {| results := results f ++ [error_item lang p e]; temp_wav := None |})).
Proof.
  intros Hp Hin Hneeds Hasr.
  apply (process_file_direct E summarize bullet_list lang p w _ f (Raise e));
    try done.
  rewrite transcribe_file_unfold. cbn zeta. by rewrite Hasr.
Qed.

Lemma recognition_failure_witness :
  batch_results
    (transcribe_many env_asr_fails (Some ["/data/b.wav"]) true true "en"
       sample_job)
  = [ {| item_file := Some "b.wav";
         item_text :=
           Some "Error during conversion/transcription: CUDA out of memory";
         item_summary := Some EmptyString;
         item_bullets := Some EmptyString;
         item_seconds := Some 0%float |} ].
Proof.
  assert ("/data/b.wav" ∈ fs sample_world) as Hin.
  { compute_done. }
  pose proof (recognition_failure_becomes_error_record env_asr_fails true true
                "en" "/data/b.wav" sample_world
                {| results := []; temp_wav := None |}
                (Exn RuntimeError "CUDA out of memory")
                ltac:(discriminate) Hin eq_refl eq_refl) as Hjob.
  unfold transcribe_many, batch_results, bind, set_results, modify.
  cbn [fst snd for_each results temp_wav sample_job]. unfold bind.
  rewrite Hjob. vm_compute. reflexivity.
Defined.

(** When the converter exits with a status other than zero, the job appends
    the error record of the localized conversion error and returns.  It
    called the converter and then removed the temporary file if the
    converter left one; the recognition is not called and the files are as
    before.  The temporary file is taken to be created and removed without
    error. *)
Theorem failed_conversion_becomes_error_record (E : Env)
    (summarize bullet_list : bool) (lang p : string) (w : World) (f : Frame)
    (t : string) (w1 : World) (returncode : Z) (output_exists : bool) :
  p <> EmptyString ->
  p ∈ fs w ->
  _needs_wav_conversion p = true ->
  removals_succeed E ->
  NamedTemporaryFile E "whisper_tmp_" ".wav" w = (Return t, w1) ->
  run E (ffmpeg_cmd p t) (tick w1) = RunCompleted returncode output_exists ->
  returncode <> 0 ->
  exists w',
    process_file E summarize bullet_list lang p (w, f)
    = (Return tt,
       (w', {| results :=
                 results f
                 ++ [error_item lang p
                       (Exn RuntimeError
                          (wav_conversion_failed (errors (_get_text lang))))];
               temp_wav := None |}))
    /\ fs w' = fs w
    /\ trace w'
       = trace w ++ EvRun (ffmpeg_cmd p t)
                    :: (if output_exists then [EvRemove t] else []).
Proof.
  intros Hp Hin Hneeds Hrm Htmp Hrun Hcode.
  destruct (convert_to_temp_wav_nonzero E p lang t w w1 returncode
              output_exists Hrm Htmp Hrun Hcode) as (w' & Hconv & Hfs & Htrace).
  exists w'. split; [|by split].
  by apply process_file_not_converted.
Qed.

Lemma env_ffmpeg_fails_removals_succeed : removals_succeed env_ffmpeg_fails.
Proof. intros p n. reflexivity. Defined.

Lemma failed_conversion_witness :
  exists w',
    process_file env_ffmpeg_fails true true "en" "/data/a.mp3" sample_job
    = (Return tt,
       (w', {| results :=
                 [ {| item_file := Some "a.mp3";
                      item_text :=
                        Some ("Error during conversion/transcription: "
                              +:+ "WAV conversion failed.");
                      item_summary := Some EmptyString;
                      item_bullets := Some EmptyString;
                      item_seconds := Some 0%float |} ];
               temp_wav := None |}))
    /\ fs w' = fs sample_world
    /\ trace w'
       = [EvRun (ffmpeg_cmd "/data/a.mp3" "/tmp/whisper_tmp_k3x9a7qz.wav");
          EvRemove "/tmp/whisper_tmp_k3x9a7qz.wav"].
Proof.
  assert ("/data/a.mp3" ∈ fs sample_world) as Hin.
  { compute_done. }
  assert (NamedTemporaryFile env_ffmpeg_fails "whisper_tmp_" ".wav" sample_world
          = (Return "/tmp/whisper_tmp_k3x9a7qz.wav",
             snd (NamedTemporaryFile env_ffmpeg_fails "whisper_tmp_" ".wav"
                    sample_world))) as Htmp.
  { vm_compute. reflexivity. }
  exact (failed_conversion_becomes_error_record env_ffmpeg_fails true true "en"
           "/data/a.mp3" sample_world {| results := []; temp_wav := None |}
           _ _ 1 true ltac:(discriminate) Hin eq_refl
           env_ffmpeg_fails_removals_succeed Htmp eq_refl ltac:(discriminate)).
Defined.

Lemma enrichment_escape_witness :
  _ollama_summary env_reply_is_a_list "ciao" "it" sample_world
  = (Raise (Exn AttributeError "'list' object has no attribute 'get'"),
     called (EvUrlopen (summary_request "ciao" "it")) sample_world).
Proof.
  apply (proj1 (enrichment_lets_other_failures_escape env_reply_is_a_list
                  "ciao" "it" sample_world _)).
  apply (EscapesGet (JArray [])). discriminate.
Defined.

(** When the summary invoker raises, [_transcribe_file] raises with it,
    after the recognition and the one call of the endpoint: the transcript
    it held is dropped and the bullets are not asked for. *)
Lemma transcribe_file_summary_escapes (E : Env) (source : string)
    (bullet_list : bool) (lang : string) (display_name : option string)
    (w0 : World) (reply : option string) (e : exn) :
  asr E source (_asr_language lang) (tick w0) = AsrReturn reply ->
  PyStr.strip (default EmptyString reply) <> EmptyString ->
  escapes (urlopen E (summary_request
                        (PyStr.strip (default EmptyString reply)) lang)
             (S (tick w0))) e ->
  _transcribe_file E source true bullet_list lang display_name w0
  = (Raise e,
     called (EvUrlopen (summary_request
                          (PyStr.strip (default EmptyString reply)) lang))
       (called (EvAsr source (_asr_language lang) "transcribe" true) w0)).
Proof.
  intros Hasr Htext Hesc.
  rewrite transcribe_file_unfold. cbn zeta. rewrite Hasr.
  set (text := PyStr.strip (default EmptyString reply)) in *.
  assert (PyStr.truthy text = true) as -> by by destruct text.
  cbn [andb].
  by rewrite (ollama_summary_escapes E text lang
                (called (EvAsr source (_asr_language lang) "transcribe" true) w0)
                e Hesc).
Qed.

(** A failure that escapes the summary invoker costs the transcript: for a
    file that was recognised, from its own path or from the temporary copy
    of its conversion, with a transcript that is not empty, the job appends
    the error record of the exception in place of the record with the
    transcript.  After the recognition and the call for the summary the job
    calls the endpoint no more: the bullets are not asked for. *)
Theorem uncaught_enrichment_failure_replaces_transcript (E : Env)
    (bullet_list : bool) (lang p : string) (w : World) (f : Frame)
    (source : string) (w0 : World) (reply : option string) (e : exn) :
  p <> EmptyString ->
  p ∈ fs w ->
  recognised_from E lang p w source w0 ->
  asr E source (_asr_language lang) (tick w0) = AsrReturn reply ->
  PyStr.strip (default EmptyString reply) <> EmptyString ->
  escapes (urlopen E (summary_request
                        (PyStr.strip (default EmptyString reply)) lang)
             (S (tick w0))) e ->
  exists w' tw l,
    process_file E true bullet_list lang p (w, f)
    = (Return tt,
       (w', {| results := results f ++ [error_item lang p e];
               temp_wav := tw |}))
    /\ trace w'
       = trace w0
         ++ EvAsr source (_asr_language lang) "transcribe" true
            :: EvUrlopen (summary_request
                            (PyStr.strip (default EmptyString reply)) lang)
            :: l
    /\ count_calls is_endpoint_call l = 0%nat.
Proof.
  intros Hp Hin Hfrom Hasr Htext Hesc.
  pose proof (transcribe_file_summary_escapes E source bullet_list lang
                (Some (PosixPath.basename p)) w0 reply e Hasr Htext Hesc)
    as Hrun.
  destruct Hfrom as [(Hneeds & -> & ->) | (Hneeds & Hconv)].
  - exists (called (EvUrlopen (summary_request
                                 (PyStr.strip (default EmptyString reply)) lang))
              (called (EvAsr p (_asr_language lang) "transcribe" true) w)),
      None, [].
    split; [|split; [|reflexivity]].
    + by apply (process_file_direct E true bullet_list lang p w _ f (Raise e)).
    + simpl. by rewrite <- app_assoc.
  - destruct (process_file_converted E true bullet_list lang p w w0 _ f source
                (Raise e) Hp Hin Hneeds Hconv Hrun) as (w' & Hjob & Hclean).
    cbn [item_of_outcome] in Hjob, Hclean.
    set (f' := {| results := results f ++ [error_item lang p e];
                  temp_wav := Some source |}) in *.
    destruct (cleanup_added E
                (called (EvUrlopen (summary_request
                                      (PyStr.strip (default EmptyString reply))
                                      lang))
                   (called (EvAsr source (_asr_language lang) "transcribe" true)
                      w0))
                f' source eq_refl) as (l & [Hl _] & Hshape).
    rewrite Hclean in Hl. cbn [fst snd] in Hl.
    exists w', (Some source), l. split; [exact Hjob|]. split.
    + rewrite Hl. simpl. by rewrite <- !app_assoc.
    + destruct Hshape as [-> | ->]; reflexivity.
Qed.

Lemma uncaught_enrichment_failure_witness :
  batch_results
    (transcribe_many env_reply_is_a_list (Some ["/data/a.mp3"]) true true "en"
       sample_job)
  = [ {| item_file := Some "a.mp3";
         item_text :=
           Some ("Error during conversion/transcription: "
                 +:+ "'list' object has no attribute 'get'");
         item_summary := Some EmptyString;
         item_bullets := Some EmptyString;
         item_seconds := Some 0%float |} ].
Proof.
  assert ("/data/a.mp3" ∈ fs sample_world) as Hin.
  { compute_done. }
  assert (_convert_to_temp_wav env_reply_is_a_list "/data/a.mp3" "en"
            sample_world
          = (Return "/tmp/whisper_tmp_k3x9a7qz.wav",
             snd (_convert_to_temp_wav env_reply_is_a_list "/data/a.mp3" "en"
                    sample_world))) as Hconv.
  { vm_compute. reflexivity. }
  destruct (uncaught_enrichment_failure_replaces_transcript
              env_reply_is_a_list true "en" "/data/a.mp3" sample_world
              {| results := []; temp_wav := None |}
              "/tmp/whisper_tmp_k3x9a7qz.wav" _ (Some " ciao ")
              (Exn AttributeError "'list' object has no attribute 'get'")
              ltac:(discriminate) Hin (or_intror (conj eq_refl Hconv))
              eq_refl ltac:(discriminate)
              (EscapesGet (JArray []) ltac:(discriminate)))
    as (w' & tw & l & Hjob & _ & _).
  unfold transcribe_many, batch_results, bind, set_results, modify.
  cbn [fst snd for_each results temp_wav sample_job]. unfold bind.
  rewrite Hjob. vm_compute. reflexivity.
Defined.

(** A file that is converted is recognised from its temporary copy: after
    the converter, the recognition is called on the new temporary path,
    which did not exist before and is not the path submitted; the job keeps
    that path for the [finally] block and calls the recognition once.  When
    the removal succeeds the temporary file is gone at the end of the job. *)
Theorem converted_file_is_recognised_from_temporary_copy (E : Env)
    (summarize bullet_list : bool) (lang p : string) (w : World) (f : Frame)
    (t : string) (w1 : World) (output_exists : bool) :
  p <> EmptyString ->
  p ∈ fs w ->
  _needs_wav_conversion p = true ->
  NamedTemporaryFile E "whisper_tmp_" ".wav" w = (Return t, w1) ->
  run E (ffmpeg_cmd p t) (tick w1) = RunCompleted 0 output_exists ->
  exists w' item l,
    process_file E summarize bullet_list lang p (w, f)
    = (Return tt,
       (w', {| results := results f ++ [item]; temp_wav := Some t |}))
    /\ trace w'
       = trace w ++ EvRun (ffmpeg_cmd p t)
                    :: EvAsr t (_asr_language lang) "transcribe" true :: l
    /\ count_calls is_asr_call l = 0%nat
    /\ t <> p /\ (t ∉ fs w)
    /\ (removals_succeed E -> t ∉ fs w').
Proof.
  intros Hp Hin Hneeds Htmp Hrun.
  destruct (convert_to_temp_wav_zero E p lang t w w1 output_exists Htmp Hrun)
    as (wc & Hconv & Htrace & Hfresh & Htruthy).
  destruct (_transcribe_file E t summarize bullet_list lang
              (Some (PosixPath.basename p)) wc) as [r w2] eqn:Hfile.
  destruct (process_file_converted E summarize bullet_list lang p w wc w2 f t r
              Hp Hin Hneeds Hconv Hfile) as (w' & Hjob & Hclean).
  destruct (transcribe_file_added E t summarize bullet_list lang
              (Some (PosixPath.basename p)) wc)
    as (l1 & [Hl1 _] & _ & _ & Hasr1).
  rewrite Hfile in Hl1. cbn [snd] in Hl1.
  set (f' := {| results := results f ++ [item_of_outcome lang p r];
                temp_wav := Some t |}) in *.
  destruct (cleanup_added E w2 f' t eq_refl) as (l2 & [Hl2 _] & Hshape).
  rewrite Hclean in Hl2. cbn [fst snd] in Hl2.
  destruct (cleanup_temp E w2 f' t eq_refl Htruthy) as (w3 & Hclean' & Hgone).
  rewrite Hclean in Hclean'. injection Hclean' as <-.
  exists w', (item_of_outcome lang p r), (l1 ++ l2).
  split; [exact Hjob|]. split.
  { rewrite Hl2, Hl1, Htrace. rewrite <- !app_assoc. reflexivity. }
  split.
  { rewrite count_calls_app, Hasr1.
    destruct Hshape as [-> | ->]; reflexivity. }
  split; [set_solver|]. split; [exact Hfresh|].
  intros Hrm. rewrite (Hgone Hrm). set_solver.
Qed.

Lemma converted_file_witness :
  exists w' item l,
    process_file env_ok true true "it" "/data/a.mp3" sample_job
    = (Return tt, (w', {| results := [item];
                          temp_wav := Some "/tmp/whisper_tmp_k3x9a7qz.wav" |}))
    /\ trace w'
       = EvRun (ffmpeg_cmd "/data/a.mp3" "/tmp/whisper_tmp_k3x9a7qz.wav")
         :: EvAsr "/tmp/whisper_tmp_k3x9a7qz.wav" "italian" "transcribe" true
         :: l
    /\ "/tmp/whisper_tmp_k3x9a7qz.wav" ∉ fs w'.
Proof.
  assert ("/data/a.mp3" ∈ fs sample_world) as Hin.
  { compute_done. }
  assert (NamedTemporaryFile env_ok "whisper_tmp_" ".wav" sample_world
          = (Return "/tmp/whisper_tmp_k3x9a7qz.wav",
             snd (NamedTemporaryFile env_ok "whisper_tmp_" ".wav"
                    sample_world))) as Htmp.
  { vm_compute. reflexivity. }
  destruct (converted_file_is_recognised_from_temporary_copy env_ok true true
              "it" "/data/a.mp3" sample_world
              {| results := []; temp_wav := None |} _ _ true
              ltac:(discriminate) Hin eq_refl Htmp eq_refl)
    as (w' & item & l & Hjob & Htrace & _ & _ & _ & Hgone).
  exists w', item, l. split; [exact Hjob|]. split; [exact Htrace|].
  apply Hgone. intros q n. reflexivity.
Defined.

(** ** The extension of a path *)

Lemma string_app_cons (c : ascii) (a b : string) :
  String c a +:+ b = String c (a +:+ b).
Proof. reflexivity. Qed.

Lemma last_index_app (c : ascii) (a b : string) :
  last_index c (a +:+ b)
  = match last_index c b with
    | Some k => Some (String.length a + k)%nat
    | None => last_index c a
    end.
Proof.
  induction a as [|d a IH].
  - change (EmptyString +:+ b) with b. by destruct (last_index c b).
  - rewrite string_app_cons. cbn [last_index String.length]. rewrite IH.
    by destruct (last_index c b).
Qed.

Lemma drop_app_length (a b : string) (n : nat) :
  PyStr.drop (String.length a + n) (a +:+ b) = PyStr.drop n b.
Proof.
  induction a as [|d a IH]; [reflexivity|].
  rewrite string_app_cons. exact IH.
Qed.

(** The scan of [splitext] stops at the first character of the file name
    that is not a dot, and splits at the last dot. *)
Lemma splitext_scan_split (n : nat) :
  forall (fuel : nat) (p : string) (filenameIndex dotIndex : Z),
    0 <= filenameIndex ->
    filenameIndex + Z.of_nat n < dotIndex ->
    String.eqb (PyStr.take 1 (PyStr.slice_from (filenameIndex + Z.of_nat n) p))
      "." = false ->
    (n < fuel)%nat ->
    PosixPath.splitext_scan fuel p filenameIndex dotIndex
    = (PyStr.slice_to dotIndex p, PyStr.slice_from dotIndex p).
Proof.
  induction n as [|n IH]; intros fuel p fi di Hfi Hlt Hchar Hfuel.
  - destruct fuel as [|fuel]; [lia|]. cbn [PosixPath.splitext_scan].
    rewrite (proj2 (Z.ltb_lt fi di)) by lia.
    replace (fi + Z.of_nat 0) with fi in Hchar by lia.
    by rewrite Hchar.
  - destruct fuel as [|fuel]; [lia|]. cbn [PosixPath.splitext_scan].
    rewrite (proj2 (Z.ltb_lt fi di)) by lia.
    destruct (String.eqb (PyStr.take 1 (PyStr.slice_from fi p)) ".");
      [|reflexivity].
    cbn [negb]. apply IH; try lia.
    by replace (fi + 1 + Z.of_nat n) with (fi + Z.of_nat (S n)) by lia.
Qed.

Lemma last_index_bound (c : ascii) (s : string) (k : nat) :
  last_index c s = Some k -> (k < String.length s)%nat.
Proof.
  revert k. induction s as [|d s IH]; intros k; [discriminate|].
  cbn [last_index String.length].
  destruct (last_index c s) as [j|].
  - intros [= <-]. specialize (IH j eq_refl). lia.
  - destruct (Ascii.eqb d c); [|discriminate]. intros [= <-]. lia.
Qed.

Lemma string_length_app (a b : string) :
  String.length (a +:+ b) = (String.length a + String.length b)%nat.
Proof.
  induction a as [|d a IH]; [reflexivity|].
  rewrite string_app_cons. cbn [String.length]. by rewrite IH.
Qed.

(** A path whose file name begins with a character other than a dot and
    ends with [.ext], where [ext] has no dot: [splitext] splits at that
    dot, whatever the directory is. *)
Lemma splitext_last_dot (dir name ext : string) (c : ascii) :
  c <> "."%char -> c <> "/"%char ->
  lacks "/" name -> lacks "/" ext -> lacks "." ext ->
  snd (PosixPath.splitext (dir +:+ String c (name +:+ String "." ext)))
  = String "." ext.
Proof.
  unfold lacks. intros Hdot Hsep Hname Hext Hext'.
  set (p := dir +:+ String c (name +:+ String "." ext)).
  assert (last_index "." p
          = Some (String.length dir + S (String.length name + 0))%nat) as Hd.
  { unfold p. rewrite last_index_app. cbn [last_index].
    rewrite last_index_app. cbn [last_index]. by rewrite Hext'. }
  assert (last_index "/" p = last_index "/" dir) as Hs.
  { unfold p. rewrite last_index_app. cbn [last_index].
    rewrite last_index_app. cbn [last_index]. rewrite Hext, Hname.
    cbn [Ascii.eqb Bool.eqb]. cbn.
    by rewrite (proj2 (Ascii.eqb_neq c "/") Hsep). }
  unfold PosixPath.splitext. rewrite !rfind_last_index, Hd, Hs.
  fold p.
  pose proof (last_index_bound "/" dir) as Hbound.
  assert (exists n : nat,
            (match last_index "/" dir with
             | Some k => Z.of_nat k | None => -1 end) + 1 + Z.of_nat n
            = Z.of_nat (String.length dir)) as [n Hn].
  { destruct (last_index "/" dir) as [k|].
    - specialize (Hbound k eq_refl).
      exists (String.length dir - S k)%nat. lia.
    - exists (String.length dir). lia. }
  rewrite (proj2 (Z.ltb_lt _ _)) by lia.
  rewrite (splitext_scan_split n).
  - cbn [snd]. unfold PyStr.slice_from. rewrite Nat2Z.id.
    unfold p. rewrite drop_app_length. cbn [PyStr.drop].
    exact (drop_app_length name (String "." ext) 0).
  - destruct (last_index "/" dir); lia.
  - lia.
  - rewrite Hn. unfold PyStr.slice_from. rewrite Nat2Z.id.
    unfold p. rewrite <- (Nat.add_0_r (String.length dir)).
    rewrite drop_app_length. cbn [PyStr.drop PyStr.take].
    cbn [String.eqb]. by rewrite (proj2 (Ascii.eqb_neq c ".") Hdot).
  - unfold p. rewrite string_length_app. cbn [String.length].
    destruct (last_index "/" dir); lia.
Qed.

(** A path with no dot after its last slash has no extension. *)
Lemma splitext_no_dot (dir name : string) :
  lacks "." name ->
  snd (PosixPath.splitext (dir +:+ String "/" name)) = EmptyString
  /\ snd (PosixPath.splitext name) = EmptyString.
Proof.
  unfold lacks. intros Hname. unfold PosixPath.splitext.
  rewrite !rfind_last_index, !last_index_app. cbn [last_index].
  rewrite Hname. cbn [Ascii.eqb Bool.eqb]. cbn.
  pose proof (last_index_bound "." dir) as Hbound.
  split.
  - destruct (last_index "/" name) as [j|].
    + destruct (last_index "." dir) as [k|].
      * specialize (Hbound k eq_refl).
        by rewrite (proj2 (Z.ltb_ge _ _)) by lia.
      * by rewrite (proj2 (Z.ltb_ge _ _)) by lia.
    + destruct (last_index "." dir) as [k|].
      * specialize (Hbound k eq_refl).
        by rewrite (proj2 (Z.ltb_ge _ _)) by lia.
      * by rewrite (proj2 (Z.ltb_ge _ _)) by lia.
  - destruct (last_index "/" name) as [j|];
      by rewrite (proj2 (Z.ltb_ge _ _)) by lia.
Qed.

(** Whether a file is converted is decided by its last extension alone,
    without regard to case: a path whose file name begins with a character
    other than a dot and ends with [.ext] is converted unless [ext] is
    [wav] in lower case, whatever its directory and whatever dots come
    before; and a path with no dot after its last slash is converted. *)
Theorem needs_wav_conversion_by_last_extension (dir name ext : string)
    (c : ascii) :
  c <> "."%char -> c <> "/"%char ->
  lacks "/" name -> lacks "/" ext -> lacks "." ext ->
  _needs_wav_conversion (dir +:+ String c (name +:+ String "." ext))
  = negb (String.eqb (PyStr.lower ext) "wav")
  /\ _needs_wav_conversion (dir +:+ String "/" ext) = true.
Proof.
  intros Hdot Hsep Hname Hext Hext'. split.
  - pose proof (splitext_last_dot dir name ext c Hdot Hsep Hname Hext Hext')
      as Hsplit.
    unfold _needs_wav_conversion.
    destruct (PosixPath.splitext _) as [root e]. cbn [snd] in Hsplit.
    by subst e.
  - pose proof (proj1 (splitext_no_dot dir ext Hext')) as Hsplit.
    unfold _needs_wav_conversion.
    destruct (PosixPath.splitext _) as [root e]. cbn [snd] in Hsplit.
    by subst e.
Qed.

Lemma needs_wav_conversion_witness :
  _needs_wav_conversion "/data/v1.2/take.one.WaV" = false
  /\ _needs_wav_conversion "/data/v1.2/WaV" = true.
Proof.
  exact (needs_wav_conversion_by_last_extension "/data/v1.2/" "ake.one" "WaV"
           "t" ltac:(discriminate) ltac:(discriminate) eq_refl eq_refl eq_refl).
Defined.

(** ** White space at the ends of the texts *)

Lemma lstrip_begins (s : string) : begins_with_space (PyStr.lstrip s) = false.
Proof.
  induction s as [|c r IH]; [reflexivity|].
  cbn [PyStr.lstrip]. by destruct (PyStr.isspace c) eqn:Hc.
Qed.

Lemma lstrip_ends (s : string) :
  ends_with_space s = false -> ends_with_space (PyStr.lstrip s) = false.
Proof.
  induction s as [|c r IH]; [reflexivity|].
  intros Hends. cbn [PyStr.lstrip]. destruct (PyStr.isspace c); [|exact Hends].
  destruct r as [|d r]; [reflexivity|]. by apply IH.
Qed.

Lemma rev_app_ends (s : string) (c : ascii) (t : string) :
  ends_with_space (String.rev_app s (String c t))
  = ends_with_space (String c t).
Proof.
  revert c t. induction s as [|a s IH]; intros c t; [reflexivity|].
  cbn [String.rev_app]. by rewrite IH.
Qed.

Lemma rev_ends (s : string) :
  ends_with_space (String.rev s) = begins_with_space s.
Proof.
  destruct s as [|c r]; [reflexivity|].
  unfold String.rev. cbn [String.rev_app]. by rewrite rev_app_ends.
Qed.

Lemma rev_app_begins (s t : string) :
  begins_with_space (String.rev_app s t)
  = match s with
    | EmptyString => begins_with_space t
    | String _ _ => ends_with_space s
    end.
Proof.
  revert t. induction s as [|a s IH]; intros t; [reflexivity|].
  cbn [String.rev_app]. rewrite IH. by destruct s.
Qed.

Lemma rev_begins (s : string) :
  begins_with_space (String.rev s) = ends_with_space s.
Proof. unfold String.rev. rewrite rev_app_begins. by destruct s. Qed.

(** [strip] leaves no white space at the ends. *)
Lemma strip_trimmed (s : string) : trimmed (PyStr.strip s).
Proof.
  unfold trimmed, PyStr.strip, PyStr.rstrip. split.
  - rewrite rev_begins. apply lstrip_ends.
    rewrite rev_ends. apply lstrip_begins.
  - rewrite rev_ends. apply lstrip_begins.
Qed.

Section TrimmedFacts.

Context (E : Env).

Lemma ollama_summary_trimmed (text lang : string) (w : World) (s : string) :
  fst (_ollama_summary E text lang w) = Return s -> trimmed s.
Proof.
  unfold _ollama_summary, try_except, bind, urlopen_read.
  destruct (urlopen E _ (tick w)) as [e|[msg|msg|j]]; simpl.
  - destruct (_ || _); simpl; [|discriminate]. by intros [= <-].
  - discriminate.
  - by intros [= <-].
  - destruct j as [| | | | |items|members]; try discriminate. simpl.
    destruct (default _ _); try discriminate. simpl.
    intros [= <-]. apply strip_trimmed.
Qed.

Lemma ollama_bullets_trimmed (text lang : string) (w : World) (s : string) :
  fst (_ollama_bullets E text lang w) = Return s -> trimmed s.
Proof.
  unfold _ollama_bullets, try_except, bind, urlopen_read.
  destruct (urlopen E _ (tick w)) as [e|[msg|msg|j]]; simpl.
  - destruct (_ || _); simpl; [|discriminate]. by intros [= <-].
  - discriminate.
  - by intros [= <-].
  - destruct j as [| | | | |items|members]; try discriminate. simpl.
    destruct (default _ _); try discriminate. simpl.
    intros [= <-]. apply strip_trimmed.
Qed.

End TrimmedFacts.

(** The transcript, the summary and the bullets of a record that
    [_transcribe_file] returns have no white space at their ends, whatever
    the recognition and the endpoint answered. *)
Theorem transcribe_file_texts_are_trimmed (E : Env) (filepath : string)
    (summarize bullet_list : bool) (lang : string)
    (display_name : option string) (w w' : World) (item : Item) :
  _transcribe_file E filepath summarize bullet_list lang display_name w
  = (Return item, w') ->
  exists text summary bullets,
    item_text item = Some text /\ item_summary item = Some summary
    /\ item_bullets item = Some bullets
    /\ trimmed text /\ trimmed summary /\ trimmed bullets.
Proof.
  rewrite transcribe_file_unfold. cbn zeta.
  destruct (asr E filepath (_asr_language lang) (tick w)) as [e|result];
    [discriminate|].
  set (text := PyStr.strip (default EmptyString result)).
  set (w1 := called _ w).
  destruct ((if summarize && PyStr.truthy text
             then _ollama_summary E text lang else ret EmptyString) w1)
    as [[summary|e] w2] eqn:Hs; [|discriminate].
  destruct ((if bullet_list && PyStr.truthy text
             then _ollama_bullets E text lang else ret EmptyString) w2)
    as [[bullets|e] w3] eqn:Hb; [|discriminate].
  intros [= <- <-]. exists text, summary, bullets.
  split; [reflexivity|]. split; [reflexivity|]. split; [reflexivity|].
  split; [apply strip_trimmed|]. split.
  - destruct (summarize && PyStr.truthy text).
    + apply (ollama_summary_trimmed E text lang w1). by rewrite Hs.
    + by injection Hs as <- _.
  - destruct (bullet_list && PyStr.truthy text).
    + apply (ollama_bullets_trimmed E text lang w2). by rewrite Hb.
    + by injection Hb as <- _.
Qed.

Lemma transcribe_file_trimmed_witness :
  exists text summary bullets,
    item_text
      (item_of_outcome "it" "/data/b.wav"
         (fst (_transcribe_file env_ok "/data/b.wav" true true "it" None
                 sample_world)))
    = Some text
    /\ item_summary
         (item_of_outcome "it" "/data/b.wav"
            (fst (_transcribe_file env_ok "/data/b.wav" true true "it" None
                    sample_world)))
       = Some summary
    /\ item_bullets
         (item_of_outcome "it" "/data/b.wav"
            (fst (_transcribe_file env_ok "/data/b.wav" true true "it" None
                    sample_world)))
       = Some bullets
    /\ trimmed text /\ trimmed summary /\ trimmed bullets.
Proof.
  destruct (_transcribe_file env_ok "/data/b.wav" true true "it" None
              sample_world) as [r w'] eqn:Hrun.
  assert (exists item, r = Return item) as [item ->].
  { apply (f_equal fst) in Hrun. vm_compute in Hrun. subst r. by eexists. }
  exact (transcribe_file_texts_are_trimmed env_ok "/data/b.wav" true true "it"
           None sample_world w' item Hrun).
Defined.

(** ** The files of the user *)

Section KeptFiles.

Context (E : Env).

Lemma keeps_files_refl (w : World) : keeps_files E w w.
Proof. split; [done|]. intros q Hq. by left. Qed.

Lemma keeps_files_trans (w1 w2 w3 : World) :
  keeps_files E w1 w2 -> keeps_files E w2 w3 -> keeps_files E w1 w3.
Proof.
  intros [Hsub1 Hnew1] [Hsub2 Hnew2]. split; [set_solver|].
  intros q Hq. destruct (Hnew2 q Hq) as [Hq2|Hq2]; [|by right].
  by apply Hnew1.
Qed.

(** A world that differs from [w] at most by a new temporary name. *)
Lemma keeps_files_but (w w' : World) (t : string) :
  t ∉ fs w -> temp_name E t ->
  fs w' ∖ {[t]} = fs w -> keeps_files E w w'.
Proof.
  intros Hfresh Hname Hfs. split; [set_solver|].
  intros q Hq. destruct (decide (q = t)) as [->|Hneq]; [by right|].
  left. set_solver.
Qed.

(** [remove_if_exists] touches no path but its own. *)
Lemma remove_if_exists_fs (t : string) (w : World) :
  fs (snd (remove_if_exists E t w)) ∖ {[t]} = fs w ∖ {[t]}.
Proof.
  unfold remove_if_exists, bind, os_path_exists, gets, os_remove.
  case_bool_decide as Hin; [|reflexivity].
  destruct (remove_error E t (tick w)); simpl; [reflexivity|].
  rewrite bool_decide_eq_true_2 by done. simpl. set_solver.
Qed.

(** Whatever it does, the conversion touches no path but its temporary
    file, which is new. *)
Lemma convert_to_temp_wav_keeps (filepath lang : string) (w : World) :
  keeps_files E w (snd (_convert_to_temp_wav E filepath lang w)).
Proof.
  unfold _convert_to_temp_wav, NamedTemporaryFile.
  pose proof (mkstemp_inner_spec E (TMP_MAX E) "whisper_tmp_" ".wav" w) as Hspec.
  pose proof (mkstemp_inner_name E (TMP_MAX E) w) as Hname.
  unfold bind at 1.
  destruct (mkstemp_inner E (TMP_MAX E) "whisper_tmp_" ".wav" w)
    as [[t|e] w1].
  2:{ destruct Hspec as (Hfs & _). cbn [snd]. split; [by rewrite Hfs|].
      intros q Hq. left. by rewrite <- Hfs. }
  destruct Hspec as (Hfresh & Hfs & _ & _ & _).
  specialize (Hname w1 t eq_refl).
  apply (keeps_files_but w _ t Hfresh Hname).
  fold (ffmpeg_cmd filepath t).
  unfold bind, try_except, subprocess_run.
  change (List.last (ffmpeg_cmd filepath t) EmptyString) with t.
  pose proof (remove_if_exists_fs t) as Hrm.
  destruct (run E (ffmpeg_cmd filepath t) (tick w1))
    as [e|returncode output_exists].
  - cbn [find_handler existsb].
    destruct (isinstance e FileNotFoundError || false).
    + specialize (Hrm (called (EvRun (ffmpeg_cmd filepath t)) w1)).
      destruct (remove_if_exists E t _) as [[[]|e'] w2];
        simpl in Hrm |- *; set_solver.
    + destruct (isinstance e CalledProcessError || false).
      * specialize (Hrm (called (EvRun (ffmpeg_cmd filepath t)) w1)).
        destruct (remove_if_exists E t _) as [[[]|e'] w2];
          simpl in Hrm |- *; set_solver.
      * simpl. set_solver.
  - set (w2 := with_fs _ _).
    assert (fs w2 ∖ {[t]} = fs w) as Hw2.
    { unfold w2. destruct output_exists; simpl; set_solver. }
    destruct (returncode =? 0); [exact Hw2|].
    cbn [find_handler existsb isinstance exn_cls]. simpl.
    specialize (Hrm w2).
    destruct (remove_if_exists E t w2) as [[[]|e'] w3];
      simpl in Hrm |- *; set_solver.
Qed.

(** The [finally] block touches no path but the temporary file. *)
Lemma cleanup_fs (w : World) (f : Frame) (t : string) :
  temp_wav f = Some t ->
  fs (fst (snd (cleanup E (w, f)))) ∖ {[t]} = fs w ∖ {[t]}.
Proof.
  intros Ht. unfold cleanup, bind, gets. simpl. rewrite Ht.
  destruct (PyStr.truthy t); [|reflexivity].
  rewrite call_eq. simpl. case_bool_decide as Hin; [|reflexivity].
  unfold try_except. rewrite call_eq. unfold os_remove.
  destruct (remove_error E t (tick w)); simpl; [reflexivity|].
  rewrite bool_decide_eq_true_2 by done. simpl. set_solver.
Qed.

Lemma job_case_keeps (summarize bullet_list : bool) (lang p : string)
    (w : World) (f : Frame) (w' : World) (item : Item) (tw : option string) :
  job_case E summarize bullet_list lang p w f w' item tw ->
  keeps_files E w w'.
Proof.
  intros [_ -> _ _ | r _ _ _ Hrun _ _ | e _ _ _ Hconv _ _
         | t w1 w2 r _ _ _ Hconv Hrun _ Hclean _].
  - apply keeps_files_refl.
  - pose proof (transcribe_file_fs E p summarize bullet_list lang
                  (Some (PosixPath.basename p)) w) as Hfs.
    rewrite Hrun in Hfs. cbn [snd] in Hfs.
    split; [by rewrite Hfs|]. intros q Hq. left. by rewrite <- Hfs.
  - pose proof (convert_to_temp_wav_keeps p lang w) as Hkeeps.
    by rewrite Hconv in Hkeeps.
  - pose proof (convert_to_temp_wav_spec E p lang w) as Hspec.
    pose proof (convert_to_temp_wav_added E summarize bullet_list p lang w)
      as (l & _ & _ & _ & _ & Hname).
    rewrite Hconv in Hspec, Hname. cbn [fst] in Hname.
    destruct Hspec as (Hfresh & _ & Hfs1). destruct Hname as [_ Hname].
    pose proof (transcribe_file_fs E t summarize bullet_list lang
                  (Some (PosixPath.basename p)) w1) as Hfs2.
    rewrite Hrun in Hfs2. cbn [snd] in Hfs2.
    pose proof (cleanup_fs w2 {| results := results f ++ [item];
                                 temp_wav := Some t |} t eq_refl) as Hfs3.
    rewrite Hclean in Hfs3. cbn [fst snd] in Hfs3.
    apply (keeps_files_but w w' t Hfresh Hname).
    rewrite Hfs3, Hfs2. exact Hfs1.
Qed.

Lemma for_each_keeps (summarize bullet_list : bool) (lang : string)
    (paths : list string) (w : World) (f : Frame) :
  keeps_files E w
    (fst (snd (for_each paths (process_file E summarize bullet_list lang)
                 (w, f)))).
Proof.
  revert w f. induction paths as [|p paths IH]; intros w f.
  - apply keeps_files_refl.
  - destruct (process_file_cases E summarize bullet_list lang p w f)
      as (w1 & item & tw & Hp & Hcase).
    cbn [for_each]. unfold bind at 1. rewrite Hp.
    eapply keeps_files_trans; [by eapply job_case_keeps|apply IH].
Qed.

End KeptFiles.

(** A batch never deletes a file that was there before it, whatever fails:
    every path that existed still exists when the batch returns, and every
    path that exists then and did not before has a temporary name of the
    converter.  (The converter is taken to write to its output path only.) *)
Theorem batch_never_deletes_a_file (E : Env) (files : option (list string))
    (summarize bullet_list : bool) (lang : string) (j : Job) :
  fs (fst j)
  ⊆ fs (fst (snd (transcribe_many E files summarize bullet_list lang j)))
  /\ forall q,
       q ∈ fs (fst (snd (transcribe_many E files summarize bullet_list lang j)))
       -> q ∈ fs (fst j) \/ temp_name E q.
Proof.
  destruct j as [w f]. rewrite transcribe_many_world.
  exact (for_each_keeps E summarize bullet_list lang (default [] files) w
           {| results := []; temp_wav := temp_wav f |}).
Qed.

(** ** The exits of the converter that leave the temporary file behind *)

Section LeakingExits.

Context (E : Env).

(** The converter cannot be started, for a reason that neither [except]
    clause names: the exception leaves [_convert_to_temp_wav] as it is, and
    the temporary file is still there. *)
Lemma convert_to_temp_wav_launch_fails (filepath lang t : string)
    (w w1 : World) (e : exn) :
  NamedTemporaryFile E "whisper_tmp_" ".wav" w = (Return t, w1) ->
  run E (ffmpeg_cmd filepath t) (tick w1) = RunNotStarted e ->
  isinstance e FileNotFoundError = false ->
  isinstance e CalledProcessError = false ->
  exists w',
    _convert_to_temp_wav E filepath lang w = (Raise e, w')
    /\ fs w' = {[t]} ∪ fs w
    /\ (t ∉ fs w)
    /\ trace w' = trace w ++ [EvRun (ffmpeg_cmd filepath t)].
Proof.
  intros Htmp Hrun Hmissing Hfailed.
  pose proof (mkstemp_inner_spec E (TMP_MAX E) "whisper_tmp_" ".wav" w) as Hspec.
  unfold NamedTemporaryFile in Htmp. rewrite Htmp in Hspec.
  destruct Hspec as (Hfresh & Hfs & _ & _ & Htrace).
  unfold _convert_to_temp_wav, bind, NamedTemporaryFile. rewrite Htmp.
  fold (ffmpeg_cmd filepath t).
  unfold try_except, subprocess_run. rewrite Hrun.
  cbn [find_handler existsb]. rewrite Hmissing, Hfailed. cbn [orb].
  eexists. split; [reflexivity|]. simpl. by rewrite Htrace.
Qed.

(** The binary is absent and the removal of the temporary file fails: the
    error of the removal leaves [_convert_to_temp_wav] in place of the
    conversion error, and the temporary file is still there. *)
Lemma convert_to_temp_wav_removal_fails (filepath lang t : string)
    (w w1 : World) (e : exn) (msg : string) :
  NamedTemporaryFile E "whisper_tmp_" ".wav" w = (Return t, w1) ->
  run E (ffmpeg_cmd filepath t) (tick w1) = RunNotStarted e ->
  isinstance e FileNotFoundError = true ->
  remove_error E t (S (tick w1)) = Some msg ->
  exists w',
    _convert_to_temp_wav E filepath lang w = (Raise (Exn OSError msg), w')
    /\ fs w' = {[t]} ∪ fs w
    /\ (t ∉ fs w)
    /\ trace w' = trace w ++ [EvRun (ffmpeg_cmd filepath t); EvRemove t].
Proof.
  intros Htmp Hrun Hmissing Hremove.
  pose proof (mkstemp_inner_spec E (TMP_MAX E) "whisper_tmp_" ".wav" w) as Hspec.
  unfold NamedTemporaryFile in Htmp. rewrite Htmp in Hspec.
  destruct Hspec as (Hfresh & Hfs & _ & _ & Htrace).
  unfold _convert_to_temp_wav, bind, NamedTemporaryFile. rewrite Htmp.
  fold (ffmpeg_cmd filepath t).
  unfold try_except, subprocess_run. rewrite Hrun.
  cbn [find_handler existsb]. rewrite Hmissing. cbn [orb].
  unfold remove_if_exists, bind, os_path_exists, gets, os_remove.
  cbn [fst snd called fs tick].
  rewrite bool_decide_eq_true_2 by set_solver.
  change (tick (called (EvRun (ffmpeg_cmd filepath t)) w1)) with (S (tick w1)).
  rewrite Hremove.
  eexists. split; [reflexivity|]. simpl. rewrite Htrace.
  by rewrite <- app_assoc.
Qed.

End LeakingExits.

(** C3.  The temporary file outlives the batch on an exit path of the
    converter: when the converter cannot be started for a reason other than
    a missing binary (it may not be executed, say), the exception passes
    both [except] clauses of [_convert_to_temp_wav], which alone remove the
    file, and reaches the loop while its [temp_wav] is still [None], so the
    [finally] block removes nothing.  The batch returns the error record of
    the exception, its only call was the converter, and the file that
    [NamedTemporaryFile] created, which was not there before, is still
    there. *)
Theorem temporary_file_outlives_a_failed_launch (E : Env)
    (summarize bullet_list : bool) (lang p : string) (w : World) (f : Frame)
    (t : string) (w1 : World) (e : exn) :
  p <> EmptyString ->
  p ∈ fs w ->
  _needs_wav_conversion p = true ->
  NamedTemporaryFile E "whisper_tmp_" ".wav" w = (Return t, w1) ->
  run E (ffmpeg_cmd p t) (tick w1) = RunNotStarted e ->
  isinstance e FileNotFoundError = false ->
  isinstance e CalledProcessError = false ->
  exists html j',
    transcribe_many E (Some [p]) summarize bullet_list lang (w, f)
    = (Return (html, [error_item lang p e]), j')
    /\ (t ∉ fs w)
    /\ t ∈ fs (fst j')
    /\ temp_wav (snd j') = None
    /\ trace (fst j') = trace w ++ [EvRun (ffmpeg_cmd p t)].
Proof.
  intros Hp Hin Hneeds Htmp Hrun Hmissing Hfailed.
  destruct (convert_to_temp_wav_launch_fails E p lang t w w1 e Htmp Hrun
              Hmissing Hfailed) as (w' & Hconv & Hfs & Hfresh & Htrace).
  pose proof (process_file_not_converted E summarize bullet_list lang p w w'
                {| results := []; temp_wav := temp_wav f |} e
                Hp Hin Hneeds Hconv) as Hjob.
  exists (_render_results E [error_item lang p e] summarize bullet_list lang),
    (w', {| results := [error_item lang p e]; temp_wav := None |}).
  split.
  { unfold transcribe_many, bind, set_results, modify.
    cbn [fst snd for_each results temp_wav]. unfold bind.
    rewrite Hjob. reflexivity. }
  cbn [fst snd temp_wav]. rewrite Hfs.
  split; [exact Hfresh|]. split; [set_solver|]. by split.
Qed.

Lemma temporary_file_outlives_witness :
  exists html j',
    transcribe_many env_ffmpeg_not_executable (Some ["/data/a.mp3"])
      false false "en" sample_job
    = (Return
         (html,
          [ {| item_file := Some "a.mp3";
               item_text :=
                 Some ("Error during conversion/transcription: "
                       +:+ "[Errno 13] Permission denied: 'ffmpeg'");
               item_summary := Some EmptyString;
               item_bullets := Some EmptyString;
               item_seconds := Some 0%float |} ]), j')
    /\ ("/tmp/whisper_tmp_k3x9a7qz.wav" ∉ fs sample_world)
    /\ "/tmp/whisper_tmp_k3x9a7qz.wav" ∈ fs (fst j')
    /\ trace (fst j')
       = [EvRun (ffmpeg_cmd "/data/a.mp3" "/tmp/whisper_tmp_k3x9a7qz.wav")].
Proof.
  assert ("/data/a.mp3" ∈ fs sample_world) as Hin.
  { compute_done. }
  assert (NamedTemporaryFile env_ffmpeg_not_executable "whisper_tmp_" ".wav"
            sample_world
          = (Return "/tmp/whisper_tmp_k3x9a7qz.wav",
             snd (NamedTemporaryFile env_ffmpeg_not_executable "whisper_tmp_"
                    ".wav" sample_world))) as Htmp.
  { vm_compute. reflexivity. }
  destruct (temporary_file_outlives_a_failed_launch env_ffmpeg_not_executable
              false false "en" "/data/a.mp3" sample_world
              {| results := []; temp_wav := None |} _ _
              (Exn PermissionError "[Errno 13] Permission denied: 'ffmpeg'")
              ltac:(discriminate) Hin eq_refl Htmp eq_refl eq_refl eq_refl)
    as (html & j' & Hrun & Hfresh & Hleft & _ & Htrace).
  exists html, j'. split; [exact Hrun|]. split; [exact Hfresh|].
  split; [exact Hleft|exact Htrace].
Defined.

(** A removal that fails inside the converter is not swallowed: with the
    binary absent and a temporary file that cannot be removed, the record of
    the file carries the error of the removal, not the localized message
    that ffmpeg was not found, and the temporary file is still there. *)
Lemma removal_failure_escapes_the_converter :
  exists html item j',
    transcribe_many env_no_ffmpeg_no_removal (Some ["/data/a.mp3"])
      false false "en" sample_job
    = (Return (html, [item]), j')
    /\ item_text item
       = Some ("Error during conversion/transcription: "
               +:+ "[Errno 13] Permission denied: "
               +:+ "'/tmp/whisper_tmp_k3x9a7qz.wav'")
    /\ "/tmp/whisper_tmp_k3x9a7qz.wav" ∈ fs (fst j')
    /\ trace (fst j')
       = [EvRun (ffmpeg_cmd "/data/a.mp3" "/tmp/whisper_tmp_k3x9a7qz.wav");
          EvRemove "/tmp/whisper_tmp_k3x9a7qz.wav"].
Proof.
  assert ("/data/a.mp3" ∈ fs sample_world) as Hin.
  { compute_done. }
  assert (NamedTemporaryFile env_no_ffmpeg_no_removal "whisper_tmp_" ".wav"
            sample_world
          = (Return "/tmp/whisper_tmp_k3x9a7qz.wav",
             snd (NamedTemporaryFile env_no_ffmpeg_no_removal "whisper_tmp_"
                    ".wav" sample_world))) as Htmp.
  { vm_compute. reflexivity. }
  destruct (convert_to_temp_wav_removal_fails env_no_ffmpeg_no_removal
              "/data/a.mp3" "en" _ sample_world _
              (Exn FileNotFoundError
                 "[Errno 2] No such file or directory: 'ffmpeg'")
              _ Htmp eq_refl eq_refl eq_refl)
    as (w' & Hconv & Hfs & _ & Htrace).
  pose proof (process_file_not_converted env_no_ffmpeg_no_removal false false
                "en" "/data/a.mp3" sample_world w'
                {| results := []; temp_wav := None |} _
                ltac:(discriminate) Hin eq_refl Hconv) as Hjob.
  eexists _, _, (w', {| results := _; temp_wav := None |}).
  split.
  { unfold transcribe_many, bind, set_results, modify.
    cbn [fst snd for_each results temp_wav sample_job]. unfold bind.
    rewrite Hjob. reflexivity. }
  split; [vm_compute; reflexivity|].
  cbn [fst]. rewrite Hfs. split; [set_solver|exact Htrace].
Qed.

(** ** The failures of the endpoint that no [except] clause names *)

(** C8.  A failure of the endpoint can cost the job its transcript.  When
    the connection is reset while the reply is awaited, and when the body of
    the reply is not UTF-8, [_ollama_summary] and [_ollama_bullets] raise
    after their call: [ConnectionResetError] and [UnicodeDecodeError] are
    not among [URLError], [HTTPError] and [JSONDecodeError].  A batch of one
    file that asks for the summary then returns the error record of the
    exception, where the same batch with no mode requested returns the
    transcript. *)
Theorem endpoint_failure_costs_the_transcript :
  (_ollama_summary env_connection_reset "ciao" "en" sample_world
   = (Raise (Exn ConnectionResetError "[Errno 104] Connection reset by peer"),
      called (EvUrlopen (summary_request "ciao" "en")) sample_world)
   /\ _ollama_bullets env_connection_reset "ciao" "en" sample_world
      = (Raise (Exn ConnectionResetError "[Errno 104] Connection reset by peer"),
         called (EvUrlopen (bullets_request "ciao" "en")) sample_world)
   /\ batch_results
        (transcribe_many env_connection_reset (Some ["/data/b.wav"])
           true false "en" sample_job)
      = [ {| item_file := Some "b.wav";
             item_text :=
               Some ("Error during conversion/transcription: "
                     +:+ "[Errno 104] Connection reset by peer");
             item_summary := Some EmptyString;
             item_bullets := Some EmptyString;
             item_seconds := Some 0%float |} ]
   /\ map item_text
        (batch_results
           (transcribe_many env_connection_reset (Some ["/data/b.wav"])
              false false "en" sample_job))
      = [Some "ciao"])
  /\ (_ollama_summary env_body_not_utf8 "ciao" "en" sample_world
      = (Raise
           (Exn UnicodeDecodeError
              ("'utf-8' codec can't decode byte 0xff in position 0: "
               +:+ "invalid start byte")),
         called (EvUrlopen (summary_request "ciao" "en")) sample_world)
      /\ _ollama_bullets env_body_not_utf8 "ciao" "en" sample_world
         = (Raise
              (Exn UnicodeDecodeError
                 ("'utf-8' codec can't decode byte 0xff in position 0: "
                  +:+ "invalid start byte")),
            called (EvUrlopen (bullets_request "ciao" "en")) sample_world)
      /\ batch_results
           (transcribe_many env_body_not_utf8 (Some ["/data/b.wav"])
              false true "en" sample_job)
         = [ {| item_file := Some "b.wav";
                item_text :=
                  Some ("Error during conversion/transcription: "
                        +:+ "'utf-8' codec can't decode byte 0xff in "
                        +:+ "position 0: invalid start byte");
                item_summary := Some EmptyString;
                item_bullets := Some EmptyString;
                item_seconds := Some 0%float |} ]
      /\ map item_text
           (batch_results
              (transcribe_many env_body_not_utf8 (Some ["/data/b.wav"])
                 false false "en" sample_job))
         = [Some "ciao"]).
Proof.
  split; (split; [|split; [|split]]).
  - apply ollama_summary_escapes. by apply EscapesCall.
  - apply ollama_bullets_escapes. by apply EscapesCall.
  - vm_compute. reflexivity.
  - vm_compute. reflexivity.
  - apply ollama_summary_escapes. apply EscapesDecode.
  - apply ollama_bullets_escapes. apply EscapesDecode.
  - vm_compute. reflexivity.
  - vm_compute. reflexivity.
Qed.
